(** * memento-mcp: embedding consistency, reindexing and hybrid retrieval

    A shallow embedding of the TypeScript sources of the embedding
    subsystem: the static model tables ([embeddings/config.ts]), the
    start-up validator ([config/EmbeddingConfigValidator.ts]), the Voyage AI
    embedding service, the Cohere reranking service, the reindex batch
    engine ([storage/neo4j/Neo4jReindexManager.ts]) and the reciprocal rank
    fusion of [Neo4jVectorStore.hybridSearchWithRRF].

    Conventions of the embedding.
    - JavaScript strings are [string]s (byte sequences); white space other
      than the ASCII one is outside the model.
    - Integral JavaScript numbers are [Z] (exact; faithful below 2^53);
      [NaN] is a separate case wherever the source can produce it.
      Scores and similarities are exact rationals [Q].
    - [x || d] and [if (x)] follow JavaScript truthiness: [undefined], the
      empty string, [0], [NaN] and [false] are falsy.
    - External collaborators (the graph database session, the embedding
      provider, the reranking provider, the clock) are functions over an
      abstract [World]; every call that can throw returns an [outcome]. *)

From Stdlib Require Import ZArith QArith String Ascii List Sorted Permutation.
From stdpp Require Import gmap strings list pretty sorting.
Import ListNotations.

Local Open Scope Z_scope.
Local Open Scope string_scope.

(** ** JavaScript primitives used by the sources *)

Module JS.

(** The one-character string holding a double quote. *)
Definition dquote : string := String (ascii_of_nat 34) EmptyString.

(** Truthiness of an optional string ([process.env.X], [config.model]). *)
Definition truthyStr (o : option string) : bool :=
  match o with
  | Some s => negb (String.eqb s EmptyString)
  | None => false
  end.

(** [o || d] on strings. *)
Definition orStr (o : option string) (d : string) : string :=
  match o with
  | Some s => if String.eqb s EmptyString then d else s
  | None => d
  end.

(** Truthiness of an optional integral number. *)
Definition truthyNum (o : option Z) : bool :=
  match o with
  | Some n => negb (n =? 0)%Z
  | None => false
  end.

(** [o || d] on integral numbers. *)
Definition orNum (o : option Z) (d : Z) : Z :=
  match o with
  | Some n => if (n =? 0)%Z then d else n
  | None => d
  end.

(** Truthiness of an optional boolean. *)
Definition truthyBool (o : option bool) : bool :=
  match o with
  | Some b => b
  | None => false
  end.

(** [s.startsWith(p)]. *)
Definition startsWith (s p : string) : bool := String.prefix p s.

(** [s.includes(p)]: [p] occurs somewhere in [s]. *)
Fixpoint includes (s p : string) : bool :=
  String.prefix p s ||
  match s with
  | EmptyString => false
  | String _ s' => includes s' p
  end.

(** [xs.join(sep)]. *)
Fixpoint join (sep : string) (xs : list string) : string :=
  match xs with
  | [] => EmptyString
  | [x] => x
  | x :: rest => x +:+ sep +:+ join sep rest
  end.

(** White space skipped by [parseInt] (ASCII part of StrWhiteSpaceChar). *)
Definition isWhiteSpace (c : ascii) : bool :=
  let n := Z.of_nat (nat_of_ascii c) in
  ((9 <=? n)%Z && (n <=? 13)%Z) || (n =? 32)%Z.

Fixpoint trimStart (s : string) : string :=
  match s with
  | String c s' => if isWhiteSpace c then trimStart s' else s
  | EmptyString => s
  end.

Definition digitValue (c : ascii) : option Z :=
  let n := Z.of_nat (nat_of_ascii c) in
  if (48 <=? n)%Z && (n <=? 57)%Z then Some (n - 48) else None.

(** Value of the longest prefix of decimal digits; [None] when that
    prefix is empty. *)
Fixpoint parseDigits (s : string) (acc : option Z) : option Z :=
  match s with
  | String c s' =>
      match digitValue c with
      | Some d => parseDigits s' (Some (10 * default 0 acc + d))
      | None => acc
      end
  | EmptyString => acc
  end.

(** [parseInt(s, 10)]; [None] is [NaN]. Integral numbers are kept exact:
    this is the value JavaScript computes for every result up to [2^53] in
    magnitude, beyond which a double rounds. *)
Definition parseInt10 (s : string) : option Z :=
  let t := trimStart s in
  let '(sign, body) :=
    match t with
    | String "-"%char r => (-1, r)
    | String "+"%char r => (1, r)
    | _ => (1, t)
    end in
  (fun n => sign * n) <$> parseDigits body None.

(** [isNaN(x)] on the result of [parseInt]. *)
Definition isNaN (x : option Z) : bool :=
  match x with
  | Some _ => false
  | None => true
  end.

(** [a !== b] on results of [parseInt]: [NaN] differs from everything. *)
Definition strictNeqNum (a b : option Z) : bool :=
  match a, b with
  | Some x, Some y => negb (x =? y)%Z
  | _, _ => true
  end.

(** Template-literal rendering of a result of [parseInt], in plain decimal
    digits (as JavaScript renders integers below [10^21] in magnitude). *)
Definition showNum (x : option Z) : string :=
  match x with
  | Some n => pretty n
  | None => "NaN"
  end.

(** Property names every object literal inherits from
    [Object.prototype]. *)
Definition Object_prototype_keys : list string :=
  [ "constructor"; "__defineGetter__"; "__defineSetter__";
    "hasOwnProperty"; "__lookupGetter__"; "__lookupSetter__";
    "isPrototypeOf"; "propertyIsEnumerable"; "toString"; "valueOf";
    "__proto__"; "toLocaleString" ].

Definition inherited (key : string) : bool :=
  existsb (String.eqb key) Object_prototype_keys.

(** Result of reading [table[key]] on an object literal of numbers. *)
Inductive property :=
| Own (n : Z)
| Inherited (key : string)
| Undefined.

Fixpoint ownLookup (table : list (string * Z)) (key : string) : option Z :=
  match table with
  | [] => None
  | (k, v) :: rest => if String.eqb k key then Some v else ownLookup rest key
  end.

(** [table[key]]. *)
Definition get (table : list (string * Z)) (key : string) : property :=
  match ownLookup table key with
  | Some n => Own n
  | None => if inherited key then Inherited key else Undefined
  end.

(** [key in table]. *)
Definition hasProperty (table : list (string * Z)) (key : string) : bool :=
  match get table key with
  | Undefined => false
  | _ => true
  end.

(** [Object.keys(table)]. *)
Definition keys (table : list (string * Z)) : list string := map fst table.

(** The one-character string holding a line feed. *)
Definition nl : string := String (ascii_of_nat 10) EmptyString.

(** Relative index of [Array.prototype.slice]. *)
Definition clampIndex (len i : Z) : Z :=
  if (i <? 0)%Z then Z.max (len + i) 0 else Z.min i len.

(** [xs.slice(start, stop)]. *)
Definition slice {A} (xs : list A) (start stop : Z) : list A :=
  let len := Z.of_nat (length xs) in
  let from := clampIndex len start in
  let upto := clampIndex len stop in
  firstn (Z.to_nat (upto - from)) (skipn (Z.to_nat from) xs).

End JS.

(** ** embeddings/config.ts *)

(** What a dimension lookup evaluates to: a number, or (for a model name
    that happens to be an inherited property name) the inherited member of
    [Object.prototype] itself. *)
Inductive dimension :=
| Dim (n : Z)
| ProtoMember (key : string).

Definition dimension_eqb (a b : dimension) : bool :=
  match a, b with
  | Dim x, Dim y => (x =? y)%Z
  | ProtoMember k, ProtoMember k' => String.eqb k k'
  | _, _ => false
  end.

(** Template-literal rendering of a dimension. A number is rendered in
    plain decimal digits, as JavaScript does for every integer below
    [10^21] in magnitude; an inherited member is the prototype object
    itself ([__proto__]), the [Object] function ([constructor]) or a method
    named after its key. *)
Definition showDimension (d : dimension) : string :=
  match d with
  | Dim n => pretty n
  | ProtoMember k =>
      if String.eqb k "__proto__" then "[object Object]"
      else if String.eqb k "constructor" then "function Object() { [native code] }"
      else "function " +:+ k +:+ "() { [native code] }"
  end.

Definition OPENAI_MODEL_DIMENSIONS : list (string * Z) :=
  [ ("text-embedding-3-small", 1536);
    ("text-embedding-3-large", 3072);
    ("text-embedding-ada-002", 1536) ].

Definition VOYAGE_MODEL_DIMENSIONS : list (string * Z) :=
  [ ("voyage-3", 1024);
    ("voyage-3-large", 1024);
    ("voyage-3-lite", 512);
    ("voyage-finance-2", 1024);
    ("voyage-multilingual-2", 1024);
    ("voyage-law-2", 1024);
    ("voyage-code-2", 1536);
    ("voyage-2", 1024);
    ("voyage-large-2", 1536);
    ("voyage-large-2-instruct", 1024) ].

(** [table[modelName] || fallback]. *)
Definition lookupOr (table : list (string * Z)) (modelName : string)
    (fallback : Z) : dimension :=
  match JS.get table modelName with
  | JS.Own n => if (n =? 0)%Z then Dim fallback else Dim n
  | JS.Inherited k => ProtoMember k
  | JS.Undefined => Dim fallback
  end.

Definition getModelDimensions (modelName : string) : dimension :=
  if JS.startsWith modelName "voyage-" then
    lookupOr VOYAGE_MODEL_DIMENSIONS modelName 1024
  else
    lookupOr OPENAI_MODEL_DIMENSIONS modelName 1536.

(** ** config/EmbeddingConfigValidator.ts *)

Module EmbeddingConfigValidator.

Record EmbeddingConfigSummary := {
  provider : string;
  model : string;
  dimensions : dimension;
  dimensionsSource : string;
  vectorIndexDimensions : dimension;
  vectorIndexSource : string;
  dimensionsMatch : bool;
  apiKeyConfigured : bool;
  mockEmbeddings : bool
}.

Record ConfigValidationResult := {
  isValid : bool;
  warnings : list string;
  errors : list string;
  config : EmbeddingConfigSummary
}.

(** [process.env]. *)
Abbreviation Env := (gmap string string).

(** [xs.push(x)] guarded by [cond]. *)
Definition pushIf (cond : bool) (x : string) (xs : list string) : list string :=
  if cond then (xs ++ [x])%list else xs.

Definition unrecognizedModelWarning (embeddingModel : string) : string :=
  "Unrecognized embedding model " +:+ JS.dquote +:+ embeddingModel +:+ JS.dquote +:+ ". " +:+
  "Known models: " +:+ JS.join ", " (JS.keys OPENAI_MODEL_DIMENSIONS).

Definition invalidEmbeddingDimensionsError (raw : string) : string :=
  "Invalid OPENAI_EMBEDDING_DIMENSIONS: " +:+ JS.dquote +:+ raw +:+ JS.dquote +:+ " is not a number".

Definition invalidVectorDimensionsError (raw : string) : string :=
  "Invalid NEO4J_VECTOR_DIMENSIONS: " +:+ JS.dquote +:+ raw +:+ JS.dquote +:+ " is not a number".

Definition mismatchError (embeddingDimensions vectorIndexDimensions : dimension)
    : string :=
  "Embedding dimensions mismatch! " +:+
  "Embedding service will generate " +:+ showDimension embeddingDimensions +:+
  "D vectors, " +:+
  "but vector index expects " +:+ showDimension vectorIndexDimensions +:+
  "D vectors. " +:+
  "This will cause vector storage and search to fail.".

Definition noApiKeyWarning : string :=
  "No OPENAI_API_KEY configured. Embedding generation will use fallback/mock service.".

Definition mockWarning : string :=
  "MOCK_EMBEDDINGS=true is set. Using mock embedding service (not suitable for production).".

Definition conflictWarning (embDims vectorDims : option Z) : string :=
  "Both OPENAI_EMBEDDING_DIMENSIONS (" +:+ JS.showNum embDims +:+
  ") and NEO4J_VECTOR_DIMENSIONS (" +:+ JS.showNum vectorDims +:+ ") are set " +:+
  "with different values. This is likely unintentional.".

(** [process.env.OPENAI_EMBEDDING_MODEL || 'text-embedding-3-small']. *)
Definition modelOf (env : Env) : string :=
  JS.orStr (env !! "OPENAI_EMBEDDING_MODEL") "text-embedding-3-small".

(** Resolution of the embedding dimension: the value, its source and the
    error recorded on the way, if any. *)
Definition resolveEmbeddingDimensions (env : Env) (embeddingModel : string)
    : dimension * string * list string :=
  if JS.truthyStr (env !! "OPENAI_EMBEDDING_DIMENSIONS") then
    let raw := default EmptyString (env !! "OPENAI_EMBEDDING_DIMENSIONS") in
    match JS.parseInt10 raw with
    | Some n => (Dim n, "OPENAI_EMBEDDING_DIMENSIONS env var", [])
    | None =>
        (getModelDimensions embeddingModel,
         "fallback: inferred from model " +:+ embeddingModel,
         [invalidEmbeddingDimensionsError raw])
    end
  else
    (getModelDimensions embeddingModel,
     "inferred from model " +:+ embeddingModel, []).

(** Resolution of the vector index dimension. *)
Definition resolveVectorIndexDimensions (env : Env)
    (embeddingDimensions : dimension) : dimension * string * list string :=
  if JS.truthyStr (env !! "NEO4J_VECTOR_DIMENSIONS") then
    let raw := default EmptyString (env !! "NEO4J_VECTOR_DIMENSIONS") in
    match JS.parseInt10 raw with
    | Some n => (Dim n, "NEO4J_VECTOR_DIMENSIONS env var", [])
    | None =>
        (embeddingDimensions,
         "fallback: matching embedding dimensions (" +:+
           showDimension embeddingDimensions +:+ ")",
         [invalidVectorDimensionsError raw])
    end
  else
    (embeddingDimensions,
     "inferred from embedding config (" +:+
       showDimension embeddingDimensions +:+ ")", []).

Definition validate (env : Env) : ConfigValidationResult :=
  let mockEmbeddings :=
    match env !! "MOCK_EMBEDDINGS" with
    | Some s => String.eqb s "true"
    | None => false
    end in
  let apiKeyConfigured := JS.truthyStr (env !! "OPENAI_API_KEY") in
  let embeddingModel := modelOf env in
  let isRecognizedModel := JS.hasProperty OPENAI_MODEL_DIMENSIONS embeddingModel in
  let warnings1 :=
    pushIf (negb isRecognizedModel && negb mockEmbeddings)
      (unrecognizedModelWarning embeddingModel) [] in
  let '(embeddingDimensions, dimensionsSource, errors1) :=
    resolveEmbeddingDimensions env embeddingModel in
  let '(vectorIndexDimensions, vectorIndexSource, errors2) :=
    resolveVectorIndexDimensions env embeddingDimensions in
  let dimensionsMatch := dimension_eqb embeddingDimensions vectorIndexDimensions in
  let errors3 :=
    pushIf (negb dimensionsMatch)
      (mismatchError embeddingDimensions vectorIndexDimensions)
      (errors1 ++ errors2)%list in
  let warnings2 :=
    pushIf (negb apiKeyConfigured && negb mockEmbeddings) noApiKeyWarning warnings1 in
  let warnings3 := pushIf mockEmbeddings mockWarning warnings2 in
  let warnings4 :=
    if JS.truthyStr (env !! "OPENAI_EMBEDDING_DIMENSIONS") &&
       JS.truthyStr (env !! "NEO4J_VECTOR_DIMENSIONS") then
      let embDims :=
        JS.parseInt10 (default EmptyString (env !! "OPENAI_EMBEDDING_DIMENSIONS")) in
      let vectorDims :=
        JS.parseInt10 (default EmptyString (env !! "NEO4J_VECTOR_DIMENSIONS")) in
      pushIf (JS.strictNeqNum embDims vectorDims)
        (conflictWarning embDims vectorDims) warnings3
    else warnings3 in
  {| isValid := Nat.eqb (length errors3) 0;
     warnings := warnings4;
     errors := errors3;
     config :=
       {| provider := if mockEmbeddings then "mock" else "openai";
          model := embeddingModel;
          dimensions := embeddingDimensions;
          dimensionsSource := dimensionsSource;
          vectorIndexDimensions := vectorIndexDimensions;
          vectorIndexSource := vectorIndexSource;
          dimensionsMatch := dimensionsMatch;
          apiKeyConfigured := apiKeyConfigured;
          mockEmbeddings := mockEmbeddings |} |}.

End EmbeddingConfigValidator.


(** ** Effects: thrown values, outcomes, state passing *)

(** A thrown JavaScript value: an instance of [Error] (with the name of its
    class and its message) or any other value (with its [String(...)]
    rendering). *)
Inductive thrown :=
| ErrorObject (className : string) (message : string)
| OtherValue (rendering : string).

(** [new Error(message)]. *)
Definition newError (message : string) : thrown := ErrorObject "Error" message.

(** The kind of a thrown value, as [instanceof] / [constructor.name] see it. *)
Definition kindOf (e : thrown) : option string :=
  match e with
  | ErrorObject c _ => Some c
  | OtherValue _ => None
  end.

(** [error instanceof Error ? error.message : String(error)], the private
    [_getErrorMessage] of both services and the inline expression of the
    reindex manager. *)
Definition getErrorMessage (e : thrown) : string :=
  match e with
  | ErrorObject _ m => m
  | OtherValue r => r
  end.

Inductive outcome (A : Type) :=
| Returned (a : A)
| Raised (e : thrown).
Arguments Returned {A} a.
Arguments Raised {A} e.

(** Computations over a state [S] that may throw. *)
Definition M (S A : Type) : Type := S -> outcome A * S.

Definition ret {S A} (a : A) : M S A := fun s => (Returned a, s).

Definition throw {S A} (e : thrown) : M S A := fun s => (Raised e, s).

Definition bind {S A B} (m : M S A) (k : A -> M S B) : M S B :=
  fun s =>
    match m s with
    | (Returned a, s') => k a s'
    | (Raised e, s') => (Raised e, s')
    end.

(** [try { m } catch (error) { handler error }]. *)
Definition tryCatch {S A} (m : M S A) (handler : thrown -> M S A) : M S A :=
  fun s =>
    match m s with
    | (Returned a, s') => (Returned a, s')
    | (Raised e, s') => handler e s'
    end.

Notation "'let!' x ':=' m 'in' k" := (bind m (fun x => k))
  (at level 10, x name, m at level 100, k at level 200).

(** JSON-like values stored in metadata objects. *)
Inductive jsval :=
| VNum (q : Q)
| VInt (n : Z)
| VStr (s : string)
| VUndefined.

(** ** embeddings/EmbeddingService.ts: the provider interface *)

Module EmbeddingService.

Record EmbeddingModelInfo := {
  name : string;
  dimensions : dimension;
  version : string
}.

(** [IEmbeddingService]: what the reindex manager uses of a provider. *)
Record IEmbeddingService (S : Type) := {
  generateEmbedding : string -> M S (list Q);
  getModelInfo : EmbeddingModelInfo
}.
Arguments generateEmbedding {S} _ _ _.
Arguments getModelInfo {S} _.

End EmbeddingService.

(** Classification of a caught provider failure by the text of its message,
    shared verbatim by [VoyageAIEmbeddingService.generateEmbedding] and
    [CohereRerankingService.rerank]: [api] is the provider name and
    [otherwise] the prefix of the generic error. *)
Definition classifyFailure (api otherwise : string) (error : thrown) : thrown :=
  let errorMessage := getErrorMessage error in
  if JS.includes errorMessage "401" || JS.includes errorMessage "authentication" then
    newError (api +:+ " API authentication failed - invalid API key")
  else if JS.includes errorMessage "429" || JS.includes errorMessage "rate limit" then
    newError (api +:+ " API rate limit exceeded - try again later")
  else if JS.includes errorMessage "500" || JS.includes errorMessage "503" then
    newError (api +:+ " API server error - try again later")
  else
    newError (otherwise +:+ errorMessage).

(** ** embeddings/VoyageAIEmbeddingService.ts *)

Module VoyageAI.

Inductive InputType := query | document.

Record VoyageAIEmbeddingConfig := {
  cfg_apiKey : string;
  cfg_model : option string;
  cfg_dimensions : option Z;
  cfg_version : option string;
  cfg_inputType : option InputType
}.

(** The private fields of a service instance. *)
Record VoyageAIEmbeddingService := {
  apiKey : string;
  model : string;
  dimensions : dimension;
  version : string;
  inputType : InputType
}.

(** The request handed to [client.embed]. *)
Record EmbedParams := {
  input : list string;
  req_model : string;
  req_inputType : option InputType;
  outputDimension : option dimension
}.

Record EmbedItem := { embedding : option (list Q) }.

Record EmbedResponse := { data : option (list EmbedItem) }.

(** [VoyageAIClient.embed]; [None] is an absent response. *)
Definition Client (S : Type) : Type := EmbedParams -> M S (option EmbedResponse).

(** The constructor. *)
Definition new (env : gmap string string) (config : VoyageAIEmbeddingConfig)
    : outcome VoyageAIEmbeddingService :=
  if negb (JS.truthyStr (Some (cfg_apiKey config))) &&
     negb (JS.truthyStr (env !! "VOYAGE_API_KEY")) then
    Raised (newError "API key is required for Voyage AI embedding service")
  else
    let key :=
      JS.orStr (Some (cfg_apiKey config))
        (JS.orStr (env !! "VOYAGE_API_KEY") EmptyString) in
    let m :=
      JS.orStr (cfg_model config)
        (JS.orStr (env !! "VOYAGE_EMBEDDING_MODEL") "voyage-3-large") in
    let dims :=
      if JS.truthyNum (cfg_dimensions config)
      then Dim (default 0 (cfg_dimensions config))
      else getModelDimensions m in
    Returned
      {| apiKey := key;
         model := m;
         dimensions := dims;
         version := JS.orStr (cfg_version config) "3.0.0";
         inputType := default document (cfg_inputType config) |}.

(** Truthiness of [this.dimensions]. *)
Definition truthyDimension (d : dimension) : bool :=
  match d with
  | Dim n => negb (n =? 0)%Z
  | ProtoMember _ => true
  end.

(** The request both [generateEmbedding] and [generateEmbeddings] build. *)
Definition embedParams (this : VoyageAIEmbeddingService) (texts : list string)
    : EmbedParams :=
  {| input := texts;
     req_model := model this;
     req_inputType := Some (inputType this);
     outputDimension :=
       if JS.startsWith (model this) "voyage-3" && truthyDimension (dimensions this)
       then Some (dimensions this)
       else None |}.

Definition generateEmbedding {S} (client : Client S)
    (this : VoyageAIEmbeddingService) (text : string) : M S (list Q) :=
  tryCatch
    (let! response := client (embedParams this [text]) in
     match response with
     | Some {| data := Some ({| embedding := Some emb |} :: _) |} =>
         match emb with
         | [] => throw (newError "Invalid embedding returned from Voyage AI API")
         | _ => ret emb
         end
     | _ =>
         throw (newError "Invalid response from Voyage AI API - missing embedding data")
     end)
    (fun error =>
       throw (classifyFailure "Voyage AI" "Error generating embedding: " error)).

(** [response.data.map(item => ...)] of the batch form: every item must
    carry an embedding. *)
Fixpoint collectEmbeddings (items : list EmbedItem) : outcome (list (list Q)) :=
  match items with
  | [] => Returned []
  | {| embedding := Some emb |} :: rest =>
      match collectEmbeddings rest with
      | Returned embs => Returned (emb :: embs)
      | Raised e => Raised e
      end
  | {| embedding := None |} :: _ =>
      Raised (newError "Invalid embedding in batch response")
  end.


Definition getModelInfo (this : VoyageAIEmbeddingService)
    : EmbeddingService.EmbeddingModelInfo :=
  {| EmbeddingService.name := model this;
     EmbeddingService.dimensions := dimensions this;
     EmbeddingService.version := version this |}.

(** The service seen through the provider interface. *)
Definition asService {S} (client : Client S) (this : VoyageAIEmbeddingService)
    : EmbeddingService.IEmbeddingService S :=
  {| EmbeddingService.generateEmbedding := generateEmbedding client this;
     EmbeddingService.getModelInfo := getModelInfo this |}.

End VoyageAI.

(** ** types/vector-store.ts *)

Module VectorStore.

Record VectorSearchResult := {
  id : string;
  similarity : Q;
  metadata : gmap string jsval
}.

End VectorStore.

(** ** reranking/CohereRerankingService.ts *)

Module Cohere.

Record CohereRerankingConfig := {
  cfg_apiKey : string;
  cfg_model : option string;
  cfg_topN : option Z
}.

Record CohereRerankingService := {
  model : string;
  topN : option Z
}.

Record RerankDocument := {
  doc_id : string;
  text : string;
  doc_metadata : option (gmap string jsval)
}.

Record RerankResult := {
  res_id : string;
  score : jsval;
  relevanceScore : Q;
  res_metadata : gmap string jsval
}.

(** The request handed to [client.rerank]. *)
Record RerankRequest := {
  req_query : string;
  req_documents : list string;
  req_model : string;
  req_topN : Z
}.

Record CohereResult := { index : Z; result_relevanceScore : Q }.

Record RerankResponse := { results : option (list CohereResult) }.

(** [CohereClientV2.rerank]; [None] is an absent response. *)
Definition Client (S : Type) : Type := RerankRequest -> M S (option RerankResponse).

(** The constructor. *)
Definition new (env : gmap string string) (config : CohereRerankingConfig)
    : outcome CohereRerankingService :=
  if negb (JS.truthyStr (Some (cfg_apiKey config))) &&
     negb (JS.truthyStr (env !! "COHERE_API_KEY")) then
    Raised (newError "API key is required for Cohere reranking service")
  else
    Returned
      {| model :=
           JS.orStr (cfg_model config)
             (JS.orStr (env !! "COHERE_RERANK_MODEL") "rerank-english-v3.0");
         topN := cfg_topN config |}.

(** [documents[i]] for an integral index. *)
Definition at_index {A} (xs : list A) (i : Z) : option A :=
  if (i <? 0)%Z then None else nth_error xs (Z.to_nat i).

(** The [TypeError] of reading a property of [undefined]. *)
Definition readOfUndefined (prop : string) : thrown :=
  ErrorObject "TypeError"
    ("Cannot read properties of undefined (reading '" +:+ prop +:+ "')").

(** The body of [response.results.map(...)] for one provider result. *)
Definition toRerankResult (documents : list RerankDocument) (result : CohereResult)
    : outcome RerankResult :=
  match at_index documents (index result) with
  | None => Raised (readOfUndefined "id")
  | Some originalDoc =>
      let md := default ∅ (doc_metadata originalDoc) in
      Returned
        {| res_id := doc_id originalDoc;
           score := default VUndefined (md !! "originalScore");
           relevanceScore := result_relevanceScore result;
           res_metadata :=
             <["rerankIndex" := VInt (index result)]>
               (<["rerankScore" := VNum (result_relevanceScore result)]> md) |}
  end.

Fixpoint mapResults (documents : list RerankDocument) (rs : list CohereResult)
    : outcome (list RerankResult) :=
  match rs with
  | [] => Returned []
  | r :: rest =>
      match toRerankResult documents r with
      | Raised e => Raised e
      | Returned x =>
          match mapResults documents rest with
          | Raised e => Raised e
          | Returned xs => Returned (x :: xs)
          end
      end
  end.

(** The request [rerank] sends for a non-empty list of documents. *)
Definition rerankRequest (this : CohereRerankingService) (query : string)
    (documents : list RerankDocument) (topN_arg : option Z) : RerankRequest :=
  let resultCount :=
    JS.orNum topN_arg (JS.orNum (topN this) (Z.of_nat (length documents))) in
  {| req_query := query;
     req_documents := map text documents;
     req_model := model this;
     req_topN := resultCount |}.

Definition rerank {S} (client : Client S) (this : CohereRerankingService)
    (query : string) (documents : list RerankDocument) (topN_arg : option Z)
    : M S (list RerankResult) :=
  match documents with
  | [] => ret []
  | _ =>
      tryCatch
        (let! response := client (rerankRequest this query documents topN_arg) in
         match response with
         | Some {| results := Some rs |} =>
             match mapResults documents rs with
             | Returned rerankedResults => ret rerankedResults
             | Raised e => throw e
             end
         | _ => throw (newError "Invalid response from Cohere rerank API")
         end)
        (fun error =>
           throw (classifyFailure "Cohere" "Error reranking documents: " error))
  end.

(** [results.map(...)] building the documents to rerank. *)
Definition toDocument (entityTexts : gmap string string)
    (result : VectorStore.VectorSearchResult) : RerankDocument :=
  {| doc_id := VectorStore.id result;
     text := JS.orStr (entityTexts !! VectorStore.id result) (VectorStore.id result);
     doc_metadata :=
       Some (<["originalScore" := VNum (VectorStore.similarity result)]>
               (VectorStore.metadata result)) |}.

(** [rerankedResults.map(...)] converting back. *)
Definition toVectorSearchResult (result : RerankResult)
    : VectorStore.VectorSearchResult :=
  {| VectorStore.id := res_id result;
     VectorStore.similarity := relevanceScore result;
     VectorStore.metadata :=
       <["searchMethod" := VStr "vector+rerank"]>
         (<["originalSimilarity" := score result]> (res_metadata result)) |}.

Definition rerankVectorSearchResults {S} (client : Client S)
    (this : CohereRerankingService) (query : string)
    (results : list VectorStore.VectorSearchResult)
    (entityTexts : gmap string string) (topN_arg : option Z)
    : M S (list VectorStore.VectorSearchResult) :=
  match results with
  | [] => ret []
  | _ =>
      let documents := map (toDocument entityTexts) results in
      let! rerankedResults := rerank client this query documents topN_arg in
      ret (map toVectorSearchResult rerankedResults)
  end.

(** What one provider result turns into, in terms of the input it points at. *)
Definition rerankedFrom (results : list VectorStore.VectorSearchResult)
    (r : CohereResult) (x : RerankResult) : Prop :=
  ∃ orig,
    at_index results (index r) = Some orig ∧
    res_id x = VectorStore.id orig ∧
    score x = VNum (VectorStore.similarity orig) ∧
    relevanceScore x = result_relevanceScore r.

End Cohere.

(** ** storage/neo4j/Neo4jReindexManager.ts *)

Module Reindex.

Record ReindexOptions := {
  batchSize : option Z;
  entityTypes : option (list string);
  namePattern : option string;
  onlyMissing : option bool;
  force : option bool;
  dryRun : option bool;
  limit : option Z;
  (** whether a progress callback is installed; the callback is an
      observer, its calls are recorded in the trace *)
  onProgress : bool;
  batchDelay : option Z;
  customQuery : option string;
  customQueryParams : option (gmap string jsval)
}.

Record ReindexProgress := {
  p_total : Z;
  p_processed : Z;
  p_succeeded : Z;
  p_failed : Z;
  p_skipped : Z;
  percentage : Q;
  currentBatch : Z;
  totalBatches : Z;
  estimatedTimeRemaining : Q
}.

Record ReindexError := { entityName : string; error : string }.

Record ReindexResult := {
  total : Z;
  processed : Z;
  succeeded : Z;
  failed : Z;
  skipped : Z;
  errors : list ReindexError;
  duration : Z
}.

Record EntityBatch := {
  name : string;
  type : string;
  observations : list string
}.

(** Parameters sent along with a selection or count query. *)
Inductive QueryParams :=
| FilterParams (entityTypes : list string) (namePattern : string)
| CustomParams (params : gmap string jsval).

(** Parameters of the write issued by [storeEmbedding]. *)
Record StoreParams := {
  sp_name : string;
  sp_embedding : list Q;
  sp_model : string;
  sp_dimensions : dimension
}.

(** The collaborators behind the connection manager and the runtime:
    [session.run] at its three call sites (selection with the mapping of the
    records, count, write), [Date.now] and the timer. *)
Record Runtime (W : Type) := {
  runSelect : string -> QueryParams -> M W (list EntityBatch);
  runCount : string -> QueryParams -> M W Z;
  runStore : StoreParams -> M W unit;
  now : W -> Z;
  sleep : Z -> W -> W
}.
Arguments runSelect {W} _ _ _ _.
Arguments runCount {W} _ _ _ _.
Arguments runStore {W} _ _ _.
Arguments now {W} _ _.
Arguments sleep {W} _ _ _.

(** What a run does to the outside, in order. *)
Inductive event :=
| Select (query : string) (params : QueryParams)
| Count (query : string) (params : QueryParams)
| Generate (text : string)
| Store (params : StoreParams)
| Progress (progress : ReindexProgress)
| Sleep (ms : Z).

Record state (W : Type) := { world : W; trace : list event }.
Arguments world {W} _.
Arguments trace {W} _.

(** Runs a collaborator on the world and records the call. *)
Definition perform {W A} (ev : event) (m : M W A) : M (state W) A :=
  fun s =>
    let '(r, w) := m (world s) in
    (r, {| world := w; trace := (trace s ++ [ev])%list |}).

(** [conditions] of [getEntitiesToReindex] and [countEntitiesForReindex]
    (the same statements in both). *)
Definition conditions (options : ReindexOptions) : list string :=
  let c0 := ["e.validTo = 9223372036854775807"] in
  let c1 :=
    match entityTypes options with
    | Some (_ :: _) => (c0 ++ ["e.entityType IN $entityTypes"])%list
    | _ => c0
    end in
  let c2 :=
    if JS.truthyStr (namePattern options)
    then (c1 ++ ["e.name =~ $namePattern"])%list else c1 in
  if JS.truthyBool (onlyMissing options) then (c2 ++ ["e.embedding IS NULL"])%list
  else if negb (JS.truthyBool (force options)) then (c2 ++ ["e.embedding IS NULL"])%list
  else c2.


Definition whereClause (options : ReindexOptions) : string :=
  match conditions options with
  | [] => EmptyString
  | cs => "WHERE " +:+ JS.join " AND " cs
  end.

Definition filterParams (options : ReindexOptions) : QueryParams :=
  FilterParams
    (default [] (entityTypes options))
    (JS.orStr (namePattern options) ".*").

Definition customParams (options : ReindexOptions) : QueryParams :=
  CustomParams (default ∅ (customQueryParams options)).

(** The query and parameters [getEntitiesToReindex] sends. *)
Definition selectionQuery (options : ReindexOptions) : string * QueryParams :=
  if JS.truthyStr (customQuery options) then
    (default EmptyString (customQuery options), customParams options)
  else
    let limitClause :=
      if JS.truthyNum (limit options)
      then "LIMIT " +:+ pretty (default 0 (limit options))
      else EmptyString in
    (JS.nl +:+
     "          MATCH (e:Entity)" +:+ JS.nl +:+
     "          " +:+ whereClause options +:+ JS.nl +:+
     "          RETURN e.name as name, e.entityType as type, e.observations as observations" +:+ JS.nl +:+
     "          ORDER BY e.createdAt DESC" +:+ JS.nl +:+
     "          " +:+ limitClause +:+ JS.nl +:+
     "        ",
     filterParams options).

(** The query and parameters [countEntitiesForReindex] sends. *)
Definition countQuery (options : ReindexOptions) : string * QueryParams :=
  if JS.truthyStr (customQuery options) then
    (JS.nl +:+
     "          WITH (" +:+ default EmptyString (customQuery options) +:+
       ") as subquery" +:+ JS.nl +:+
     "          RETURN count(*) as count" +:+ JS.nl +:+
     "        ",
     customParams options)
  else
    (JS.nl +:+
     "          MATCH (e:Entity)" +:+ JS.nl +:+
     "          " +:+ whereClause options +:+ JS.nl +:+
     "          RETURN count(e) as count" +:+ JS.nl +:+
     "        ",
     filterParams options).

Definition getEntitiesToReindex {W} (rt : Runtime W) (options : ReindexOptions)
    : M (state W) (list EntityBatch) :=
  let '(q, params) := selectionQuery options in
  perform (Select q params) (runSelect rt q params).

Definition countEntitiesForReindex {W} (rt : Runtime W) (options : ReindexOptions)
    : M (state W) Z :=
  let '(q, params) := countQuery options in
  perform (Count q params) (runCount rt q params).

Definition generateEmbeddingText (entity : EntityBatch) : string :=
  let parts := ["Entity: " +:+ name entity; "Type: " +:+ type entity] in
  let parts :=
    match observations entity with
    | [] => parts
    | obs => (parts ++ ["Observations: " +:+ JS.join "; " obs])%list
    end in
  JS.join JS.nl parts.

Definition storeEmbedding {W} (rt : Runtime W) (entityName : string)
    (embedding : list Q) (svc : EmbeddingService.IEmbeddingService W)
    : M (state W) unit :=
  let modelInfo := EmbeddingService.getModelInfo svc in
  let params :=
    {| sp_name := entityName;
       sp_embedding := embedding;
       sp_model := EmbeddingService.name modelInfo;
       sp_dimensions := EmbeddingService.dimensions modelInfo |} in
  perform (Store params) (runStore rt params).

(** The body of the [try] block: text, generation, storage. *)
Definition reindexEntity {W} (rt : Runtime W)
    (svc : EmbeddingService.IEmbeddingService W) (entity : EntityBatch)
    : M (state W) unit :=
  let text := generateEmbeddingText entity in
  let! embedding :=
    perform (Generate text) (EmbeddingService.generateEmbedding svc text) in
  storeEmbedding rt (name entity) embedding svc.

(** The mutable locals of [reindexEmbeddings]. *)
Record Counters := {
  c_processed : Z;
  c_succeeded : Z;
  c_failed : Z;
  c_skipped : Z;
  c_errors : list ReindexError
}.

Definition zeroCounters : Counters :=
  {| c_processed := 0; c_succeeded := 0; c_failed := 0; c_skipped := 0;
     c_errors := [] |}.

(** The counters after the [try] / [catch] and [processed++]. *)
Definition account (entity : EntityBatch) (r : outcome unit) (c : Counters)
    : Counters :=
  match r with
  | Returned _ =>
      {| c_processed := c_processed c + 1;
         c_succeeded := c_succeeded c + 1;
         c_failed := c_failed c;
         c_skipped := c_skipped c;
         c_errors := c_errors c |}
  | Raised e =>
      {| c_processed := c_processed c + 1;
         c_succeeded := c_succeeded c;
         c_failed := c_failed c + 1;
         c_skipped := c_skipped c;
         c_errors :=
           (c_errors c ++
            [{| entityName := name entity; error := getErrorMessage e |}])%list |}
  end.

Definition progressOf {W} (rt : Runtime W) (total startTime cur tot : Z)
    (c : Counters) (w : W) : ReindexProgress :=
  let elapsed := now rt w - startTime in
  let avgTimePerEntity := (inject_Z elapsed / inject_Z (c_processed c))%Q in
  let remaining := total - c_processed c in
  {| p_total := total;
     p_processed := c_processed c;
     p_succeeded := c_succeeded c;
     p_failed := c_failed c;
     p_skipped := c_skipped c;
     percentage := ((inject_Z (c_processed c) / inject_Z total) * 100)%Q;
     currentBatch := cur;
     totalBatches := tot;
     estimatedTimeRemaining := (avgTimePerEntity * inject_Z remaining)%Q |}.

(** One iteration of [for (const entity of batch)]. *)
Definition processEntity {W} (rt : Runtime W)
    (svc : EmbeddingService.IEmbeddingService W) (options : ReindexOptions)
    (total startTime cur tot : Z) (cs : Counters * state W) (entity : EntityBatch)
    : Counters * state W :=
  let '(c, s) := cs in
  let '(r, s1) := reindexEntity rt svc entity s in
  let c1 := account entity r c in
  if onProgress options then
    (c1, {| world := world s1;
            trace := (trace s1 ++
                      [Progress (progressOf rt total startTime cur tot c1 (world s1))])%list |})
  else (c1, s1).

Definition processBatch {W} (rt : Runtime W)
    (svc : EmbeddingService.IEmbeddingService W) (options : ReindexOptions)
    (total startTime cur tot : Z) (batch : list EntityBatch)
    (cs : Counters * state W) : Counters * state W :=
  fold_left (processEntity rt svc options total startTime cur tot) batch cs.

(** [await new Promise(resolve => setTimeout(resolve, ms))]. *)
Definition wait {W} (rt : Runtime W) (ms : Z) (s : state W) : state W :=
  {| world := sleep rt ms (world s); trace := (trace s ++ [Sleep ms])%list |}.

(** [for (let i = 0; i < entities.length; i += batchSize)], with [fuel]
    bounding the number of iterations; [None] when the fuel runs out. *)
Fixpoint batchLoop {W} (fuel : nat) (rt : Runtime W)
    (svc : EmbeddingService.IEmbeddingService W) (options : ReindexOptions)
    (entities : list EntityBatch) (bSize bDelay startTime tot i : Z)
    (cs : Counters * state W) : option (Counters * state W) :=
  let len := Z.of_nat (length entities) in
  if (i <? len)%Z then
    match fuel with
    | O => None
    | S fuel' =>
        let batch := JS.slice entities i (i + bSize) in
        let cur := i / bSize + 1 in
        let '(c, s) := processBatch rt svc options len startTime cur tot batch cs in
        let s' :=
          if (i + bSize <? len)%Z && (bDelay >? 0)%Z then wait rt bDelay s else s in
        batchLoop fuel' rt svc options entities bSize bDelay startTime tot
          (i + bSize) (c, s')
    end
  else Some cs.

Definition resultOf (total : Z) (c : Counters) (duration : Z) : ReindexResult :=
  {| total := total;
     processed := c_processed c;
     succeeded := c_succeeded c;
     failed := c_failed c;
     skipped := c_skipped c;
     errors := c_errors c;
     duration := duration |}.

(** [Math.ceil(a / b)] on integers. *)
Definition ceilDiv (a b : Z) : Z := - ((- a) / b).

Definition reindexEmbeddings {W} (fuel : nat) (rt : Runtime W)
    (svc : EmbeddingService.IEmbeddingService W) (options : ReindexOptions)
    (s0 : state W) : option (outcome ReindexResult * state W) :=
  let startTime := now rt (world s0) in
  let bSize := JS.orNum (batchSize options) 10 in
  let bDelay := JS.orNum (batchDelay options) 1000 in
  match getEntitiesToReindex rt options s0 with
  | (Raised e, s1) => Some (Raised e, s1)
  | (Returned entities, s1) =>
      let total := Z.of_nat (length entities) in
      if (total =? 0)%Z then
        Some (Returned (resultOf 0 zeroCounters (now rt (world s1) - startTime)), s1)
      else if JS.truthyBool (dryRun options) then
        Some (Returned (resultOf total zeroCounters (now rt (world s1) - startTime)), s1)
      else
        let tot := ceilDiv total bSize in
        match batchLoop fuel rt svc options entities bSize bDelay startTime tot 0
                (zeroCounters, s1) with
        | None => None
        | Some (c, s2) =>
            Some (Returned (resultOf total c (now rt (world s2) - startTime)), s2)
        end
  end.

(** *** Observations on a run, used to state its properties *)

(** The texts submitted to the provider, the writes and the sleeps of a
    trace, each in order. *)
Definition generated (tr : list event) : list string :=
  omap (λ ev, match ev with Generate t => Some t | _ => None end) tr.

Definition stores (tr : list event) : list StoreParams :=
  omap (λ ev, match ev with Store p => Some p | _ => None end) tr.

Definition sleeps (tr : list event) : list Z :=
  omap (λ ev, match ev with Sleep ms => Some ms | _ => None end) tr.

(** The outcome of the [try] block for each entity, run at the state of its
    turn. *)
Definition verdictsAt {W} (rt : Runtime W)
    (svc : EmbeddingService.IEmbeddingService W)
    (entities : list EntityBatch) (attempts : list (state W))
    : list (EntityBatch * outcome unit) :=
  zip_with (λ entity s, (entity, (reindexEntity rt svc entity s).1))
    entities attempts.

Definition isFailure (v : EntityBatch * outcome unit) : bool :=
  match v.2 with
  | Raised _ => true
  | Returned _ => false
  end.

(** The error entries a list of verdicts calls for. *)
Definition failuresOf (verdicts : list (EntityBatch * outcome unit))
    : list ReindexError :=
  omap (λ v, match v.2 with
             | Raised e =>
                 Some {| entityName := name v.1; error := getErrorMessage e |}
             | Returned _ => None
             end) verdicts.

(** The sleeps expected of the loop from index [i] on: one per batch but
    the last. *)
Definition expectedSleeps (len bSize bDelay i : Z) : list Z :=
  if (bDelay >? 0)%Z
  then repeat bDelay (Z.to_nat (ceilDiv (len - i) bSize - 1))
  else [].

(** The counters after a list of verdicts. *)
Definition tally (c : Counters) (verdicts : list (EntityBatch * outcome unit))
    : Counters :=
  fold_left (λ c v, account v.1 v.2 c) verdicts c.

End Reindex.

(** ** storage/neo4j/Neo4jVectorStore.ts: reciprocal rank fusion *)

Module Neo4jVectorStore.

(** A record of the nearest-neighbour query. *)
Record VectorRecord := {
  v_id : string;
  v_entityType : string;
  v_vectorScore : Q
}.

(** A record of the keyword query. *)
Record KeywordRecord := {
  k_id : string;
  k_entityType : string;
  k_bm25Score : Q
}.

(** A value of the [rrfScores] map. *)
Record RrfEntry := {
  score : Q;
  entityType : string;
  vectorScore : option Q;
  bm25Score : option Q
}.

(** [Map<string, ...>]: entries in insertion order. *)
Abbreviation RrfMap := (list (string * RrfEntry)).

(** [m.get(key)]. *)
Fixpoint mapGet (m : RrfMap) (key : string) : option RrfEntry :=
  match m with
  | [] => None
  | (k, v) :: rest => if String.eqb k key then Some v else mapGet rest key
  end.

(** [m.set(key, value)]: an existing key keeps its place. *)
Fixpoint mapSet (m : RrfMap) (key : string) (value : RrfEntry) : RrfMap :=
  match m with
  | [] => [(key, value)]
  | (k, v) :: rest =>
      if String.eqb k key then (k, value) :: rest
      else (k, v) :: mapSet rest key value
  end.

(** [1 / (rrfK + index + 1)]. *)
Definition rrfScore (rrfK : Q) (index : nat) : Q :=
  (1 / (rrfK + inject_Z (Z.of_nat index) + 1))%Q.

(** [vectorResults.records.forEach((record, index) => ...)]. *)
Fixpoint addVectorResults (rrfK : Q) (records : list VectorRecord) (index : nat)
    (rrfScores : RrfMap) : RrfMap :=
  match records with
  | [] => rrfScores
  | record :: rest =>
      addVectorResults rrfK rest (S index)
        (mapSet rrfScores (v_id record)
           {| score := rrfScore rrfK index;
              entityType := v_entityType record;
              vectorScore := Some (v_vectorScore record);
              bm25Score := None |})
  end.

(** [keywordResults.records.forEach((record, index) => ...)]. *)
Fixpoint addKeywordResults (rrfK : Q) (records : list KeywordRecord) (index : nat)
    (rrfScores : RrfMap) : RrfMap :=
  match records with
  | [] => rrfScores
  | record :: rest =>
      let value :=
        match mapGet rrfScores (k_id record) with
        | Some existing =>
            {| score := (score existing + rrfScore rrfK index)%Q;
               entityType := k_entityType record;
               vectorScore := vectorScore existing;
               bm25Score := Some (k_bm25Score record) |}
        | None =>
            {| score := rrfScore rrfK index;
               entityType := k_entityType record;
               vectorScore := None;
               bm25Score := Some (k_bm25Score record) |}
        end in
      addKeywordResults rrfK rest (S index) (mapSet rrfScores (k_id record) value)
  end.

(** Step 3 of [hybridSearchWithRRF]. *)
Definition fuse (rrfK : Q) (vectorResults : list VectorRecord)
    (keywordResults : list KeywordRecord) : RrfMap :=
  addKeywordResults rrfK keywordResults 0 (addVectorResults rrfK vectorResults 0 []).

(** [.sort((a, b) => b[1].score - a[1].score)]: the sort is stable, so with
    this comparator its result is the one of a stable insertion sort. *)
Fixpoint insertByScore (x : string * RrfEntry) (sorted : RrfMap) : RrfMap :=
  match sorted with
  | [] => [x]
  | y :: rest =>
      if Qle_bool (score (snd y)) (score (snd x)) then x :: sorted
      else y :: insertByScore x rest
  end.

Definition sortByScore (entries : RrfMap) : RrfMap :=
  fold_right insertByScore [] entries.

(** The order the sort establishes: [a] may precede [b]. *)
Definition descending (a b : string * RrfEntry) : Prop :=
  (score (snd b) <= score (snd a))%Q.

Definition optNum (o : option Q) : jsval :=
  match o with
  | Some q => VNum q
  | None => VUndefined
  end.

(** [.map(([id, data]) => ...)]. *)
Definition toResult (entry : string * RrfEntry) : VectorStore.VectorSearchResult :=
  let '(id, data) := entry in
  {| VectorStore.id := id;
     VectorStore.similarity := score data;
     VectorStore.metadata :=
       <["rrfScore" := VNum (score data)]>
         (<["bm25Score" := optNum (bm25Score data)]>
            (<["vectorScore" := optNum (vectorScore data)]>
               (<["searchMethod" := VStr "hybrid-rrf"]>
                  (<["entityType" := VStr (entityType data)]> ∅)))) |}.

(** Steps 3 and 4 of [hybridSearchWithRRF]. *)
Definition rankFused (rrfK : Q) (vectorResults : list VectorRecord)
    (keywordResults : list KeywordRecord) (limit : Z)
    : list VectorStore.VectorSearchResult :=
  map toResult (JS.slice (sortByScore (fuse rrfK vectorResults keywordResults)) 0 limit).

(** [hybridSearchWithRRF]: the two queries run on the session
    ([vectorQuery], [keywordQuery], each given its candidate count), then
    the fusion; any failure falls back to the plain [search]. *)
Definition hybridSearchWithRRF {S}
    (vectorQuery : list Q -> Z -> M S (list VectorRecord))
    (keywordQuery : string -> Z -> M S (list KeywordRecord))
    (search : list Q -> Z -> M S (list VectorStore.VectorSearchResult))
    (queryVector : list Q) (queryText : string) (limit : Z) (rrfK : option Q)
    : M S (list VectorStore.VectorSearchResult) :=
  let k := default 60%Q rrfK in
  tryCatch
    (let! vectorResults := vectorQuery queryVector (limit * 2) in
     let! keywordResults := keywordQuery queryText (limit * 2) in
     ret (rankFused k vectorResults keywordResults limit))
    (fun _ => search queryVector limit).

(** *** The fusion formula in the words of the specification *)

(** One-based position of the first occurrence of [e]. *)
Fixpoint rankOf (ids : list string) (e : string) : option nat :=
  match ids with
  | [] => None
  | x :: rest =>
      if String.eqb x e then Some 1%nat
      else option_map S (rankOf rest e)
  end.

(** [[e ∈ L] · 1/(k + rank_L(e))]. *)
Definition contribution (k : Q) (ids : list string) (e : string) : Q :=
  match rankOf ids e with
  | Some r => (1 / (k + inject_Z (Z.of_nat r)))%Q
  | None => 0%Q
  end.

Definition specScore (k : Q) (V : list VectorRecord) (K : list KeywordRecord)
    (e : string) : Q :=
  (contribution k (map v_id V) e + contribution k (map k_id K) e)%Q.

End Neo4jVectorStore.

(** ** Test doubles

    Collaborators for the examples: a session over a fixed list of entities
    whose writes succeed, a clock that stands still, and a provider that
    fails with a chosen value on chosen texts. *)

Module Fixtures.

Definition entity (n : string) : Reindex.EntityBatch :=
  {| Reindex.name := n; Reindex.type := "Sensor"; Reindex.observations := [] |}.

Definition runtime (entities : list Reindex.EntityBatch) : Reindex.Runtime unit :=
  {| Reindex.runSelect := fun _ _ w => (Returned entities, w);
     Reindex.runCount := fun _ _ w => (Returned (Z.of_nat (length entities)), w);
     Reindex.runStore := fun _ w => (Returned tt, w);
     Reindex.now := fun _ => 0;
     Reindex.sleep := fun _ w => w |}.

Definition provider (failure : string -> option thrown)
    : EmbeddingService.IEmbeddingService unit :=
  {| EmbeddingService.generateEmbedding :=
       fun text w =>
         match failure text with
         | Some e => (Raised e, w)
         | None => (Returned [1%Q; 0%Q], w)
         end;
     EmbeddingService.getModelInfo :=
       {| EmbeddingService.name := "mock";
          EmbeddingService.dimensions := Dim 2;
          EmbeddingService.version := "1.0.0" |} |}.

(** Fails with [e] on the text of the entity named [n]. *)
Definition failingOn (n : string) (e : thrown) (text : string) : option thrown :=
  if String.eqb text (Reindex.generateEmbeddingText (entity n)) then Some e else None.

Definition options (batchSize batchDelay : option Z) (dryRun : option bool)
    : Reindex.ReindexOptions :=
  {| Reindex.batchSize := batchSize;
     Reindex.entityTypes := None;
     Reindex.namePattern := None;
     Reindex.onlyMissing := None;
     Reindex.force := None;
     Reindex.dryRun := dryRun;
     Reindex.limit := None;
     Reindex.onProgress := false;
     Reindex.batchDelay := batchDelay;
     Reindex.customQuery := None;
     Reindex.customQueryParams := None |}.

Definition start : Reindex.state unit :=
  {| Reindex.world := tt; Reindex.trace := [] |}.

Definition ten : list Reindex.EntityBatch :=
  map entity ["e1"; "e2"; "e3"; "e4"; "e5"; "e6"; "e7"; "e8"; "e9"; "e10"].

End Fixtures.

(** ** config/EmbeddingConfigValidator.ts: reporting on top of [validate] *)

Module EmbeddingConfigReport.

(** [validateAndLog(throwOnError)]; the log lines are left out. *)
Definition validateAndLog (throwOnError : bool) (env : gmap string string)
    : outcome EmbeddingConfigValidator.ConfigValidationResult :=
  let result := EmbeddingConfigValidator.validate env in
  if negb (EmbeddingConfigValidator.isValid result) && throwOnError then
    Raised (newError ("Invalid embedding configuration. " +:+
                      "Please fix the errors above before starting the server."))
  else Returned result.

Definition fixHeader : string := "Fix configuration errors before starting:".

Definition fixLine (dimensions : dimension) : string :=
  "  Set NEO4J_VECTOR_DIMENSIONS=" +:+ showDimension dimensions +:+
  " to match embedding dimensions".

Definition bestPractices (model : string) : list string :=
  [ EmptyString;
    "Best practices:";
    "  - Use OPENAI_EMBEDDING_MODEL to specify the model (current: " +:+ model +:+ ")";
    "  - Let dimensions auto-configure from the model (recommended)";
    "  - Only set NEO4J_VECTOR_DIMENSIONS if overriding is necessary" ].

Definition getRecommendations (env : gmap string string) : list string :=
  let result := EmbeddingConfigValidator.validate env in
  let c := EmbeddingConfigValidator.config result in
  let fixes :=
    if negb (EmbeddingConfigValidator.isValid result) then
      (fixHeader ::
       (if negb (EmbeddingConfigValidator.dimensionsMatch c)
        then [fixLine (EmbeddingConfigValidator.dimensions c)] else []))
    else [] in
  let hints :=
    match EmbeddingConfigValidator.warnings result with
    | [] => []
    | _ :: _ =>
        ((if negb (EmbeddingConfigValidator.apiKeyConfigured c) &&
             negb (EmbeddingConfigValidator.mockEmbeddings c)
          then ["  Set OPENAI_API_KEY to enable real embedding generation"]
          else []) ++
         (if EmbeddingConfigValidator.mockEmbeddings c
          then ["  Remove MOCK_EMBEDDINGS=true for production use"]
          else []))%list
    end in
  (fixes ++ hints ++ bestPractices (EmbeddingConfigValidator.model c))%list.

End EmbeddingConfigReport.

(** ** storage/neo4j/Neo4jConfig.ts *)

Module Neo4jConfig.

(** [getDefaultVectorDimensions]; [None] is [NaN]. *)
Definition getDefaultVectorDimensions (env : gmap string string)
    : option dimension :=
  if JS.truthyStr (env !! "NEO4J_VECTOR_DIMENSIONS") then
    Dim <$> JS.parseInt10 (default EmptyString (env !! "NEO4J_VECTOR_DIMENSIONS"))
  else
    Some (getModelDimensions
            (JS.orStr (env !! "OPENAI_EMBEDDING_MODEL") "text-embedding-3-small")).

End Neo4jConfig.

(** ** storage/neo4j/Neo4jReindexManager.ts: validation, samples, deletion *)

Module ReindexAdmin.

Record OptionsValidation := {
  isValid : bool;
  errors : list string
}.

Definition pushIf (cond : bool) (x : string) (xs : list string) : list string :=
  if cond then (xs ++ [x])%list else xs.

Definition validateOptions (options : Reindex.ReindexOptions) : OptionsValidation :=
  let b := default 0 (Reindex.batchSize options) in
  let l := default 0 (Reindex.limit options) in
  let d := default 0 (Reindex.batchDelay options) in
  let e1 :=
    pushIf (JS.truthyNum (Reindex.batchSize options) && ((b <? 1)%Z || (b >? 1000)%Z))
      "Batch size must be between 1 and 1000" [] in
  let e2 :=
    pushIf (JS.truthyNum (Reindex.limit options) && (l <? 0)%Z)
      "Limit must be non-negative" e1 in
  let e3 :=
    pushIf (JS.truthyNum (Reindex.batchDelay options) && (d <? 0)%Z)
      "Batch delay must be non-negative" e2 in
  let e4 :=
    pushIf (JS.truthyStr (Reindex.customQuery options) &&
            negb (JS.includes (default EmptyString (Reindex.customQuery options)) "RETURN"))
      "Custom query must include RETURN clause" e3 in
  let e5 :=
    pushIf (match Reindex.entityTypes options with Some [] => true | _ => false end)
      "Entity types array cannot be empty (omit the option instead)" e4 in
  {| isValid := Nat.eqb (length e5) 0; errors := e5 |}.

(** [{ ...options, limit }]. *)
Definition withLimit (options : Reindex.ReindexOptions) (limit : Z)
    : Reindex.ReindexOptions :=
  {| Reindex.batchSize := Reindex.batchSize options;
     Reindex.entityTypes := Reindex.entityTypes options;
     Reindex.namePattern := Reindex.namePattern options;
     Reindex.onlyMissing := Reindex.onlyMissing options;
     Reindex.force := Reindex.force options;
     Reindex.dryRun := Reindex.dryRun options;
     Reindex.limit := Some limit;
     Reindex.onProgress := Reindex.onProgress options;
     Reindex.batchDelay := Reindex.batchDelay options;
     Reindex.customQuery := Reindex.customQuery options;
     Reindex.customQueryParams := Reindex.customQueryParams options |}.

(** [getSampleEntities(options, limit = 10)]. *)
Definition getSampleEntities {W} (rt : Reindex.Runtime W)
    (options : Reindex.ReindexOptions) (limit : option Z)
    : M (Reindex.state W) (list Reindex.EntityBatch) :=
  Reindex.getEntitiesToReindex rt (withLimit options (default 10 limit)).

(** Parameters of the removal issued by [deleteEmbeddingsBatch]. *)
Inductive DeleteParams :=
| ByNames (names : list string)
| ByFilter (entityTypes : list string) (namePattern : string).

(** [session.run] at the two call sites of [deleteEmbeddingsBatch]: the
    custom query with the reading of the [name] of each record, and the
    removal with the reading of its count. *)
Record DeleteRuntime (W : Type) := {
  runNames : string -> gmap string jsval -> M W (list string);
  runRemove : string -> DeleteParams -> M W Z
}.
Arguments runNames {W} _ _ _.
Arguments runRemove {W} _ _ _.

(** [conditions] of [deleteEmbeddingsBatch]. *)
Definition deleteConditions (options : Reindex.ReindexOptions) : list string :=
  let c0 := ["e.validTo = 9223372036854775807"] in
  let c1 :=
    match Reindex.entityTypes options with
    | Some (_ :: _) => (c0 ++ ["e.entityType IN $entityTypes"])%list
    | _ => c0
    end in
  if JS.truthyStr (Reindex.namePattern options)
  then (c1 ++ ["e.name =~ $namePattern"])%list else c1.

Definition removeByNamesQuery : string :=
  JS.nl +:+
  "          MATCH (e:Entity)" +:+ JS.nl +:+
  "          WHERE e.name IN $names" +:+ JS.nl +:+
  "          REMOVE e.embedding, e.embeddingModel, e.embeddingDimensions, e.embeddingUpdated" +:+ JS.nl +:+
  "          RETURN count(e) as count" +:+ JS.nl +:+
  "        ".

Definition removeByFilterQuery (options : Reindex.ReindexOptions) : string :=
  let whereClause :=
    match deleteConditions options with
    | [] => EmptyString
    | cs => "WHERE " +:+ JS.join " AND " cs
    end in
  JS.nl +:+
  "          MATCH (e:Entity)" +:+ JS.nl +:+
  "          " +:+ whereClause +:+ JS.nl +:+
  "          REMOVE e.embedding, e.embeddingModel, e.embeddingDimensions, e.embeddingUpdated" +:+ JS.nl +:+
  "          RETURN count(e) as count" +:+ JS.nl +:+
  "        ".

Definition deleteEmbeddingsBatch {W} (rt : DeleteRuntime W)
    (options : Reindex.ReindexOptions) : M W Z :=
  if JS.truthyStr (Reindex.customQuery options) then
    let! entityNames :=
      runNames rt (default EmptyString (Reindex.customQuery options))
        (default ∅ (Reindex.customQueryParams options)) in
    runRemove rt removeByNamesQuery (ByNames entityNames)
  else
    runRemove rt (removeByFilterQuery options)
      (ByFilter (default [] (Reindex.entityTypes options))
         (JS.orStr (Reindex.namePattern options) ".*")).

End ReindexAdmin.

(** ** storage/neo4j/Neo4jMigrationManager.ts *)

Module Migration.

(** The count of live entities. *)
Definition countTotalQuery : string :=
  JS.nl +:+
  "        MATCH (e:Entity)" +:+
  JS.nl +:+
  "        WHERE e.validTo = 9223372036854775807" +:+
  JS.nl +:+
  "        RETURN count(e) as total" +:+
  JS.nl +:+
  "      ".

(** The count of live entities with an embedding. *)
Definition countWithEmbeddingsQuery : string :=
  JS.nl +:+
  "        MATCH (e:Entity)" +:+
  JS.nl +:+
  "        WHERE e.validTo = 9223372036854775807" +:+
  JS.nl +:+
  "        AND e.embedding IS NOT NULL" +:+
  JS.nl +:+
  "        RETURN count(e) as count" +:+
  JS.nl +:+
  "      ".

(** The histogram of vector lengths. *)
Definition dimensionQuery : string :=
  JS.nl +:+
  "        MATCH (e:Entity)" +:+
  JS.nl +:+
  "        WHERE e.validTo = 9223372036854775807" +:+
  JS.nl +:+
  "        AND e.embedding IS NOT NULL" +:+
  JS.nl +:+
  "        WITH size(e.embedding) as dims" +:+
  JS.nl +:+
  "        RETURN dims, count(*) as count" +:+
  JS.nl +:+
  "        ORDER BY dims" +:+
  JS.nl +:+
  "      ".

(** The sample of entities whose vector has another length. *)
Definition mismatchQuery : string :=
  JS.nl +:+
  "        MATCH (e:Entity)" +:+
  JS.nl +:+
  "        WHERE e.validTo = 9223372036854775807" +:+
  JS.nl +:+
  "        AND e.embedding IS NOT NULL" +:+
  JS.nl +:+
  "        AND size(e.embedding) <> $expectedDims" +:+
  JS.nl +:+
  "        RETURN e.name as name, e.entityType as type, size(e.embedding) as dims" +:+
  JS.nl +:+
  "        LIMIT 1000" +:+
  JS.nl +:+
  "      ".

(** The sample of entities without embedding. *)
Definition noEmbeddingQuery : string :=
  JS.nl +:+
  "        MATCH (e:Entity)" +:+
  JS.nl +:+
  "        WHERE e.validTo = 9223372036854775807" +:+
  JS.nl +:+
  "        AND e.embedding IS NULL" +:+
  JS.nl +:+
  "        RETURN e.name as name, e.entityType as type" +:+
  JS.nl +:+
  "        LIMIT 100" +:+
  JS.nl +:+
  "      ".

(** The count [clearMismatchedEmbeddings] takes first. *)
Definition countMismatchedQuery : string :=
  JS.nl +:+
  "        MATCH (e:Entity)" +:+
  JS.nl +:+
  "        WHERE e.embedding IS NOT NULL" +:+
  JS.nl +:+
  "        AND size(e.embedding) <> $expectedDims" +:+
  JS.nl +:+
  "        RETURN count(e) as count" +:+
  JS.nl +:+
  "      ".

(** The removal of [clearMismatchedEmbeddings]. *)
Definition removeMismatchedQuery : string :=
  JS.nl +:+
  "        MATCH (e:Entity)" +:+
  JS.nl +:+
  "        WHERE e.embedding IS NOT NULL" +:+
  JS.nl +:+
  "        AND size(e.embedding) <> $expectedDims" +:+
  JS.nl +:+
  "        REMOVE e.embedding" +:+
  JS.nl +:+
  "      ".

(** The count [clearAllEmbeddings] takes first. *)
Definition countEmbeddedQuery : string :=
  JS.nl +:+
  "        MATCH (e:Entity)" +:+
  JS.nl +:+
  "        WHERE e.embedding IS NOT NULL" +:+
  JS.nl +:+
  "        RETURN count(e) as count" +:+
  JS.nl +:+
  "      ".

(** The removal of [clearAllEmbeddings]. *)
Definition removeAllQuery : string :=
  JS.nl +:+
  "        MATCH (e:Entity)" +:+
  JS.nl +:+
  "        WHERE e.embedding IS NOT NULL" +:+
  JS.nl +:+
  "        REMOVE e.embedding" +:+
  JS.nl +:+
  "      ".

(** Every live entity. *)
Definition allEntitiesQuery : string :=
  JS.nl +:+
  "          MATCH (e:Entity)" +:+
  JS.nl +:+
  "          WHERE e.validTo = 9223372036854775807" +:+
  JS.nl +:+
  "          RETURN e.name as name" +:+
  JS.nl +:+
  "        ".

(** The live entities without embedding or with a vector of another length. *)
Definition needingQuery : string :=
  JS.nl +:+
  "          MATCH (e:Entity)" +:+
  JS.nl +:+
  "          WHERE e.validTo = 9223372036854775807" +:+
  JS.nl +:+
  "          AND (" +:+
  JS.nl +:+
  "            e.embedding IS NULL" +:+
  JS.nl +:+
  "            OR size(e.embedding) <> $targetDims" +:+
  JS.nl +:+
  "          )" +:+
  JS.nl +:+
  "          RETURN e.name as name" +:+
  JS.nl +:+
  "        ".

(** The copy of every embedding into its backup property. *)
Definition backupQuery : string :=
  JS.nl +:+
  "        MATCH (e:Entity)" +:+
  JS.nl +:+
  "        WHERE e.embedding IS NOT NULL" +:+
  JS.nl +:+
  "        SET e.embedding_backup = e.embedding," +:+
  JS.nl +:+
  "            e.embedding_backup_timestamp = timestamp()" +:+
  JS.nl +:+
  "        RETURN count(e) as count" +:+
  JS.nl +:+
  "      ".

(** The copy of every backup back, removing the backup. *)
Definition restoreQuery : string :=
  JS.nl +:+
  "        MATCH (e:Entity)" +:+
  JS.nl +:+
  "        WHERE e.embedding_backup IS NOT NULL" +:+
  JS.nl +:+
  "        SET e.embedding = e.embedding_backup" +:+
  JS.nl +:+
  "        REMOVE e.embedding_backup, e.embedding_backup_timestamp" +:+
  JS.nl +:+
  "        RETURN count(e) as count" +:+
  JS.nl +:+
  "      ".

(** The removal of every backup. *)
Definition cleanupQuery : string :=
  JS.nl +:+
  "        MATCH (e:Entity)" +:+
  JS.nl +:+
  "        WHERE e.embedding_backup IS NOT NULL" +:+
  JS.nl +:+
  "        REMOVE e.embedding_backup, e.embedding_backup_timestamp" +:+
  JS.nl +:+
  "        RETURN count(e) as count" +:+
  JS.nl +:+
  "      ".

Record DimensionMismatch := {
  entityName : string;
  entityType : string;
  currentDimensions : Z;
  expectedDimensions : Z;
  hasEmbedding : bool
}.

Inductive ConsistencyStatus := consistent | inconsistent | noEmbeddings.

Record EmbeddingStateSummary := {
  totalEntities : Z;
  entitiesWithEmbeddings : Z;
  entitiesWithoutEmbeddings : Z;
  dimensionCounts : gmap Z Z;
  mismatches : list DimensionMismatch;
  consistencyStatus : ConsistencyStatus
}.

(** A record of the mismatch sample. *)
Record MismatchRecord := { mr_name : string; mr_type : string; mr_dims : Z }.

(** A record of the missing-embedding sample. *)
Record MissingRecord := { ms_name : string; ms_type : string }.

(** [session.run] at the call sites of the manager, each with the reading
    of its records: a query whose single count is read ([expectedDims] or
    [targetDims] as optional parameter), a query whose result is not read,
    the histogram, the two samples, and a query whose [name]s are read.
    The closing of the session in each [finally] is left out. *)
Record Session (W : Type) := {
  runCount : string -> option Z -> M W Z;
  runUpdate : string -> option Z -> M W unit;
  runHistogram : string -> M W (list (Z * Z));
  runMismatches : string -> Z -> M W (list MismatchRecord);
  runMissing : string -> M W (list MissingRecord);
  runNames : string -> option Z -> M W (list string)
}.
Arguments runCount {W} _ _ _.
Arguments runUpdate {W} _ _ _.
Arguments runHistogram {W} _ _.
Arguments runMismatches {W} _ _ _.
Arguments runMissing {W} _ _.
Arguments runNames {W} _ _ _.

(** [for (const record of dimensionResult.records) dimensionCounts[dims] = count]. *)
Definition toDimensionCounts (records : list (Z * Z)) : gmap Z Z :=
  fold_left (fun m r => <[fst r := snd r]> m) records ∅.

Definition ofMismatch (expected : Z) (r : MismatchRecord) : DimensionMismatch :=
  {| entityName := mr_name r;
     entityType := mr_type r;
     currentDimensions := mr_dims r;
     expectedDimensions := expected;
     hasEmbedding := true |}.

Definition ofMissing (expected : Z) (r : MissingRecord) : DimensionMismatch :=
  {| entityName := ms_name r;
     entityType := ms_type r;
     currentDimensions := 0;
     expectedDimensions := expected;
     hasEmbedding := false |}.

Definition analyzeEmbeddingState {W} (session : Session W) (expectedDimensions : Z)
    : M W EmbeddingStateSummary :=
  let! total := runCount session countTotalQuery None in
  let! withEmbeddings := runCount session countWithEmbeddingsQuery None in
  let! histogram := runHistogram session dimensionQuery in
  let! mismatched := runMismatches session mismatchQuery expectedDimensions in
  let! missing := runMissing session noEmbeddingQuery in
  let all :=
    (map (ofMismatch expectedDimensions) mismatched ++
     map (ofMissing expectedDimensions) missing)%list in
  ret {| totalEntities := total;
         entitiesWithEmbeddings := withEmbeddings;
         entitiesWithoutEmbeddings := total - withEmbeddings;
         dimensionCounts := toDimensionCounts histogram;
         mismatches := all;
         consistencyStatus :=
           if (withEmbeddings =? 0)%Z then noEmbeddings
           else match all with
                | _ :: _ => inconsistent
                | [] => consistent
                end |}.

Definition clearMismatchedEmbeddings {W} (session : Session W)
    (expectedDimensions : Z) (dryRun : bool) : M W Z :=
  let! count := runCount session countMismatchedQuery (Some expectedDimensions) in
  if (count =? 0)%Z then ret 0
  else if dryRun then ret count
  else
    let! _ := runUpdate session removeMismatchedQuery (Some expectedDimensions) in
    ret count.

Definition clearAllEmbeddings {W} (session : Session W) (dryRun : bool) : M W Z :=
  let! count := runCount session countEmbeddedQuery None in
  if (count =? 0)%Z then ret 0
  else if dryRun then ret count
  else
    let! _ := runUpdate session removeAllQuery None in
    ret count.

Definition getEntitiesNeedingEmbeddings {W} (session : Session W)
    (targetDimensions : Z) (regenerateAll : bool) : M W (list string) :=
  if regenerateAll then runNames session allEntitiesQuery None
  else runNames session needingQuery (Some targetDimensions).

Definition backupEmbeddings {W} (session : Session W) : M W Z :=
  runCount session backupQuery None.

Definition restoreEmbeddings {W} (session : Session W) : M W Z :=
  runCount session restoreQuery None.

Definition cleanupBackups {W} (session : Session W) : M W Z :=
  runCount session cleanupQuery None.

(** [clearAllCommand] of the migration command-line tool, its console
    output and the closing of the connection left out. *)
Definition clearAllCommand {W} (session : Session W) (dryRun skipBackup : bool)
    : M W Z :=
  let! _ :=
    if negb dryRun && negb skipBackup
    then (let! backupCount := backupEmbeddings session in ret tt)
    else ret tt in
  clearAllEmbeddings session dryRun.

End Migration.

(** ** storage/neo4j/Neo4jVectorStore.ts: the store around the fusion *)

Module VectorSearch.

Inductive Similarity := cosine | euclidean.

Record Neo4jVectorStoreOptions := {
  opt_indexName : option string;
  opt_dimensions : option Z;
  opt_similarityFunction : option Similarity;
  opt_entityNodeLabel : option string
}.

(** The fields of a store; [dimensions = None] is [NaN]. *)
Record Neo4jVectorStore := {
  indexName : string;
  dimensions : option dimension;
  similarityFunction : Similarity;
  entityNodeLabel : string;
  initialized : bool
}.

(** The constructor. *)
Definition new (env : gmap string string) (options : Neo4jVectorStoreOptions)
    : Neo4jVectorStore :=
  {| indexName := JS.orStr (opt_indexName options) "entity_embeddings";
     dimensions :=
       if JS.truthyNum (opt_dimensions options)
       then Some (Dim (default 0 (opt_dimensions options)))
       else if JS.truthyStr (env !! "NEO4J_VECTOR_DIMENSIONS")
       then Dim <$> JS.parseInt10
                      (default EmptyString (env !! "NEO4J_VECTOR_DIMENSIONS"))
       else Some (getModelDimensions
                    (JS.orStr (env !! "OPENAI_EMBEDDING_MODEL")
                       "text-embedding-3-small"));
     similarityFunction := default cosine (opt_similarityFunction options);
     entityNodeLabel := JS.orStr (opt_entityNodeLabel options) "Entity";
     initialized := false |}.

(** The schema manager, as [initialize] uses it. *)
Record SchemaManager (W : Type) := {
  vectorIndexExists : string -> M W bool;
  createVectorIndex :
    string -> string -> string -> option dimension -> Similarity -> M W unit
}.
Arguments vectorIndexExists {W} _ _.
Arguments createVectorIndex {W} _ _ _ _ _ _.

Definition setInitialized (this : Neo4jVectorStore) : Neo4jVectorStore :=
  {| indexName := indexName this;
     dimensions := dimensions this;
     similarityFunction := similarityFunction this;
     entityNodeLabel := entityNodeLabel this;
     initialized := true |}.

(** [initialize], returning the store with its flag set. *)
Definition initialize {W} (schemaManager : SchemaManager W)
    (this : Neo4jVectorStore) : M W Neo4jVectorStore :=
  let! indexExists := vectorIndexExists schemaManager (indexName this) in
  let! _ :=
    if negb indexExists
    then createVectorIndex schemaManager (indexName this) (entityNodeLabel this)
           "embedding" (dimensions this) (similarityFunction this)
    else ret tt in
  ret (setInitialized this).

Definition ensureInitialized (this : Neo4jVectorStore) : outcome unit :=
  if initialized this then Returned tt
  else Raised (newError "Neo4j vector store not initialized. Call initialize() first.").

(** [vector.length !== this.dimensions] negated. *)
Definition lengthMatches (vector : list Q) (dims : option dimension) : bool :=
  match dims with
  | Some (Dim n) => (Z.of_nat (length vector) =? n)%Z
  | _ => false
  end.

Definition showDimensions (dims : option dimension) : string :=
  match dims with
  | Some d => showDimension d
  | None => "NaN"
  end.

Definition checkDimensions (this : Neo4jVectorStore) (vector : list Q)
    : outcome unit :=
  if lengthMatches vector (dimensions this) then Returned tt
  else Raised (newError ("Invalid vector dimensions: expected " +:+
                         showDimensions (dimensions this) +:+ ", got " +:+
                         pretty (Z.of_nat (length vector)))).

(** Parameters of the writes of [addVector]. *)
Inductive TxParams :=
| VectorParams (id : string) (vector : list Q)
| MetadataParams (id : string) (metadata : string)
| IdParams (id : string).

(** The session and its transaction, with [JSON.stringify] on metadata:
    [beginTransaction] stands for the opening of the session and of the
    transaction, [sessionRun] for the opening of a session and a query on
    it. *)
Record Transaction (W : Type) := {
  beginTransaction : M W unit;
  txRun : string -> TxParams -> M W unit;
  txCommit : M W unit;
  txRollback : M W unit;
  sessionRun : string -> TxParams -> M W unit;
  sessionClose : M W unit;
  stringify : gmap string jsval -> string
}.
Arguments beginTransaction {W} _ _.
Arguments txRun {W} _ _ _ _.
Arguments txCommit {W} _ _.
Arguments txRollback {W} _ _.
Arguments sessionRun {W} _ _ _ _.
Arguments sessionClose {W} _ _.
Arguments stringify {W} _ _.

(** [try { m } finally { fin }]: the error of [fin], if any, wins. *)
Definition tryFinally {W A} (m : M W A) (fin : M W unit) : M W A :=
  fun s =>
    match m s with
    | (r, s') =>
        match fin s' with
        | (Returned _, s'') => (r, s'')
        | (Raised e, s'') => (Raised e, s'')
        end
    end.

Definition mergeQuery (label : string) : string :=
  JS.nl +:+
  "          MERGE (e:" +:+ label +:+ " {name: $id})" +:+ JS.nl +:+
  "          SET e.embedding = $vector" +:+ JS.nl +:+
  "          RETURN e" +:+ JS.nl +:+
  "        ".

Definition metadataQuery (label : string) : string :=
  JS.nl +:+
  "            MATCH (e:" +:+ label +:+ " {name: $id})" +:+ JS.nl +:+
  "            SET e.metadata = $metadata" +:+ JS.nl +:+
  "            RETURN e" +:+ JS.nl +:+
  "          ".

Definition removeQuery (label : string) : string :=
  JS.nl +:+
  "        MATCH (e:" +:+ label +:+ " {name: $id})" +:+ JS.nl +:+
  "        REMOVE e.embedding" +:+ JS.nl +:+
  "        REMOVE e.metadata" +:+ JS.nl +:+
  "        RETURN e" +:+ JS.nl +:+
  "      ".

(** The writes of [addVector] up to the commit. *)
Definition writeVector {W} (tx : Transaction W) (this : Neo4jVectorStore)
    (id : string) (vector : list Q) (metadata : option (gmap string jsval))
    : M W unit :=
  let! _ := txRun tx (mergeQuery (entityNodeLabel this)) (VectorParams id vector) in
  let! _ :=
    match metadata with
    | Some md =>
        if bool_decide (md = ∅) then ret tt
        else txRun tx (metadataQuery (entityNodeLabel this))
               (MetadataParams id (stringify tx md))
    | None => ret tt
    end in
  txCommit tx.

Definition addVector {W} (tx : Transaction W) (this : Neo4jVectorStore)
    (id : string) (vector : list Q) (metadata : option (gmap string jsval))
    : M W unit :=
  match ensureInitialized this with
  | Raised e => throw e
  | Returned _ =>
      match checkDimensions this vector with
      | Raised e => throw e
      | Returned _ =>
          let! _ := beginTransaction tx in
          tryFinally
            (tryCatch (writeVector tx this id vector metadata)
               (fun error => let! _ := txRollback tx in throw error))
            (sessionClose tx)
      end
  end.

(** [removeVector]: the session is closed after the removal, outside any
    [finally]. *)
Definition removeVector {W} (tx : Transaction W) (this : Neo4jVectorStore)
    (id : string) : M W unit :=
  match ensureInitialized this with
  | Raised e => throw e
  | Returned _ =>
      let! _ := sessionRun tx (removeQuery (entityNodeLabel this)) (IdParams id) in
      sessionClose tx
  end.

(** A record of the plain nearest-neighbour query and of the fallback query. *)
Record PlainRecord := {
  r_id : string;
  r_entityType : string;
  r_similarity : Q
}.

(** The queries of [search]. [queryNodes] and [fallbackQuery] stand for the
    opening of their session and the query on it; [vectorQuery] and
    [keywordQuery] are the two queries of the hybrid search on its session,
    whose opening is taken to succeed. The closing of the sessions is left
    out. *)
Record SearchSession (W : Type) := {
  queryNodes : string -> Z -> list Q -> Q -> M W (list PlainRecord);
  vectorQuery : list Q -> Z -> M W (list Neo4jVectorStore.VectorRecord);
  keywordQuery : string -> Z -> M W (list Neo4jVectorStore.KeywordRecord);
  fallbackQuery : Z -> M W (list PlainRecord)
}.
Arguments queryNodes {W} _ _ _ _ _.
Arguments vectorQuery {W} _ _ _.
Arguments keywordQuery {W} _ _ _.
Arguments fallbackQuery {W} _ _.

Record SearchOptions := {
  limit : option Z;
  hybridSearch : option bool;
  minSimilarity : option Q;
  queryText : option string;
  rrfK : option Q
}.

(** [vectorHasValidNorm]: the components being rationals, they are finite,
    and the square root of the sum of their squares is positive exactly
    when that sum is. *)
Definition sumSquared (vector : list Q) : Q :=
  fold_left (fun acc val => (acc + val * val)%Q) vector 0%Q.

Definition vectorHasValidNorm (vector : list Q) : bool :=
  negb (Qle_bool (sumSquared vector) 0).

Definition ofFallback (record : PlainRecord) : VectorStore.VectorSearchResult :=
  {| VectorStore.id := r_id record;
     VectorStore.similarity := r_similarity record;
     VectorStore.metadata := <["entityType" := VStr (r_entityType record)]> ∅ |}.

Definition ofVector (record : PlainRecord) : VectorStore.VectorSearchResult :=
  {| VectorStore.id := r_id record;
     VectorStore.similarity := r_similarity record;
     VectorStore.metadata :=
       <["searchMethod" := VStr "vector"]>
         (<["entityType" := VStr (r_entityType record)]> ∅) |}.

Definition searchByPatternFallback {W} (session : SearchSession W) (lim : Z)
    : M W (list VectorStore.VectorSearchResult) :=
  let! records := fallbackQuery session lim in
  ret (map ofFallback records).

(** What [search] checks before any query; a failure is caught by the outer
    [catch]. *)
Definition precheck (this : Neo4jVectorStore) (queryVector : list Q)
    : outcome unit :=
  match ensureInitialized this with
  | Raised e => Raised e
  | Returned _ => checkDimensions this queryVector
  end.

(** [search] with the hybrid branch, when it applies, as a parameter. *)
Definition searchCore {W} (session : SearchSession W) (this : Neo4jVectorStore)
    (hybrid : option (Z -> M W (list VectorStore.VectorSearchResult)))
    (queryVector : list Q) (limitOption : option Z) (minSimilarityOption : option Q)
    : M W (list VectorStore.VectorSearchResult) :=
  let lim := default 5 limitOption in
  match precheck this queryVector with
  | Raised _ => searchByPatternFallback session lim
  | Returned _ =>
      if negb (vectorHasValidNorm queryVector) then
        searchByPatternFallback session lim
      else
        match hybrid with
        | Some branch => branch lim
        | None =>
            fun s =>
              match queryNodes session (indexName this) lim queryVector
                      (default 0%Q minSimilarityOption) s with
              | (Returned (r :: rs), s') => (Returned (map ofVector (r :: rs)), s')
              | (Returned [], s') => searchByPatternFallback session lim s'
              | (Raised _, s') => searchByPatternFallback session lim s'
              end
        end
  end.

Definition search {W} (session : SearchSession W) (this : Neo4jVectorStore)
    (queryVector : list Q) (options : SearchOptions)
    : M W (list VectorStore.VectorSearchResult) :=
  let hybrid :=
    if JS.truthyBool (hybridSearch options) && JS.truthyStr (queryText options)
    then
      Some (fun lim =>
              Neo4jVectorStore.hybridSearchWithRRF
                (vectorQuery session) (keywordQuery session)
                (fun qv l => searchCore session this None qv (Some l) None)
                queryVector (default EmptyString (queryText options)) lim
                (rrfK options))
    else None in
  searchCore session this hybrid queryVector (limit options) (minSimilarity options).

End VectorSearch.

(** ** The entity text of the Voyage migration script *)

Module VoyageMigration.

(** [entity.observations] as the script may find it. *)
Inductive Observations :=
| ObsMissing
| ObsString (s : string)
| ObsArray (items : list string).

Record Entity := {
  id : string;
  name : string;
  entityType : string;
  observations : Observations
}.

(** [entityToText], with [JSON.parse] on strings as a parameter, taken to
    give an array of strings whenever it does not throw. *)
Definition entityToText (jsonParse : string -> outcome (list string))
    (entity : Entity) : string :=
  let parts := ["Entity: " +:+ name entity; "Type: " +:+ entityType entity] in
  let observationsArray :=
    match observations entity with
    | ObsMissing => []
    | ObsString s =>
        if String.eqb s EmptyString then []
        else match jsonParse s with
             | Returned items => items
             | Raised _ => [s]
             end
    | ObsArray items => items
    end in
  let parts :=
    match observationsArray with
    | [] => parts
    | _ :: _ =>
        (parts ++ ["Observations: " +:+ JS.join "; " observationsArray])%list
    end in
  JS.join JS.nl parts.

End VoyageMigration.

(** ** Observations on the progress reports of a run *)

Module ReindexReports.

(** The progress reports of a trace, in order. *)
Definition progresses (tr : list Reindex.event) : list Reindex.ReindexProgress :=
  omap (λ ev, match ev with Reindex.Progress p => Some p | _ => None end) tr.

(** A report adds up: it is about [total] entities, every processed entity
    either succeeded or failed, and none was skipped. *)
Definition addsUp (total : Z) (p : Reindex.ReindexProgress) : Prop :=
  Reindex.p_total p = total ∧
  (Reindex.p_succeeded p + Reindex.p_failed p)%Z = Reindex.p_processed p ∧
  Reindex.p_skipped p = 0%Z.

End ReindexReports.

(** ** What a failed attempt is, in terms of the collaborators *)

Module ReindexVerdicts.

(** The outcome of the [try] block for an entity, for a provider and a
    session whose outcomes are [gen] and [sto]: the failure of the
    generation, or else the outcome of the write of the vector it
    returned. *)
Definition attemptOutcome (gen : string -> outcome (list Q))
    (sto : Reindex.StoreParams -> outcome unit)
    (info : EmbeddingService.EmbeddingModelInfo) (entity : Reindex.EntityBatch)
    : outcome unit :=
  match gen (Reindex.generateEmbeddingText entity) with
  | Raised e => Raised e
  | Returned embedding =>
      sto {| Reindex.sp_name := Reindex.name entity;
             Reindex.sp_embedding := embedding;
             Reindex.sp_model := EmbeddingService.name info;
             Reindex.sp_dimensions := EmbeddingService.dimensions info |}
  end.

(** The error entry such an attempt calls for, if any. *)
Definition expectedError (gen : string -> outcome (list Q))
    (sto : Reindex.StoreParams -> outcome unit)
    (info : EmbeddingService.EmbeddingModelInfo) (entity : Reindex.EntityBatch)
    : option Reindex.ReindexError :=
  match attemptOutcome gen sto info entity with
  | Raised e =>
      Some {| Reindex.entityName := Reindex.name entity;
              Reindex.error := getErrorMessage e |}
  | Returned _ => None
  end.

End ReindexVerdicts.

(** A session over a fixed list of entities whose write fails with [e] for
    the entity named [n]. *)

Module FailingStore.

Definition runtime (entities : list Reindex.EntityBatch) (n : string) (e : thrown)
    : Reindex.Runtime unit :=
  {| Reindex.runSelect := fun _ _ w => (Returned entities, w);
     Reindex.runCount := fun _ _ w => (Returned (Z.of_nat (length entities)), w);
     Reindex.runStore :=
       fun p w =>
         if String.eqb (Reindex.sp_name p) n then (Raised e, w) else (Returned tt, w);
     Reindex.now := fun _ => 0;
     Reindex.sleep := fun _ w => w |}.

End FailingStore.

(* ================================================================== *)
(** * Properties *)
(* ================================================================== *)

(** ** The definitions on concrete inputs *)

Example parseInt10_examples :
  JS.parseInt10 "1536" = Some 1536%Z ∧
  JS.parseInt10 "  42px" = Some 42%Z ∧
  JS.parseInt10 "-7" = Some (-7)%Z ∧
  JS.parseInt10 "not-a-number" = None ∧
  JS.parseInt10 EmptyString = None.
Proof. repeat split; reflexivity. Qed.

Example slice_examples :
  JS.slice [1; 2; 3; 4; 5]%Z 1 3 = [2; 3]%Z ∧
  JS.slice [1; 2; 3; 4; 5]%Z 3 13 = [4; 5]%Z ∧
  JS.slice [1; 2; 3; 4; 5]%Z 0 (-1) = [1; 2; 3; 4]%Z ∧
  JS.slice [1; 2; 3; 4; 5]%Z (-1) (-2) = [].
Proof. repeat split; reflexivity. Qed.

Example getModelDimensions_examples :
  getModelDimensions "text-embedding-3-large" = Dim 3072 ∧
  getModelDimensions "voyage-3-lite" = Dim 512 ∧
  getModelDimensions "voyage-code-2" = Dim 1536 ∧
  getModelDimensions "unknown-model" = Dim 1536 ∧
  getModelDimensions "toString" = ProtoMember "toString".
Proof. repeat split; reflexivity. Qed.

(** The cases of the validator's test suite. *)
Example validate_default_configuration :
  let r := EmbeddingConfigValidator.validate ∅ in
  let c := EmbeddingConfigValidator.config r in
  EmbeddingConfigValidator.provider c = "openai" ∧
  EmbeddingConfigValidator.model c = "text-embedding-3-small" ∧
  EmbeddingConfigValidator.dimensions c = Dim 1536 ∧
  EmbeddingConfigValidator.vectorIndexDimensions c = Dim 1536 ∧
  EmbeddingConfigValidator.dimensionsMatch c = true ∧
  EmbeddingConfigValidator.warnings r = [EmbeddingConfigValidator.noApiKeyWarning].
Proof. vm_compute. repeat split; reflexivity. Qed.

Example validate_detects_mismatch :
  let r :=
    EmbeddingConfigValidator.validate
      (<["OPENAI_EMBEDDING_MODEL" := "text-embedding-3-large"]>
         (<["NEO4J_VECTOR_DIMENSIONS" := "1536"]> ∅)) in
  let c := EmbeddingConfigValidator.config r in
  EmbeddingConfigValidator.dimensions c = Dim 3072 ∧
  EmbeddingConfigValidator.vectorIndexDimensions c = Dim 1536 ∧
  EmbeddingConfigValidator.dimensionsMatch c = false ∧
  EmbeddingConfigValidator.isValid r = false.
Proof. vm_compute. repeat split; reflexivity. Qed.

Example validate_cascades_explicit_dimensions :
  let r :=
    EmbeddingConfigValidator.validate (<["OPENAI_EMBEDDING_DIMENSIONS" := "2048"]> ∅) in
  let c := EmbeddingConfigValidator.config r in
  EmbeddingConfigValidator.dimensions c = Dim 2048 ∧
  EmbeddingConfigValidator.vectorIndexDimensions c = Dim 2048 ∧
  EmbeddingConfigValidator.dimensionsSource c = "OPENAI_EMBEDDING_DIMENSIONS env var" ∧
  EmbeddingConfigValidator.dimensionsMatch c = true.
Proof. vm_compute. repeat split; reflexivity. Qed.

Example validate_rejects_invalid_index_dimensions :
  let r :=
    EmbeddingConfigValidator.validate
      (<["NEO4J_VECTOR_DIMENSIONS" := "not-a-number"]> ∅) in
  EmbeddingConfigValidator.isValid r = false ∧
  EmbeddingConfigValidator.errors r =
    [EmbeddingConfigValidator.invalidVectorDimensionsError "not-a-number"] ∧
  EmbeddingConfigValidator.vectorIndexDimensions (EmbeddingConfigValidator.config r) =
    Dim 1536.
Proof. vm_compute. repeat split; reflexivity. Qed.

Example generateEmbeddingText_example :
  Reindex.generateEmbeddingText
    {| Reindex.name := "probe"; Reindex.type := "Sensor";
       Reindex.observations := ["reads 5V"; "on pin 4"] |} =
  "Entity: probe" +:+ JS.nl +:+ "Type: Sensor" +:+ JS.nl +:+
  "Observations: reads 5V; on pin 4".
Proof. reflexivity. Qed.

(** Two batches of two and one of one, with a sleep after the first two. *)
Example reindex_five_in_batches_of_two :
  ∃ r s,
    Reindex.reindexEmbeddings 3
      (Fixtures.runtime (map Fixtures.entity ["a"; "b"; "c"; "d"; "e"]))
      (Fixtures.provider (fun _ => None))
      (Fixtures.options (Some 2%Z) (Some 250%Z) None) Fixtures.start =
      Some (Returned r, s) ∧
    Reindex.succeeded r = 5%Z ∧
    Reindex.sleeps (Reindex.trace s) = [250; 250]%Z ∧
    length (Reindex.stores (Reindex.trace s)) = 5%nat.
Proof. eexists. eexists. split; [vm_compute; reflexivity|]. repeat split. Qed.

(** [b] is in both lists and comes first; [a] precedes [c] on the better
    rank. *)
Example rankFused_example :
  map VectorStore.id
    (Neo4jVectorStore.rankFused 60
       [ {| Neo4jVectorStore.v_id := "a"; Neo4jVectorStore.v_entityType := "Sensor";
            Neo4jVectorStore.v_vectorScore := (9 # 10)%Q |};
         {| Neo4jVectorStore.v_id := "b"; Neo4jVectorStore.v_entityType := "Sensor";
            Neo4jVectorStore.v_vectorScore := (8 # 10)%Q |} ]
       [ {| Neo4jVectorStore.k_id := "b"; Neo4jVectorStore.k_entityType := "Sensor";
            Neo4jVectorStore.k_bm25Score := (5 # 2)%Q |};
         {| Neo4jVectorStore.k_id := "c"; Neo4jVectorStore.k_entityType := "Sensor";
            Neo4jVectorStore.k_bm25Score := 1%Q |} ]
       5) = ["b"; "a"; "c"].
Proof. reflexivity. Qed.

(** ** Model tables and the start-up validator *)

Section Validator.

Import EmbeddingConfigValidator.

Lemma ownLookup_absent (table : list (string * Z)) (key : string) :
  key ∉ JS.keys table → JS.ownLookup table key = None.
Proof.
  induction table as [|[k v] rest IH]; simpl; [reflexivity|].
  intros Hnotin. apply not_elem_of_cons in Hnotin as [Hne Hrest].
  destruct (String.eqb_spec k key) as [->|_]; [congruence|].
  apply IH, Hrest.
Qed.

Lemma lookupOr_unknown (table : list (string * Z)) (key : string) (fallback : Z) :
  key ∉ JS.keys table → JS.inherited key = false →
  lookupOr table key fallback = Dim fallback.
Proof.
  intros Hnotin Hinh. unfold lookupOr, JS.get.
  rewrite (ownLookup_absent _ _ Hnotin), Hinh. reflexivity.
Qed.

Lemma validate_dimensions (env : Env) :
  dimensions (config (validate env)) =
  (resolveEmbeddingDimensions env (modelOf env)).1.1.
Proof.
  unfold validate, modelOf.
  destruct (resolveEmbeddingDimensions _ _) as [[d src] errs].
  destruct (resolveVectorIndexDimensions _ _) as [[d' src'] errs'].
  reflexivity.
Qed.

Lemma validate_vectorIndexDimensions (env : Env) :
  vectorIndexDimensions (config (validate env)) =
  (resolveVectorIndexDimensions env (dimensions (config (validate env)))).1.1.
Proof.
  rewrite validate_dimensions. unfold validate, modelOf.
  destruct (resolveEmbeddingDimensions _ _) as [[d src] errs]. simpl.
  destruct (resolveVectorIndexDimensions _ _) as [[d' src'] errs'].
  reflexivity.
Qed.

Lemma validate_errors (env : Env) :
  let e := resolveEmbeddingDimensions env (modelOf env) in
  let v := resolveVectorIndexDimensions env e.1.1 in
  errors (validate env) =
  pushIf (negb (dimension_eqb e.1.1 v.1.1)) (mismatchError e.1.1 v.1.1)
    (e.2 ++ v.2)%list.
Proof.
  unfold validate, modelOf.
  destruct (resolveEmbeddingDimensions _ _) as [[d src] errs]. simpl.
  destruct (resolveVectorIndexDimensions _ _) as [[d' src'] errs'].
  reflexivity.
Qed.

Lemma pushIf_app (c : bool) (x : string) (xs : list string) :
  pushIf c x xs = (xs ++ pushIf c x [])%list.
Proof. destruct c; simpl; [reflexivity | symmetry; apply app_nil_r]. Qed.

Lemma validate_warnings_prefix (env : Env) :
  ∃ more,
    warnings (validate env) =
    (pushIf (negb (JS.hasProperty OPENAI_MODEL_DIMENSIONS (modelOf env)) &&
             negb (mockEmbeddings (config (validate env))))
       (unrecognizedModelWarning (modelOf env)) [] ++ more)%list.
Proof.
  unfold validate.
  destruct (resolveEmbeddingDimensions _ _) as [[d src] errs].
  destruct (resolveVectorIndexDimensions _ _) as [[d' src'] errs']. simpl.
  set (w1 := pushIf _ (unrecognizedModelWarning _) []).
  destruct (JS.truthyStr (env !! "OPENAI_EMBEDDING_DIMENSIONS") &&
            JS.truthyStr (env !! "NEO4J_VECTOR_DIMENSIONS")).
  - rewrite (pushIf_app _ (conflictWarning _ _)).
    rewrite (pushIf_app _ mockWarning), (pushIf_app _ noApiKeyWarning).
    rewrite <- !app_assoc. eexists; reflexivity.
  - rewrite (pushIf_app _ mockWarning), (pushIf_app _ noApiKeyWarning).
    rewrite <- !app_assoc. eexists; reflexivity.
Qed.

Lemma elem_of_pushIf (c : bool) (x y : string) (xs : list string) :
  y ∈ pushIf c x xs ↔ y ∈ xs ∨ (c = true ∧ y = x).
Proof.
  destruct c; simpl.
  - rewrite elem_of_app, list_elem_of_singleton. intuition.
  - intuition congruence.
Qed.

Lemma unrecognized_head (m : string) :
  ∃ rest, unrecognizedModelWarning m = String "U" rest.
Proof. eexists. reflexivity. Qed.

Lemma unrecognized_not_error (env : Env) (m : string) :
  unrecognizedModelWarning m ∉ errors (validate env).
Proof.
  destruct (unrecognized_head m) as [rest ->].
  rewrite validate_errors. cbv zeta.
  rewrite elem_of_pushIf, elem_of_app.
  unfold resolveEmbeddingDimensions, resolveVectorIndexDimensions.
  intros [[Hin|Hin]|[_ Heq]].
  - destruct (JS.truthyStr _); [destruct (JS.parseInt10 _)|]; simpl in Hin;
      try (by apply elem_of_nil in Hin).
    apply list_elem_of_singleton in Hin. discriminate Hin.
  - destruct (JS.truthyStr (_ !! "NEO4J_VECTOR_DIMENSIONS"));
      [destruct (JS.parseInt10 (default _ (_ !! "NEO4J_VECTOR_DIMENSIONS")))|];
      simpl in Hin; try (by apply elem_of_nil in Hin).
    apply list_elem_of_singleton in Hin. discriminate Hin.
  - discriminate Heq.
Qed.

Lemma validate_mockEmbeddings (env : Env) :
  mockEmbeddings (config (validate env)) =
  bool_decide (env !! "MOCK_EMBEDDINGS" = Some "true").
Proof.
  unfold validate.
  destruct (resolveEmbeddingDimensions _ _) as [[d src] errs].
  destruct (resolveVectorIndexDimensions _ _) as [[d' src'] errs']. simpl.
  destruct (env !! "MOCK_EMBEDDINGS") as [v|]; [|reflexivity].
  destruct (String.eqb_spec v "true") as [->|Hne].
  - symmetry. by apply bool_decide_eq_true_2.
  - symmetry. apply bool_decide_eq_false_2. congruence.
Qed.

Lemma unrecognized_warning_iff (env : Env) :
  JS.hasProperty OPENAI_MODEL_DIMENSIONS (modelOf env) = false →
  unrecognizedModelWarning (modelOf env) ∈ warnings (validate env) ↔
  env !! "MOCK_EMBEDDINGS" ≠ Some "true".
Proof.
  intros Hunk.
  pose proof (validate_mockEmbeddings env) as Hmock. revert Hmock.
  destruct (unrecognized_head (modelOf env)) as [rest Hhead].
  unfold validate. fold (modelOf env).
  destruct (resolveEmbeddingDimensions _ _) as [[d src] errs].
  destruct (resolveVectorIndexDimensions _ _) as [[d' src'] errs']. simpl.
  rewrite Hunk. simpl. intros Hmock. rewrite Hmock.
  destruct (JS.truthyStr (env !! "OPENAI_EMBEDDING_DIMENSIONS") &&
            JS.truthyStr (env !! "NEO4J_VECTOR_DIMENSIONS"));
    rewrite !elem_of_pushIf, elem_of_nil, Hhead;
    case_bool_decide; simpl; split; intros; try done;
    repeat match goal with
           | H : _ ∨ _ |- _ => destruct H
           | H : _ ∧ _ |- _ => destruct H
           end; try done; try discriminate; auto;
    intuition (try done).
Qed.

End Validator.

(** C1. In [EmbeddingConfigValidator.validate], for every environment: when
    the index-dimension override [NEO4J_VECTOR_DIMENSIONS] is absent (unset
    or empty), the resolved vector index dimension is the resolved embedding
    dimension, whatever that is; when the override is present and
    [parseInt] reads a number from it, the resolved index dimension is that
    number. *)
Theorem C1_index_dimension_resolution (env : gmap string string) :
  let r := EmbeddingConfigValidator.validate env in
  (JS.truthyStr (env !! "NEO4J_VECTOR_DIMENSIONS") = false →
   EmbeddingConfigValidator.vectorIndexDimensions (EmbeddingConfigValidator.config r) =
   EmbeddingConfigValidator.dimensions (EmbeddingConfigValidator.config r)) ∧
  (∀ raw n,
     env !! "NEO4J_VECTOR_DIMENSIONS" = Some raw → raw ≠ EmptyString →
     JS.parseInt10 raw = Some n →
     EmbeddingConfigValidator.vectorIndexDimensions (EmbeddingConfigValidator.config r) =
     Dim n).
Proof.
  cbv zeta. rewrite validate_vectorIndexDimensions.
  unfold EmbeddingConfigValidator.resolveVectorIndexDimensions. split.
  - intros ->. reflexivity.
  - intros raw n Hraw Hne Hparse. rewrite Hraw. simpl.
    destruct (String.eqb_spec raw EmptyString) as [->|_]; [congruence|].
    simpl. rewrite Hparse. reflexivity.
Qed.

Lemma C1_index_dimension_resolution_witness :
  EmbeddingConfigValidator.vectorIndexDimensions
    (EmbeddingConfigValidator.config
       (EmbeddingConfigValidator.validate
          (<[ "OPENAI_EMBEDDING_MODEL" := "text-embedding-3-large" ]> (∅ : gmap string string)))) = Dim 3072 ∧
  EmbeddingConfigValidator.vectorIndexDimensions
    (EmbeddingConfigValidator.config
       (EmbeddingConfigValidator.validate
          (<[ "NEO4J_VECTOR_DIMENSIONS" := "2048" ]>
             (<[ "OPENAI_EMBEDDING_MODEL" := "text-embedding-3-large" ]> (∅ : gmap string string))))) = Dim 2048.
Proof.
  split.
  - rewrite (proj1 (C1_index_dimension_resolution
                      (<[ "OPENAI_EMBEDDING_MODEL" := "text-embedding-3-large" ]> (∅ : gmap string string))));
      reflexivity.
  - apply (proj2 (C1_index_dimension_resolution
                    (<[ "NEO4J_VECTOR_DIMENSIONS" := "2048" ]>
                       (<[ "OPENAI_EMBEDDING_MODEL" := "text-embedding-3-large" ]> (∅ : gmap string string))))
             "2048" 2048);
      [reflexivity | discriminate | reflexivity].
Defined.

(** Closed decidable facts, by evaluation of their decision procedure. *)
Ltac by_decision := apply (bool_decide_unpack _); vm_compute; exact I.

(** C7 (as amended). For every model name that is neither a key of the
    static tables nor a member every object inherits, [getModelDimensions]
    returns a number: the default 1536, or 1024 when the name starts with
    [voyage-]. For every environment whose model is not a property of the
    OpenAI table, [validate] records the unrecognized-model message among its
    warnings exactly when [MOCK_EMBEDDINGS] is not [true], and never among
    its errors. *)
Theorem C7_unknown_model_resolution :
  (∀ modelName,
     modelName ∉ JS.keys OPENAI_MODEL_DIMENSIONS →
     modelName ∉ JS.keys VOYAGE_MODEL_DIMENSIONS →
     JS.inherited modelName = false →
     getModelDimensions modelName =
     Dim (if JS.startsWith modelName "voyage-" then 1024 else 1536)) ∧
  (∀ env : gmap string string,
     let m := EmbeddingConfigValidator.modelOf env in
     let r := EmbeddingConfigValidator.validate env in
     JS.hasProperty OPENAI_MODEL_DIMENSIONS m = false →
     (EmbeddingConfigValidator.unrecognizedModelWarning m
        ∈ EmbeddingConfigValidator.warnings r ↔
      env !! "MOCK_EMBEDDINGS" ≠ Some "true") ∧
     EmbeddingConfigValidator.unrecognizedModelWarning m
       ∉ EmbeddingConfigValidator.errors r).
Proof.
  split.
  - intros modelName Hopenai Hvoyage Hinh. unfold getModelDimensions.
    destruct (JS.startsWith modelName "voyage-").
    + by apply lookupOr_unknown.
    + by apply lookupOr_unknown.
  - intros env m r Hunk. split.
    + by apply unrecognized_warning_iff.
    + apply unrecognized_not_error.
Qed.

Lemma C7_unknown_model_resolution_witness :
  getModelDimensions "my-custom-model" = Dim 1536 ∧
  (let env : gmap string string :=
     <[ "OPENAI_EMBEDDING_MODEL" := "my-custom-model" ]> ∅ in
   EmbeddingConfigValidator.unrecognizedModelWarning
     (EmbeddingConfigValidator.modelOf env)
     ∈ EmbeddingConfigValidator.warnings (EmbeddingConfigValidator.validate env)).
Proof.
  split.
  - apply (proj1 C7_unknown_model_resolution "my-custom-model");
      [by_decision | by_decision | reflexivity].
  - intros env.
    refine (proj2 (proj1 (proj2 C7_unknown_model_resolution env _)) _);
      [reflexivity | vm_compute; discriminate].
Defined.

(** C7 as stated fails: an unknown [voyage-] name resolves to 1024, not to
    1536, and under [MOCK_EMBEDDINGS=true] an unrecognized model leaves no
    warning about it. *)
Lemma C7_counterexample :
  (("voyage-4" ∉ JS.keys OPENAI_MODEL_DIMENSIONS) ∧
   ("voyage-4" ∉ JS.keys VOYAGE_MODEL_DIMENSIONS) ∧
   getModelDimensions "voyage-4" = Dim 1024 ∧
   getModelDimensions "voyage-4" ≠ Dim 1536) ∧
  (let env : gmap string string :=
     <[ "MOCK_EMBEDDINGS" := "true" ]>
       (<[ "OPENAI_EMBEDDING_MODEL" := "my-custom-model" ]> ∅) in
   ("my-custom-model" ∉ JS.keys OPENAI_MODEL_DIMENSIONS) ∧
   EmbeddingConfigValidator.warnings (EmbeddingConfigValidator.validate env) =
   [EmbeddingConfigValidator.mockWarning]).
Proof.
  split; [split; [by_decision | split; [by_decision | split]] | split].
  - reflexivity.
  - discriminate.
  - by_decision.
  - vm_compute. reflexivity.
Qed.

(** ** Selection queries of the reindex manager *)

Section Selection.

Import Reindex.














End Selection.



(** ** Provider services: requests, reported dimensions, surfaced errors *)

Section Providers.

Context {S : Type}.


Lemma voyage_generateEmbedding_raises (client : VoyageAI.Client S)
    (this : VoyageAI.VoyageAIEmbeddingService) (text : string) (s s' : S)
    (e : thrown) :
  client (VoyageAI.embedParams this [text]) s = (Raised e, s') →
  VoyageAI.generateEmbedding client this text s =
    (Raised (classifyFailure "Voyage AI" "Error generating embedding: " e), s').
Proof.
  intros Hclient. unfold VoyageAI.generateEmbedding, tryCatch, bind.
  rewrite Hclient. reflexivity.
Qed.

Lemma cohere_rerank_raises (client : Cohere.Client S)
    (this : Cohere.CohereRerankingService) (query : string)
    (documents : list Cohere.RerankDocument) (topN : option Z) (s s' : S)
    (e : thrown) :
  documents ≠ [] →
  client (Cohere.rerankRequest this query documents topN) s = (Raised e, s') →
  Cohere.rerank client this query documents topN s =
    (Raised (classifyFailure "Cohere" "Error reranking documents: " e), s').
Proof.
  intros Hne Hclient. destruct documents as [|d ds]; [congruence|].
  unfold Cohere.rerank, tryCatch, bind. rewrite Hclient. reflexivity.
Qed.

End Providers.

Lemma classifyFailure_kind (api otherwise : string) (e : thrown) :
  kindOf (classifyFailure api otherwise e) = Some "Error".
Proof.
  unfold classifyFailure.
  repeat match goal with |- context [if ?b then _ else _] => destruct b end;
    reflexivity.
Qed.




(** C4 (as amended). Every failure of the provider call is surfaced by
    [VoyageAIEmbeddingService.generateEmbedding] and by
    [CohereRerankingService.rerank] as a plain [Error]: the kind of the
    surfaced error is the same for all failures, and the failure classes
    (authentication, rate limit, server error, other) are told apart only by
    the message, which is chosen by looking for [401] / [authentication],
    [429] / [rate limit], [500] / [503] in the message of the provider's
    failure, in that order. *)
Theorem C4_failures_surface_by_message
    (S : Type) (vclient : VoyageAI.Client S) (cclient : Cohere.Client S)
    (vthis : VoyageAI.VoyageAIEmbeddingService)
    (cthis : Cohere.CohereRerankingService)
    (text query : string) (documents : list Cohere.RerankDocument)
    (topN : option Z) (s s' : S) (e : thrown) :
  (vclient (VoyageAI.embedParams vthis [text]) s = (Raised e, s') →
   ∃ surfaced,
     VoyageAI.generateEmbedding vclient vthis text s = (Raised surfaced, s') ∧
     surfaced = classifyFailure "Voyage AI" "Error generating embedding: " e ∧
     kindOf surfaced = Some "Error") ∧
  (documents ≠ [] →
   cclient (Cohere.rerankRequest cthis query documents topN) s = (Raised e, s') →
   ∃ surfaced,
     Cohere.rerank cclient cthis query documents topN s = (Raised surfaced, s') ∧
     surfaced = classifyFailure "Cohere" "Error reranking documents: " e ∧
     kindOf surfaced = Some "Error") ∧
  (∀ api otherwise,
     let m := getErrorMessage e in
     let auth := JS.includes m "401" || JS.includes m "authentication" in
     let rate := JS.includes m "429" || JS.includes m "rate limit" in
     let server := JS.includes m "500" || JS.includes m "503" in
     getErrorMessage (classifyFailure api otherwise e) =
       if auth then api +:+ " API authentication failed - invalid API key"
       else if rate then api +:+ " API rate limit exceeded - try again later"
       else if server then api +:+ " API server error - try again later"
       else otherwise +:+ m).
Proof.
  split; [|split].
  - intros Hclient. eexists. split; [|split; [reflexivity|]].
    + by apply voyage_generateEmbedding_raises.
    + apply classifyFailure_kind.
  - intros Hne Hclient. eexists. split; [|split; [reflexivity|]].
    + by apply cohere_rerank_raises.
    + apply classifyFailure_kind.
  - intros api otherwise. cbv zeta. unfold classifyFailure.
    repeat match goal with |- context [if ?b then _ else _] => destruct b end;
      reflexivity.
Qed.

Lemma C4_failures_surface_by_message_witness :
  let this :=
    {| VoyageAI.apiKey := "key"; VoyageAI.model := "voyage-3-large";
       VoyageAI.dimensions := Dim 1024; VoyageAI.version := "3.0.0";
       VoyageAI.inputType := VoyageAI.document |} in
  let client : VoyageAI.Client unit :=
    fun _ s => (Raised (ErrorObject "VoyageAIError" "Status code: 429"), s) in
  ∃ surfaced,
    VoyageAI.generateEmbedding client this "text" tt = (Raised surfaced, tt) ∧
    surfaced = newError "Voyage AI API rate limit exceeded - try again later".
Proof.
  intros this client.
  destruct (proj1 (C4_failures_surface_by_message unit client
                     (fun _ s => (Returned None, s)) this
                     {| Cohere.model := "rerank-english-v3.0"; Cohere.topN := None |}
                     "text" "query" [] None tt tt
                     (ErrorObject "VoyageAIError" "Status code: 429")) eq_refl)
    as (surfaced & Hrun & -> & _).
  eexists. split; [exact Hrun | reflexivity].
Defined.

(** C4 as stated fails: an authentication failure (fatal) and a rate-limit
    failure (retryable) of the provider surface as errors of one and the
    same kind, which differ in their message only. *)
Lemma C4_counterexample :
  let this :=
    {| VoyageAI.apiKey := "key"; VoyageAI.model := "voyage-3-large";
       VoyageAI.dimensions := Dim 1024; VoyageAI.version := "3.0.0";
       VoyageAI.inputType := VoyageAI.document |} in
  let failing (e : thrown) : VoyageAI.Client unit := fun _ s => (Raised e, s) in
  let authFailure := ErrorObject "VoyageAIError" "Status code: 401" in
  let rateFailure := ErrorObject "VoyageAIError" "Status code: 429" in
  ∃ fatal retryable,
    VoyageAI.generateEmbedding (failing authFailure) this "text" tt =
      (Raised fatal, tt) ∧
    VoyageAI.generateEmbedding (failing rateFailure) this "text" tt =
      (Raised retryable, tt) ∧
    kindOf fatal = kindOf retryable ∧
    getErrorMessage fatal ≠ getErrorMessage retryable.
Proof.
  intros this failing authFailure rateFailure. eexists. eexists.
  split; [reflexivity|]. split; [reflexivity|]. split; [reflexivity|].
  discriminate.
Qed.

(** ** Reranking of vector search results *)

Section Rerank.

Import Cohere.

Lemma at_index_map {A B} (f : A → B) (xs : list A) (i : Z) :
  at_index (map f xs) i = f <$> at_index xs i.
Proof.
  unfold at_index. destruct (i <? 0)%Z; [reflexivity|].
  apply nth_error_map.
Qed.

Lemma mapResults_in_range (entityTexts : gmap string string)
    (results : list VectorStore.VectorSearchResult) (rs : list CohereResult) :
  Forall (λ r, is_Some (at_index results (index r))) rs →
  ∃ xs,
    mapResults (map (toDocument entityTexts) results) rs = Returned xs ∧
    Forall2 (rerankedFrom results) rs xs.
Proof.
  induction 1 as [|r rs [orig Horig] _ (xs & Hxs & Hall)]; simpl.
  - exists []. split; [reflexivity|constructor].
  - unfold toRerankResult. rewrite at_index_map, Horig. simpl.
    rewrite Hxs. eexists. split; [reflexivity|].
    constructor; [|exact Hall].
    exists orig. simpl. rewrite lookup_insert_eq. auto.
Qed.

Lemma rerank_returns {S} (client : Client S) (this : CohereRerankingService)
    (query : string) (documents : list RerankDocument) (topN : option Z)
    (s s' : S) (rs : list CohereResult) (xs : list RerankResult) :
  documents ≠ [] →
  client (rerankRequest this query documents topN) s =
    (Returned (Some {| results := Some rs |}), s') →
  mapResults documents rs = Returned xs →
  rerank client this query documents topN s = (Returned xs, s').
Proof.
  intros Hne Hclient Hxs. destruct documents as [|d ds]; [congruence|].
  unfold rerank, tryCatch, bind. rewrite Hclient, Hxs. reflexivity.
Qed.

End Rerank.

(** C8. For every query, non-empty result list and [entityTexts] map: when
    the reranker answers with results that point into the list,
    [rerankVectorSearchResults] returns one result per answer, in the
    reranker's order, whose [similarity] is the answer's [relevanceScore],
    whose metadata carries the similarity of the input result it points at
    as [originalSimilarity], and whose [searchMethod] is [vector+rerank]. *)
Theorem C8_rerank_keeps_original_similarity
    (S : Type) (client : Cohere.Client S) (this : Cohere.CohereRerankingService)
    (query : string) (results : list VectorStore.VectorSearchResult)
    (entityTexts : gmap string string) (topN : option Z) (s s' : S)
    (rs : list Cohere.CohereResult) :
  results ≠ [] →
  client (Cohere.rerankRequest this query
            (map (Cohere.toDocument entityTexts) results) topN) s =
    (Returned (Some {| Cohere.results := Some rs |}), s') →
  Forall (λ r, is_Some (Cohere.at_index results (Cohere.index r))) rs →
  ∃ out,
    Cohere.rerankVectorSearchResults client this query results entityTexts topN s =
      (Returned out, s') ∧
    Forall2
      (λ r o,
         ∃ orig,
           Cohere.at_index results (Cohere.index r) = Some orig ∧
           VectorStore.id o = VectorStore.id orig ∧
           VectorStore.similarity o = Cohere.result_relevanceScore r ∧
           VectorStore.metadata o !! "originalSimilarity" =
             Some (VNum (VectorStore.similarity orig)) ∧
           VectorStore.metadata o !! "searchMethod" = Some (VStr "vector+rerank"))
      rs out.
Proof.
  intros Hne Hclient Hrange.
  destruct (mapResults_in_range entityTexts results rs Hrange) as (xs & Hxs & Hall).
  exists (map Cohere.toVectorSearchResult xs). split.
  - destruct results as [|r0 rest]; [congruence|].
    unfold Cohere.rerankVectorSearchResults, bind.
    erewrite rerank_returns; [reflexivity | discriminate | exact Hclient | exact Hxs].
  - apply Forall2_fmap_r.
    eapply Forall2_impl; [exact Hall|].
    intros r x (orig & Horig & Hid & Hscore & Hrel).
    exists orig. simpl. rewrite <- Hscore.
    rewrite lookup_insert_eq, lookup_insert_ne, lookup_insert_eq by discriminate.
    auto.
Qed.

Lemma C8_rerank_keeps_original_similarity_witness :
  let results :=
    [ {| VectorStore.id := "a"; VectorStore.similarity := (9 # 10)%Q;
         VectorStore.metadata := <["searchMethod" := VStr "vector"]> ∅ |};
      {| VectorStore.id := "b"; VectorStore.similarity := (8 # 10)%Q;
         VectorStore.metadata := <["searchMethod" := VStr "vector"]> ∅ |} ] in
  let answer :=
    [ {| Cohere.index := 1; Cohere.result_relevanceScore := (7 # 10)%Q |};
      {| Cohere.index := 0; Cohere.result_relevanceScore := (2 # 10)%Q |} ] in
  let client : Cohere.Client unit :=
    fun _ s => (Returned (Some {| Cohere.results := Some answer |}), s) in
  let this := {| Cohere.model := "rerank-english-v3.0"; Cohere.topN := None |} in
  ∃ out,
    Cohere.rerankVectorSearchResults client this "q" results ∅ None tt =
      (Returned out, tt) ∧
    length out = 2%nat.
Proof.
  intros results answer client this.
  destruct (C8_rerank_keeps_original_similarity unit client this "q" results ∅ None
              tt tt answer ltac:(discriminate) eq_refl
              ltac:(repeat constructor; eexists; reflexivity))
    as (out & Hrun & Hall).
  exists out. split; [exact Hrun|].
  apply Forall2_length in Hall. simpl in Hall. congruence.
Defined.

(** ** The reindex batch engine *)

Section ReindexRun.

Import Reindex.
Local Open Scope Z_scope.

Context {W : Type} (rt : Runtime W) (svc : EmbeddingService.IEmbeddingService W).
Context (options : ReindexOptions).

Lemma generated_app (t1 t2 : list event) :
  generated (t1 ++ t2) = (generated t1 ++ generated t2)%list.
Proof. apply omap_app. Qed.

Lemma stores_app (t1 t2 : list event) :
  stores (t1 ++ t2) = (stores t1 ++ stores t2)%list.
Proof. apply omap_app. Qed.

Lemma sleeps_app (t1 t2 : list event) :
  sleeps (t1 ++ t2) = (sleeps t1 ++ sleeps t2)%list.
Proof. apply omap_app. Qed.

Lemma no_sleep_last (tail : list event) (ms : Z) :
  sleeps tail = [] → last tail ≠ Some (Sleep ms).
Proof.
  intros Hnone Hlast.
  apply last_Some in Hlast as [front ->].
  rewrite sleeps_app in Hnone. simpl in Hnone.
  by apply app_nil in Hnone as [_ ?].
Qed.

Lemma tally_app (c : Counters) (vs1 vs2 : list (EntityBatch * outcome unit)) :
  tally c (vs1 ++ vs2) = tally (tally c vs1) vs2.
Proof. apply fold_left_app. Qed.

Lemma tally_counts (vs : list (EntityBatch * outcome unit)) (c : Counters) :
  let n := Z.of_nat (length vs) in
  let f := Z.of_nat (length (filter (λ v, isFailure v = true) vs)) in
  c_processed (tally c vs) = c_processed c + n ∧
  c_failed (tally c vs) = c_failed c + f ∧
  c_succeeded (tally c vs) = c_succeeded c + (n - f) ∧
  c_skipped (tally c vs) = c_skipped c ∧
  c_errors (tally c vs) = (c_errors c ++ failuresOf vs)%list.
Proof.
  revert c. induction vs as [|[e v] vs IH]; intros c; cbv zeta.
  - simpl. rewrite app_nil_r. repeat split; lia.
  - change (tally c ((e, v) :: vs)) with (tally (account e v c) vs).
    destruct (IH (account e v c)) as (Hp & Hf & Hs & Hk & He).
    rewrite Hp, Hf, Hs, Hk, He. clear IH Hp Hf Hs Hk He.
    destruct v as [u|x].
    + rewrite filter_cons_False by (unfold isFailure; simpl; discriminate).
      simpl length. simpl. repeat split; lia.
    + rewrite filter_cons_True by reflexivity.
      simpl length. simpl. rewrite <- app_assoc. simpl. repeat split; lia.
Qed.

Lemma reindexEntity_trace (entity : EntityBatch) (s : state W) :
  ∃ tail,
    trace (reindexEntity rt svc entity s).2 = (trace s ++ tail)%list ∧
    generated tail = [generateEmbeddingText entity] ∧
    sleeps tail = [].
Proof.
  unfold reindexEntity, bind, perform, storeEmbedding.
  destruct (EmbeddingService.generateEmbedding svc _ (world s)) as [[emb|e] w]; simpl.
  - unfold perform. simpl.
    match goal with
    | |- context [runStore rt ?p w] => destruct (runStore rt p w) as [r w']
    end. simpl.
    eexists [_; _]. rewrite <- app_assoc. split; [reflexivity|]. split; reflexivity.
  - eexists [_]. split; [reflexivity|]. split; reflexivity.
Qed.

Lemma processEntity_spec (total startTime cur tot : Z) (c : Counters)
    (s : state W) (entity : EntityBatch) :
  ∃ s' tail,
    processEntity rt svc options total startTime cur tot (c, s) entity =
      (account entity (reindexEntity rt svc entity s).1 c, s') ∧
    trace s' = (trace s ++ tail)%list ∧
    generated tail = [generateEmbeddingText entity] ∧
    sleeps tail = [].
Proof.
  unfold processEntity.
  destruct (reindexEntity_trace entity s) as (tail & Htrace & Hgen & Hsleep).
  destruct (reindexEntity rt svc entity s) as [r s1]. simpl in *.
  destruct (onProgress options).
  - eexists _, (tail ++ [_])%list. split; [reflexivity|]. simpl.
    rewrite Htrace, <- app_assoc, generated_app, sleeps_app, Hgen, Hsleep.
    split; [reflexivity|]. split; reflexivity.
  - exists s1, tail. auto.
Qed.

Lemma processBatch_spec (total startTime cur tot : Z) (batch : list EntityBatch) :
  ∀ (c : Counters) (s : state W),
  ∃ s' attempts tail,
    processBatch rt svc options total startTime cur tot batch (c, s) =
      (tally c (verdictsAt rt svc batch attempts), s') ∧
    length attempts = length batch ∧
    trace s' = (trace s ++ tail)%list ∧
    generated tail = map generateEmbeddingText batch ∧
    sleeps tail = [].
Proof.
  induction batch as [|entity batch IH]; intros c s.
  - exists s, [], []. simpl. rewrite app_nil_r. auto.
  - change (processBatch rt svc options total startTime cur tot (entity :: batch) (c, s))
      with (processBatch rt svc options total startTime cur tot batch
              (processEntity rt svc options total startTime cur tot (c, s) entity)).
    destruct (processEntity_spec total startTime cur tot c s entity)
      as (s1 & tail1 & -> & Htr1 & Hgen1 & Hsl1).
    destruct (IH (account entity (reindexEntity rt svc entity s).1 c) s1)
      as (s' & attempts & tail & Hrun & Hlen & Htr & Hgen & Hsl).
    rewrite Hrun.
    exists s', (s :: attempts), (tail1 ++ tail)%list. simpl.
    rewrite Htr, Htr1, <- app_assoc, generated_app, sleeps_app, Hgen1, Hgen, Hsl1, Hsl.
    auto.
Qed.

Lemma ceilDiv_nonpos (x b : Z) : x ≤ 0 → 1 ≤ b → ceilDiv x b ≤ 0.
Proof.
  intros Hx Hb. unfold ceilDiv.
  assert (0 ≤ (- x) / b) by (apply Z.div_pos; lia). lia.
Qed.

Lemma ceilDiv_pos (x b : Z) : 0 < x → 1 ≤ b → 1 ≤ ceilDiv x b.
Proof.
  intros Hx Hb. unfold ceilDiv.
  assert ((- x) / b < 0) by (apply Z.div_lt_upper_bound; lia). lia.
Qed.

Lemma ceilDiv_step (x b : Z) : 1 ≤ b → ceilDiv (x - b) b = ceilDiv x b - 1.
Proof.
  intros Hb. unfold ceilDiv.
  replace (- (x - b)) with (- x + 1 * b) by lia.
  rewrite Z.div_add by lia. lia.
Qed.

Lemma slice_batch {A} (xs : list A) (i b : Z) :
  0 ≤ i → i < Z.of_nat (length xs) → 1 ≤ b →
  JS.slice xs i (i + b) = take (Z.to_nat b) (drop (Z.to_nat i) xs).
Proof.
  intros Hi Hlen Hb. unfold JS.slice, JS.clampIndex.
  destruct (Z.ltb_spec i 0); [lia|].
  destruct (Z.ltb_spec (i + b) 0); [lia|].
  rewrite (Z.min_l i) by lia.
  destruct (Z.le_gt_cases (i + b) (Z.of_nat (length xs))).
  - rewrite Z.min_l by lia. f_equal. lia.
  - rewrite Z.min_r by lia.
    rewrite !take_ge; [reflexivity| |]; rewrite length_drop; lia.
Qed.

Lemma drop_batch {A} (xs : list A) (i b : Z) :
  0 ≤ i → 1 ≤ b →
  drop (Z.to_nat i) xs =
  (take (Z.to_nat b) (drop (Z.to_nat i) xs) ++ drop (Z.to_nat (i + b)) xs)%list.
Proof.
  intros Hi Hb.
  rewrite <- (take_drop (Z.to_nat b) (drop (Z.to_nat i) xs)) at 1.
  rewrite drop_drop. do 2 f_equal. lia.
Qed.

Lemma batchLoop_spec (entities : list EntityBatch)
    (bSize bDelay startTime tot : Z) :
  1 ≤ bSize →
  ∀ (fuel : nat) (i : Z) (c : Counters) (s : state W),
  0 ≤ i →
  (Z.to_nat (Z.of_nat (length entities) - i) ≤ fuel)%nat →
  ∃ c' s' attempts tail,
    batchLoop fuel rt svc options entities bSize bDelay startTime tot i (c, s) =
      Some (c', s') ∧
    length attempts = length (drop (Z.to_nat i) entities) ∧
    c' = tally c (verdictsAt rt svc (drop (Z.to_nat i) entities) attempts) ∧
    trace s' = (trace s ++ tail)%list ∧
    generated tail = map generateEmbeddingText (drop (Z.to_nat i) entities) ∧
    sleeps tail = expectedSleeps (Z.of_nat (length entities)) bSize bDelay i ∧
    (∀ ms, last tail ≠ Some (Sleep ms)).
Proof.
  intros Hb. set (len := Z.of_nat (length entities)).
  assert (Hdone : ∀ fuel i c s, len ≤ i →
    batchLoop fuel rt svc options entities bSize bDelay startTime tot i (c, s) =
      Some (c, s)).
  { intros fuel i c s Hi. destruct fuel; simpl; fold len;
      destruct (Z.ltb_spec i len); (lia || reflexivity). }
  assert (Hend : ∀ (i : Z) (c : Counters) (s : state W), 0 ≤ i → len ≤ i →
    ∃ c' s' attempts tail,
      Some (c, s) = Some (c', s') ∧
      length attempts = length (drop (Z.to_nat i) entities) ∧
      c' = tally c (verdictsAt rt svc (drop (Z.to_nat i) entities) attempts) ∧
      trace s' = (trace s ++ tail)%list ∧
      generated tail = map generateEmbeddingText (drop (Z.to_nat i) entities) ∧
      sleeps tail = expectedSleeps len bSize bDelay i ∧
      (∀ ms, last tail ≠ Some (Sleep ms))).
  { intros i c s Hi Hge. exists c, s, [], [].
    rewrite drop_ge by (subst len; lia). rewrite app_nil_r.
    repeat split; try reflexivity; try discriminate.
    unfold expectedSleeps. destruct (bDelay >? 0)%Z; [|reflexivity].
    pose proof (ceilDiv_nonpos (len - i) bSize ltac:(lia) Hb).
    replace (Z.to_nat _) with 0%nat by lia. reflexivity. }
  induction fuel as [|fuel IH]; intros i c s Hi Hfuel.
  - rewrite Hdone by (subst len; lia). apply Hend; subst len; lia.
  - destruct (Z.le_gt_cases len i) as [Hge|Hlt].
    { rewrite Hdone by exact Hge. by apply Hend. }
    simpl. fold len. destruct (Z.ltb_spec i len); [|lia].
    rewrite slice_batch by (fold len; lia).
    set (batch := take (Z.to_nat bSize) (drop (Z.to_nat i) entities)).
    destruct (processBatch_spec len startTime (i / bSize + 1) tot batch c s)
      as (s1 & attempts1 & tail1 & -> & Hlen1 & Htr1 & Hgen1 & Hsl1).
    set (s1' := if (i + bSize <? len)%Z && (bDelay >? 0)%Z
                then wait rt bDelay s1 else s1).
    destruct (IH (i + bSize) (tally c (verdictsAt rt svc batch attempts1)) s1'
                ltac:(lia) ltac:(subst len; lia))
      as (c' & s' & attempts2 & tail2 & -> & Hlen2 & -> & Htr2 & Hgen2 & Hsl2 & Hlast2).
    rewrite (drop_batch entities i bSize Hi Hb). fold batch.
    assert (Hbatch : batch ≠ []).
    { subst batch. intros Hnil. apply (f_equal length) in Hnil.
      rewrite length_take, length_drop in Hnil. simpl in Hnil. subst len. lia. }
    destruct (Z.ltb_spec (i + bSize) len) as [Hmore|Hfinal]; simpl in s1'.
    + (* further batches follow *)
      assert (Hrest : tail2 ≠ []).
      { intros ->. simpl in Hgen2. symmetry in Hgen2.
        apply map_eq_nil in Hgen2. apply (f_equal length) in Hgen2.
        rewrite length_drop in Hgen2. simpl in Hgen2. subst len. lia. }
      exists (tally (tally c (verdictsAt rt svc batch attempts1))
                (verdictsAt rt svc (drop (Z.to_nat (i + bSize)) entities) attempts2)),
        s', (attempts1 ++ attempts2)%list,
        (tail1 ++ (if (bDelay >? 0)%Z then [Sleep bDelay] else []) ++ tail2)%list.
      split; [reflexivity|]. split; [rewrite !length_app; lia|].
      split.
      { unfold verdictsAt. rewrite zip_with_app by lia. symmetry. apply tally_app. }
      split.
      { rewrite Htr2. subst s1'. destruct (bDelay >? 0)%Z; simpl;
          rewrite Htr1, <- ?app_assoc; reflexivity. }
      split.
      { rewrite !generated_app, Hgen1, Hgen2, map_app.
        destruct (bDelay >? 0)%Z; reflexivity. }
      split.
      { rewrite !sleeps_app, Hsl1, Hsl2. unfold expectedSleeps.
        destruct (bDelay >? 0)%Z; [|reflexivity]. simpl.
        replace (len - (i + bSize)) with (len - i - bSize) by lia.
        rewrite ceilDiv_step by lia.
        pose proof (ceilDiv_pos (len - i - bSize) bSize ltac:(lia) Hb) as Hpos.
        rewrite ceilDiv_step in Hpos by lia.
        replace (Z.to_nat (ceilDiv (len - i) bSize - 1))
          with (Datatypes.S (Z.to_nat (ceilDiv (len - i) bSize - 1 - 1))) by lia.
        reflexivity. }
      { intros ms. rewrite !last_app.
        destruct (last tail2) as [ev|] eqn:Hl; [apply Hlast2|].
        apply last_None in Hl. contradiction. }
    + (* the final batch *)
      subst s1'.
      assert (Hnil : drop (Z.to_nat (i + bSize)) entities = []).
      { apply drop_ge. subst len. lia. }
      rewrite Hnil in *. destruct attempts2; [|discriminate].
      simpl in Hgen2.
      exists (tally c (verdictsAt rt svc batch attempts1)), s', attempts1,
        (tail1 ++ tail2)%list.
      rewrite !app_nil_r.
      split; [reflexivity|]. split; [exact Hlen1|]. split; [reflexivity|].
      split; [rewrite Htr2, Htr1, <- app_assoc; reflexivity|].
      split; [rewrite generated_app, Hgen1, Hgen2, app_nil_r; reflexivity|].
      split.
      { rewrite sleeps_app, Hsl1, Hsl2. unfold expectedSleeps.
        destruct (bDelay >? 0)%Z; [|reflexivity]. simpl.
        pose proof (ceilDiv_nonpos (len - (i + bSize)) bSize ltac:(lia) Hb) as Hle.
        replace (len - (i + bSize)) with (len - i - bSize) in * by lia.
        rewrite ceilDiv_step in * by lia.
        replace (Z.to_nat (ceilDiv (len - i) bSize - 1 - 1)) with 0%nat by lia.
        pose proof (ceilDiv_pos (len - i) bSize ltac:(lia) Hb).
        replace (Z.to_nat (ceilDiv (len - i) bSize - 1)) with 0%nat by lia.
        reflexivity. }
      { intros ms. rewrite last_app.
        destruct (last tail2) as [ev|] eqn:Hl; [apply Hlast2|].
        apply no_sleep_last, Hsl1. }
Qed.

(** With a negative batch size the index only moves backwards: the loop
    never ends, whatever the fuel. *)
Lemma batchLoop_negative_batch_diverges (entities : list EntityBatch)
    (bSize bDelay startTime tot : Z) :
  bSize < 0 →
  ∀ (fuel : nat) (i : Z) (cs : Counters * state W),
  i < Z.of_nat (length entities) →
  batchLoop fuel rt svc options entities bSize bDelay startTime tot i cs = None.
Proof.
  intros Hb. induction fuel as [|fuel IH]; intros i cs Hi; simpl;
    destruct (Z.ltb_spec i (Z.of_nat (length entities))); try lia; [reflexivity|].
  destruct (processBatch _ _ _ _ _ _ _ _ _) as [c s].
  apply IH. lia.
Qed.

Lemma getEntitiesToReindex_trace (s0 : state W) :
  let sel := getEntitiesToReindex rt options s0 in
  trace sel.2 =
    (trace s0 ++ [Select (selectionQuery options).1 (selectionQuery options).2])%list.
Proof.
  unfold getEntitiesToReindex, perform.
  destruct (selectionQuery options) as [q params]. simpl.
  destruct (runSelect rt q params (world s0)) as [r w]. reflexivity.
Qed.

Lemma reindexEmbeddings_run (fuel : nat) (s0 s1 : state W)
    (entities : list EntityBatch) :
  JS.truthyBool (dryRun options) = false →
  1 ≤ JS.orNum (batchSize options) 10 →
  getEntitiesToReindex rt options s0 = (Returned entities, s1) →
  (length entities ≤ fuel)%nat →
  ∃ r s2 attempts tail,
    reindexEmbeddings fuel rt svc options s0 = Some (Returned r, s2) ∧
    length attempts = length entities ∧
    resultOf (Z.of_nat (length entities))
      (tally zeroCounters (verdictsAt rt svc entities attempts)) (duration r) = r ∧
    trace s2 = (trace s1 ++ tail)%list ∧
    generated tail = map generateEmbeddingText entities ∧
    sleeps tail =
      expectedSleeps (Z.of_nat (length entities)) (JS.orNum (batchSize options) 10)
        (JS.orNum (batchDelay options) 1000) 0 ∧
    (∀ ms, last tail ≠ Some (Sleep ms)).
Proof.
  intros Hdry Hb Hsel Hfuel. unfold reindexEmbeddings. rewrite Hsel, Hdry.
  destruct (Z.eqb_spec (Z.of_nat (length entities)) 0) as [Hzero|Hnz].
  - destruct entities; [|simpl in Hzero; lia].
    eexists _, s1, [], []. rewrite app_nil_r.
    split; [reflexivity|]. split; [reflexivity|]. split; [reflexivity|].
    split; [reflexivity|]. split; [reflexivity|].
    split; [|discriminate].
    unfold expectedSleeps. destruct (_ >? 0)%Z; [|reflexivity].
    pose proof (ceilDiv_nonpos (Z.of_nat 0 - 0) _ ltac:(simpl; lia) Hb).
    simpl length. replace (Z.to_nat _) with 0%nat by lia. reflexivity.
  - destruct (batchLoop_spec entities (JS.orNum (batchSize options) 10)
                (JS.orNum (batchDelay options) 1000) (now rt (world s0))
                (ceilDiv (Z.of_nat (length entities)) (JS.orNum (batchSize options) 10))
                Hb fuel 0 zeroCounters s1 ltac:(lia) ltac:(lia))
      as (c' & s2 & attempts & tail & -> & Hlen & -> & Htr & Hgen & Hsl & Hlast).
    simpl drop in *.
    eexists _, s2, attempts, tail.
    split; [reflexivity|]. split; [exact Hlen|]. split; [reflexivity|]. auto.
Qed.

(** The two ways through the [try] block: the generation fails and nothing
    is written, or it returns a vector and that vector is written under the
    entity's name with the model information of the provider. *)
Lemma reindexEntity_cases (entity : EntityBatch) (s : state W) :
  let text := generateEmbeddingText entity in
  match EmbeddingService.generateEmbedding svc text (world s) with
  | (Raised e, w) =>
      reindexEntity rt svc entity s =
      (Raised e, {| world := w; trace := (trace s ++ [Generate text])%list |})
  | (Returned emb, w) =>
      let params :=
        {| sp_name := name entity;
           sp_embedding := emb;
           sp_model := EmbeddingService.name (EmbeddingService.getModelInfo svc);
           sp_dimensions :=
             EmbeddingService.dimensions (EmbeddingService.getModelInfo svc) |} in
      reindexEntity rt svc entity s =
      ((runStore rt params w).1,
       {| world := (runStore rt params w).2;
          trace := (trace s ++ [Generate text; Store params])%list |})
  end.
Proof.
  cbv zeta. unfold reindexEntity, bind, perform, storeEmbedding.
  destruct (EmbeddingService.generateEmbedding svc _ (world s)) as [[emb|e] w];
    [|reflexivity].
  unfold perform. simpl.
  match goal with
  | |- context [runStore rt ?p w] => destruct (runStore rt p w) as [r w']
  end. simpl. rewrite <- app_assoc. reflexivity.
Qed.

(** The verdict of an attempt is the failure of the generation or else the
    outcome of the write, whatever the state of the attempt. *)
Lemma verdicts_linked (entities : list EntityBatch) (attempts : list (state W)) :
  length attempts = length entities →
  Forall2
    (λ entity s,
       match EmbeddingService.generateEmbedding svc (generateEmbeddingText entity)
               (world s) with
       | (Raised e, _) => (reindexEntity rt svc entity s).1 = Raised e
       | (Returned embedding, w) =>
           (reindexEntity rt svc entity s).1 =
           (runStore rt
              {| sp_name := name entity;
                 sp_embedding := embedding;
                 sp_model := EmbeddingService.name (EmbeddingService.getModelInfo svc);
                 sp_dimensions :=
                   EmbeddingService.dimensions (EmbeddingService.getModelInfo svc) |}
              w).1
       end)
    entities attempts.
Proof.
  intros Hlen. apply Forall2_same_length_lookup_2; [by symmetry|].
  intros i entity s _ _.
  pose proof (reindexEntity_cases entity s) as Hcases. cbv zeta in Hcases.
  destruct (EmbeddingService.generateEmbedding svc _ (world s)) as [[emb|e] w];
    rewrite Hcases; reflexivity.
Qed.

(** For collaborators whose outcome does not depend on the state. *)
Lemma reindexEntity_outcome (gen : string → outcome (list Q))
    (sto : StoreParams → outcome unit) (entity : EntityBatch) (s : state W) :
  (∀ text w, (EmbeddingService.generateEmbedding svc text w).1 = gen text) →
  (∀ p w, (runStore rt p w).1 = sto p) →
  (reindexEntity rt svc entity s).1 =
  ReindexVerdicts.attemptOutcome gen sto (EmbeddingService.getModelInfo svc) entity.
Proof.
  intros Hgen Hsto.
  pose proof (reindexEntity_cases entity s) as Hcases. cbv zeta in Hcases.
  pose proof (Hgen (generateEmbeddingText entity) (world s)) as Hg.
  unfold ReindexVerdicts.attemptOutcome. rewrite <- Hg.
  destruct (EmbeddingService.generateEmbedding svc _ (world s)) as [[emb|e] w];
    rewrite Hcases; simpl; [apply Hsto | reflexivity].
Qed.

Lemma failuresOf_expected (gen : string → outcome (list Q))
    (sto : StoreParams → outcome unit) (entities : list EntityBatch) :
  (∀ text w, (EmbeddingService.generateEmbedding svc text w).1 = gen text) →
  (∀ p w, (runStore rt p w).1 = sto p) →
  ∀ attempts : list (state W),
  length attempts = length entities →
  failuresOf (verdictsAt rt svc entities attempts) =
  omap (ReindexVerdicts.expectedError gen sto (EmbeddingService.getModelInfo svc))
    entities.
Proof.
  intros Hgen Hsto.
  induction entities as [|entity entities IH]; intros [|s attempts] Hlen;
    try discriminate; [reflexivity|].
  injection Hlen as Hlen.
  change (verdictsAt rt svc (entity :: entities) (s :: attempts))
    with ((entity, (reindexEntity rt svc entity s).1) ::
          verdictsAt rt svc entities attempts).
  unfold failuresOf in *. cbn [omap list_omap]. rewrite (IH attempts Hlen).
  assert (He : ReindexVerdicts.expectedError gen sto
                 (EmbeddingService.getModelInfo svc) entity =
               match (reindexEntity rt svc entity s).1 with
               | Raised e =>
                   Some {| entityName := name entity; error := getErrorMessage e |}
               | Returned _ => None
               end).
  { unfold ReindexVerdicts.expectedError.
    rewrite <- (reindexEntity_outcome gen sto entity s Hgen Hsto). reflexivity. }
  rewrite He. simpl. destruct (reindexEntity rt svc entity s).1; reflexivity.
Qed.

Lemma failuresOf_length (vs : list (EntityBatch * outcome unit)) :
  length (failuresOf vs) = length (filter (λ v, isFailure v = true) vs).
Proof.
  induction vs as [|[e [u|x]] vs IH].
  - reflexivity.
  - rewrite filter_cons_False by (unfold isFailure; simpl; discriminate).
    exact IH.
  - rewrite filter_cons_True by reflexivity. simpl. by rewrite <- IH.
Qed.

End ReindexRun.

(** C2 (as amended). For every entity list selected by a run that is not a
    dry run, with a batch size of at least one: the run returns, every
    entity is attempted once and in order, and with the outcome of each
    attempt as its verdict, [failed] counts the failed attempts, [succeeded]
    the others, and [errors] holds, for each failed attempt in order, the
    entity's name with the message of the failure (its [message] for an
    [Error], its string rendering otherwise). An attempt fails exactly when
    the provider's [generateEmbedding] fails on the entity's text, or when
    it returns a vector and the write of that vector fails, and its failure
    is that of the step that failed. So for a provider and a session whose
    outcomes do not depend on the state, [errors] is, entity by entity, what
    these outcomes call for, [failed] is its length and [succeeded] the rest.
    In particular one failure among 10 entities yields [succeeded = 9],
    [failed = 1]. *)
Theorem C2_failures_are_isolated
    (W : Type) (rt : Reindex.Runtime W)
    (svc : EmbeddingService.IEmbeddingService W)
    (options : Reindex.ReindexOptions) (fuel : nat)
    (s0 s1 : Reindex.state W) (entities : list Reindex.EntityBatch) :
  JS.truthyBool (Reindex.dryRun options) = false →
  (1 ≤ JS.orNum (Reindex.batchSize options) 10)%Z →
  Reindex.getEntitiesToReindex rt options s0 = (Returned entities, s1) →
  (length entities ≤ fuel)%nat →
  ∃ r s2 attempts tail,
    Reindex.reindexEmbeddings fuel rt svc options s0 = Some (Returned r, s2) ∧
    length attempts = length entities ∧
    Reindex.trace s2 = (Reindex.trace s1 ++ tail)%list ∧
    Reindex.generated tail = map Reindex.generateEmbeddingText entities ∧
    let verdicts := Reindex.verdictsAt rt svc entities attempts in
    let n := Z.of_nat (length entities) in
    let f := Z.of_nat (length (filter (λ v, Reindex.isFailure v = true) verdicts)) in
    Reindex.total r = n ∧
    Reindex.processed r = n ∧
    Reindex.failed r = f ∧
    Reindex.succeeded r = (n - f)%Z ∧
    Reindex.errors r = Reindex.failuresOf verdicts ∧
    (n = 10%Z → f = 1%Z → Reindex.succeeded r = 9%Z ∧ Reindex.failed r = 1%Z) ∧
    Forall2
      (λ entity s,
         match EmbeddingService.generateEmbedding svc
                 (Reindex.generateEmbeddingText entity) (Reindex.world s) with
         | (Raised e, _) => (Reindex.reindexEntity rt svc entity s).1 = Raised e
         | (Returned embedding, w) =>
             (Reindex.reindexEntity rt svc entity s).1 =
             (Reindex.runStore rt
                {| Reindex.sp_name := Reindex.name entity;
                   Reindex.sp_embedding := embedding;
                   Reindex.sp_model :=
                     EmbeddingService.name (EmbeddingService.getModelInfo svc);
                   Reindex.sp_dimensions :=
                     EmbeddingService.dimensions (EmbeddingService.getModelInfo svc) |}
                w).1
         end)
      entities attempts ∧
    (∀ (gen : string → outcome (list Q))
       (sto : Reindex.StoreParams → outcome unit),
       (∀ text w, (EmbeddingService.generateEmbedding svc text w).1 = gen text) →
       (∀ p w, (Reindex.runStore rt p w).1 = sto p) →
       let expected :=
         omap (ReindexVerdicts.expectedError gen sto
                 (EmbeddingService.getModelInfo svc)) entities in
       Reindex.errors r = expected ∧
       Reindex.failed r = Z.of_nat (length expected) ∧
       Reindex.succeeded r = (n - Z.of_nat (length expected))%Z).
Proof.
  intros Hdry Hb Hsel Hfuel.
  destruct (reindexEmbeddings_run rt svc options fuel s0 s1 entities
              Hdry Hb Hsel Hfuel)
    as (r & s2 & attempts & tail & Hrun & Hlen & Hr & Htr & Hgen & _).
  exists r, s2, attempts, tail.
  split; [exact Hrun|]. split; [exact Hlen|]. split; [exact Htr|].
  split; [exact Hgen|]. cbv zeta.
  destruct (tally_counts (Reindex.verdictsAt rt svc entities attempts)
              Reindex.zeroCounters) as (Hp & Hf & Hs & _ & He).
  assert (Hvs : length (Reindex.verdictsAt rt svc entities attempts) = length entities).
  { unfold Reindex.verdictsAt. rewrite length_zip_with. lia. }
  rewrite Hvs in Hp, Hs. simpl in Hp, Hf, Hs, He.
  rewrite <- Hr. simpl. rewrite Hp, Hf, Hs, He.
  split; [lia|]. split; [lia|]. split; [lia|]. split; [lia|].
  split; [reflexivity|]. split; [lia|].
  split; [by apply verdicts_linked|].
  intros gen sto Hgo Hso.
  rewrite <- (failuresOf_expected rt svc gen sto entities Hgo Hso attempts Hlen).
  rewrite failuresOf_length. repeat split; lia.
Qed.

Lemma C2_failures_are_isolated_witness :
  (∃ r s2,
     Reindex.reindexEmbeddings 10 (Fixtures.runtime Fixtures.ten)
       (Fixtures.provider (Fixtures.failingOn "e4" (newError "boom")))
       (Fixtures.options None None None) Fixtures.start = Some (Returned r, s2) ∧
     Reindex.succeeded r = 9%Z ∧ Reindex.failed r = 1%Z ∧
     Reindex.errors r =
       [{| Reindex.entityName := "e4"; Reindex.error := "boom" |}]) ∧
  (∃ r s2,
     Reindex.reindexEmbeddings 10
       (FailingStore.runtime Fixtures.ten "e7" (newError "write refused"))
       (Fixtures.provider (fun _ => None))
       (Fixtures.options None None None) Fixtures.start = Some (Returned r, s2) ∧
     Reindex.succeeded r = 9%Z ∧ Reindex.failed r = 1%Z ∧
     Reindex.errors r =
       [{| Reindex.entityName := "e7"; Reindex.error := "write refused" |}]).
Proof.
  split.
  - destruct (C2_failures_are_isolated unit (Fixtures.runtime Fixtures.ten)
                (Fixtures.provider (Fixtures.failingOn "e4" (newError "boom")))
                (Fixtures.options None None None) 10 Fixtures.start
                {| Reindex.world := tt;
                   Reindex.trace :=
                     [Reindex.Select
                        (Reindex.selectionQuery (Fixtures.options None None None)).1
                        (Reindex.selectionQuery (Fixtures.options None None None)).2] |}
                Fixtures.ten eq_refl ltac:(vm_compute; discriminate) eq_refl
                ltac:(simpl; lia))
      as (r & s2 & attempts & tail & Hrun & _ & _ & _ & _ & _ & _ & _ & _ & _ & _ & Hfree).
    exists r, s2. split; [exact Hrun|].
    destruct (Hfree
                (fun text =>
                   match Fixtures.failingOn "e4" (newError "boom") text with
                   | Some e => Raised e
                   | None => Returned [1%Q; 0%Q]
                   end)
                (fun _ => Returned tt))
      as (Herr & Hfailed & Hsucc).
    + intros text w. simpl.
      destruct (Fixtures.failingOn "e4" (newError "boom") text); reflexivity.
    + reflexivity.
    + rewrite Hsucc, Hfailed, Herr. repeat split; reflexivity.
  - destruct (C2_failures_are_isolated unit
                (FailingStore.runtime Fixtures.ten "e7" (newError "write refused"))
                (Fixtures.provider (fun _ => None))
                (Fixtures.options None None None) 10 Fixtures.start
                {| Reindex.world := tt;
                   Reindex.trace :=
                     [Reindex.Select
                        (Reindex.selectionQuery (Fixtures.options None None None)).1
                        (Reindex.selectionQuery (Fixtures.options None None None)).2] |}
                Fixtures.ten eq_refl ltac:(vm_compute; discriminate) eq_refl
                ltac:(simpl; lia))
      as (r & s2 & attempts & tail & Hrun & _ & _ & _ & _ & _ & _ & _ & _ & _ & _ & Hfree).
    exists r, s2. split; [exact Hrun|].
    destruct (Hfree
                (fun _ => Returned [1%Q; 0%Q])
                (fun p =>
                   if String.eqb (Reindex.sp_name p) "e7"
                   then Raised (newError "write refused") else Returned tt))
      as (Herr & Hfailed & Hsucc).
    + reflexivity.
    + intros p w. simpl. destruct (String.eqb (Reindex.sp_name p) "e7"); reflexivity.
    + rewrite Hsucc, Hfailed, Herr. repeat split; reflexivity.
Defined.

(** C2 as stated fails on the message: a failure whose message is empty,
    be it of the generation or of the write, is recorded with an empty
    message. *)
Lemma C2_counterexample :
  (∃ r s2,
     Reindex.reindexEmbeddings 1 (Fixtures.runtime [Fixtures.entity "bad"])
       (Fixtures.provider (Fixtures.failingOn "bad" (newError EmptyString)))
       (Fixtures.options None None None) Fixtures.start = Some (Returned r, s2) ∧
     Reindex.failed r = 1%Z ∧
     Reindex.errors r =
       [{| Reindex.entityName := "bad"; Reindex.error := EmptyString |}]) ∧
  (∃ r s2,
     Reindex.reindexEmbeddings 1
       (FailingStore.runtime [Fixtures.entity "bad"] "bad" (newError EmptyString))
       (Fixtures.provider (fun _ => None))
       (Fixtures.options None None None) Fixtures.start = Some (Returned r, s2) ∧
     Reindex.failed r = 1%Z ∧
     Reindex.errors r =
       [{| Reindex.entityName := "bad"; Reindex.error := EmptyString |}]).
Proof.
  split; eexists; eexists; (split; [vm_compute; reflexivity|]); split; reflexivity.
Qed.

(** C5. Under [dryRun], whatever the other options, the entities and the
    fuel: the run ends in the state the selection query left (its trace is
    the initial one plus that query, so no embedding is generated and
    nothing is stored), and, the selection having returned, the result
    carries the number of selected entities as [total], zero [processed],
    [succeeded] and [failed], and no errors. *)
Theorem C5_dry_run_is_pure
    (W : Type) (rt : Reindex.Runtime W)
    (svc : EmbeddingService.IEmbeddingService W)
    (options : Reindex.ReindexOptions) (fuel : nat)
    (s0 s1 : Reindex.state W) (entities : list Reindex.EntityBatch) :
  JS.truthyBool (Reindex.dryRun options) = true →
  Reindex.getEntitiesToReindex rt options s0 = (Returned entities, s1) →
  ∃ r,
    Reindex.reindexEmbeddings fuel rt svc options s0 = Some (Returned r, s1) ∧
    Reindex.trace s1 =
      (Reindex.trace s0 ++
       [Reindex.Select (Reindex.selectionQuery options).1
          (Reindex.selectionQuery options).2])%list ∧
    Reindex.generated (Reindex.trace s1) = Reindex.generated (Reindex.trace s0) ∧
    Reindex.stores (Reindex.trace s1) = Reindex.stores (Reindex.trace s0) ∧
    Reindex.total r = Z.of_nat (length entities) ∧
    Reindex.processed r = 0%Z ∧
    Reindex.succeeded r = 0%Z ∧
    Reindex.failed r = 0%Z ∧
    Reindex.errors r = [].
Proof.
  intros Hdry Hsel.
  pose proof (getEntitiesToReindex_trace rt options s0) as Htr.
  rewrite Hsel in Htr. simpl in Htr.
  unfold Reindex.reindexEmbeddings. rewrite Hsel, Hdry.
  destruct (Z.eqb_spec (Z.of_nat (length entities)) 0) as [Hzero|Hnz];
    eexists; (split; [reflexivity|]);
    rewrite Htr, generated_app, stores_app, !app_nil_r; simpl;
    repeat split; lia.
Qed.

Lemma C5_dry_run_is_pure_witness :
  ∃ r s1,
    Reindex.reindexEmbeddings 0 (Fixtures.runtime Fixtures.ten)
      (Fixtures.provider (fun _ => None))
      (Fixtures.options None None (Some true)) Fixtures.start =
      Some (Returned r, s1) ∧
    Reindex.total r = 10%Z ∧ Reindex.processed r = 0%Z ∧
    Reindex.generated (Reindex.trace s1) = [] ∧
    Reindex.stores (Reindex.trace s1) = [].
Proof.
  destruct (C5_dry_run_is_pure unit (Fixtures.runtime Fixtures.ten)
              (Fixtures.provider (fun _ => None))
              (Fixtures.options None None (Some true)) 0 Fixtures.start
              {| Reindex.world := tt;
                 Reindex.trace :=
                   [Reindex.Select
                      (Reindex.selectionQuery (Fixtures.options None None (Some true))).1
                      (Reindex.selectionQuery (Fixtures.options None None (Some true))).2] |}
              Fixtures.ten eq_refl eq_refl)
    as (r & Hrun & _ & Hgen & Hst & Htot & Hproc & _).
  eexists r, _. split; [exact Hrun|].
  split; [exact Htot|]. split; [exact Hproc|]. split; [exact Hgen | exact Hst].
Defined.

(** C6 (failing input). With two entities, a batch size of 1 and a
    configured delay of 0, the run sleeps the default 1000 ms between the two
    batches: [options.batchDelay || 1000] reads the configured 0 as absent. *)
Theorem C6_zero_delay_sleeps_default :
  ∃ r s2,
    Reindex.reindexEmbeddings 2
      (Fixtures.runtime [Fixtures.entity "e1"; Fixtures.entity "e2"])
      (Fixtures.provider (fun _ => None))
      (Fixtures.options (Some 1%Z) (Some 0%Z) None) Fixtures.start =
      Some (Returned r, s2) ∧
    Reindex.processed r = 2%Z ∧
    Reindex.sleeps (Reindex.trace s2) = [1000%Z].
Proof. eexists. eexists. split; [vm_compute; reflexivity|]. split; reflexivity. Qed.

(** For a configured delay other than 0 and a batch size of at least one,
    the run sleeps that delay once per batch but the last (not at all when
    the delay is negative), and the last thing it does is not a sleep. *)
Lemma reindex_sleeps_between_batches
    (W : Type) (rt : Reindex.Runtime W)
    (svc : EmbeddingService.IEmbeddingService W)
    (options : Reindex.ReindexOptions) (fuel : nat)
    (s0 s1 : Reindex.state W) (entities : list Reindex.EntityBatch) (d : Z) :
  JS.truthyBool (Reindex.dryRun options) = false →
  (1 ≤ JS.orNum (Reindex.batchSize options) 10)%Z →
  Reindex.batchDelay options = Some d → d ≠ 0%Z →
  Reindex.getEntitiesToReindex rt options s0 = (Returned entities, s1) →
  (length entities ≤ fuel)%nat →
  ∃ r s2 tail,
    Reindex.reindexEmbeddings fuel rt svc options s0 = Some (Returned r, s2) ∧
    Reindex.trace s2 = (Reindex.trace s1 ++ tail)%list ∧
    Reindex.sleeps tail =
      (if (d >? 0)%Z
       then repeat d
              (Z.to_nat
                 (Reindex.ceilDiv (Z.of_nat (length entities))
                    (JS.orNum (Reindex.batchSize options) 10) - 1))
       else []) ∧
    (∀ ms, last tail ≠ Some (Reindex.Sleep ms)).
Proof.
  intros Hdry Hb Hd Hnz Hsel Hfuel.
  destruct (reindexEmbeddings_run rt svc options fuel s0 s1 entities
              Hdry Hb Hsel Hfuel)
    as (r & s2 & attempts & tail & Hrun & _ & _ & Htr & _ & Hsl & Hlast).
  exists r, s2, tail. split; [exact Hrun|]. split; [exact Htr|].
  split; [|exact Hlast].
  rewrite Hsl. unfold Reindex.expectedSleeps. rewrite Hd. simpl.
  destruct (Z.eqb_spec d 0); [contradiction|].
  rewrite Z.sub_0_r. reflexivity.
Qed.

(** ** Reciprocal rank fusion *)

Section Fusion.

Import Neo4jVectorStore.

Variable k : Q.

Lemma mapGet_mapSet (m : RrfMap) (key key' : string) (v : RrfEntry) :
  mapGet (mapSet m key v) key' =
  if String.eqb key key' then Some v else mapGet m key'.
Proof.
  induction m as [|[k0 v0] m IH]; simpl.
  - reflexivity.
  - destruct (String.eqb_spec k0 key) as [->|Hne]; simpl.
    + destruct (String.eqb key key'); reflexivity.
    + rewrite IH. destruct (String.eqb_spec k0 key') as [->|_]; [|reflexivity].
      destruct (String.eqb_spec key key'); [congruence|reflexivity].
Qed.

Lemma rankOf_absent (ids : list string) (e : string) :
  e ∉ ids → rankOf ids e = None.
Proof.
  induction ids as [|x ids IH]; simpl; [reflexivity|].
  intros Hnotin. apply not_elem_of_cons in Hnotin as [Hne Hrest].
  destruct (String.eqb_spec x e); [congruence|].
  rewrite IH by exact Hrest. reflexivity.
Qed.

Lemma rankOf_present (ids : list string) (e : string) :
  e ∈ ids → ∃ r, rankOf ids e = Some (S r).
Proof.
  induction ids as [|x ids IH]; simpl; intros Hin.
  - by apply elem_of_nil in Hin.
  - destruct (String.eqb_spec x e) as [_|Hne]; [by exists 0%nat|].
    apply elem_of_cons in Hin as [->|Hin]; [congruence|].
    destruct (IH Hin) as [r ->]. by exists (S r).
Qed.

Lemma rankOf_elem_of (ids : list string) (e : string) (r : nat) :
  rankOf ids e = Some r → e ∈ ids ∧ ∃ r', r = S r'.
Proof.
  destruct (decide (e ∈ ids)) as [Hin|Hnotin].
  - destruct (rankOf_present ids e Hin) as [r' ->]. intros [= <-]. eauto.
  - rewrite rankOf_absent by exact Hnotin. discriminate.
Qed.

(** The fused score after the vector pass: the entry of the entity's rank. *)
Lemma addVectorResults_score (V : list VectorRecord) :
  NoDup (map v_id V) →
  ∀ (i : nat) (m : RrfMap) (e : string),
  score <$> mapGet (addVectorResults k V i m) e =
  match rankOf (map v_id V) e with
  | Some r => Some (rrfScore k (i + r - 1))
  | None => score <$> mapGet m e
  end.
Proof.
  induction V as [|record V IH]; intros Hnodup i m e; simpl; [reflexivity|].
  apply NoDup_cons in Hnodup as [Hfresh Hnodup].
  rewrite (IH Hnodup), mapGet_mapSet.
  destruct (String.eqb_spec (v_id record) e) as [<-|Hne].
  - rewrite rankOf_absent by exact Hfresh. simpl.
    do 2 f_equal. lia.
  - destruct (rankOf (map v_id V) e) as [r|]; simpl; [|reflexivity].
    do 2 f_equal. lia.
Qed.

(** The fused score after the keyword pass over a map [m]. *)
Lemma addKeywordResults_score (K : list KeywordRecord) :
  NoDup (map k_id K) →
  ∀ (i : nat) (m : RrfMap) (e : string),
  score <$> mapGet (addKeywordResults k K i m) e =
  match rankOf (map k_id K) e with
  | Some r =>
      Some match mapGet m e with
           | Some existing => (score existing + rrfScore k (i + r - 1))%Q
           | None => rrfScore k (i + r - 1)
           end
  | None => score <$> mapGet m e
  end.
Proof.
  induction K as [|record K IH]; intros Hnodup i m e; simpl; [reflexivity|].
  apply NoDup_cons in Hnodup as [Hfresh Hnodup].
  rewrite (IH Hnodup), mapGet_mapSet.
  destruct (String.eqb_spec (k_id record) e) as [<-|Hne].
  - rewrite rankOf_absent by exact Hfresh. simpl.
    replace (i + 1 - 1)%nat with i by lia.
    destruct (mapGet m (k_id record)); reflexivity.
  - destruct (rankOf (map k_id K) e) as [r|]; cbn [option_map]; [|reflexivity].
    replace (S i + r - 1)%nat with (i + S r - 1)%nat by lia. reflexivity.
Qed.

Lemma rrfScore_rank (r : nat) :
  (rrfScore k r == 1 / (k + inject_Z (Z.of_nat (S r))))%Q.
Proof.
  unfold rrfScore.
  rewrite Nat2Z.inj_succ, <- Z.add_1_r, inject_Z_plus.
  rewrite <- Qplus_assoc. reflexivity.
Qed.

Lemma Forall_insertByScore (P : string * RrfEntry → Prop)
    (x : string * RrfEntry) (l : RrfMap) :
  Forall P (insertByScore x l) ↔ P x ∧ Forall P l.
Proof.
  induction l as [|y l IH]; simpl.
  - rewrite Forall_singleton, Forall_nil. tauto.
  - destruct (Qle_bool (score y.2) (score x.2)).
    + rewrite Forall_cons. tauto.
    + rewrite !Forall_cons, IH. tauto.
Qed.

Lemma insertByScore_sorted (x : string * RrfEntry) (l : RrfMap) :
  StronglySorted descending l → StronglySorted descending (insertByScore x l).
Proof.
  induction 1 as [|y l Hsorted IH Hall]; simpl.
  - repeat constructor.
  - destruct (Qle_bool (score y.2) (score x.2)) eqn:Hle.
    + apply Qle_bool_iff in Hle.
      constructor; [by constructor|].
      constructor; [exact Hle|].
      eapply Forall_impl; [exact Hall|].
      intros z Hz. simpl in *. by eapply Qle_trans.
    + assert (Hlt : (score x.2 < score y.2)%Q).
      { apply Qnot_le_lt. intros Hc. apply Qle_bool_iff in Hc. congruence. }
      constructor; [exact IH|].
      apply Forall_insertByScore. split; [|exact Hall].
      simpl. by apply Qlt_le_weak.
Qed.

Lemma sortByScore_sorted (l : RrfMap) : StronglySorted descending (sortByScore l).
Proof.
  induction l as [|x l IH]; simpl; [constructor|].
  by apply insertByScore_sorted.
Qed.

Lemma insertByScore_perm (x : string * RrfEntry) (l : RrfMap) :
  insertByScore x l ≡ₚ x :: l.
Proof.
  induction l as [|y l IH]; simpl; [reflexivity|].
  destruct (Qle_bool _ _); [reflexivity|].
  rewrite IH. apply Permutation_swap.
Qed.

Lemma sortByScore_perm (l : RrfMap) : sortByScore l ≡ₚ l.
Proof.
  induction l as [|x l IH]; simpl; [reflexivity|].
  rewrite insertByScore_perm, IH. reflexivity.
Qed.

Lemma mapSet_keys (m : RrfMap) (key : string) (v : RrfEntry) :
  map fst (mapSet m key v) =
  match mapGet m key with
  | Some _ => map fst m
  | None => (map fst m ++ [key])%list
  end.
Proof.
  induction m as [|[k0 v0] m IH]; simpl; [reflexivity|].
  destruct (String.eqb_spec k0 key) as [->|Hne]; simpl; [reflexivity|].
  rewrite IH. destruct (mapGet m key); reflexivity.
Qed.

Lemma mapGet_None (m : RrfMap) (key : string) :
  mapGet m key = None → key ∉ map fst m.
Proof.
  induction m as [|[k0 v0] m IH]; simpl; intros Hget.
  - apply not_elem_of_nil.
  - destruct (String.eqb_spec k0 key) as [->|Hne]; [discriminate|].
    apply not_elem_of_cons. split; [congruence|by apply IH].
Qed.

Lemma mapSet_NoDup (m : RrfMap) (key : string) (v : RrfEntry) :
  NoDup (map fst m) → NoDup (map fst (mapSet m key v)).
Proof.
  intros Hnodup. rewrite mapSet_keys.
  destruct (mapGet m key) eqn:Hget; [exact Hnodup|].
  apply NoDup_app. split; [exact Hnodup|]. split; [|apply NoDup_singleton].
  intros x Hx Hin. apply list_elem_of_singleton in Hin as ->.
  by apply (mapGet_None m key Hget).
Qed.

Lemma addVectorResults_NoDup (V : list VectorRecord) (i : nat) (m : RrfMap) :
  NoDup (map fst m) → NoDup (map fst (addVectorResults k V i m)).
Proof.
  revert i m. induction V as [|record V IH]; intros i m Hnodup; simpl; [done|].
  by apply IH, mapSet_NoDup.
Qed.

Lemma addKeywordResults_NoDup (K : list KeywordRecord) (i : nat) (m : RrfMap) :
  NoDup (map fst m) → NoDup (map fst (addKeywordResults k K i m)).
Proof.
  revert i m. induction K as [|record K IH]; intros i m Hnodup; simpl; [done|].
  by apply IH, mapSet_NoDup.
Qed.

Lemma mapGet_elem_of (m : RrfMap) (key : string) (v : RrfEntry) :
  NoDup (map fst m) → (key, v) ∈ m → mapGet m key = Some v.
Proof.
  induction m as [|[k0 v0] m IH]; simpl; intros Hnodup Hin.
  - by apply elem_of_nil in Hin.
  - apply NoDup_cons in Hnodup as [Hfresh Hnodup].
    apply elem_of_cons in Hin as [[= <- <-]|Hin].
    + by rewrite String.eqb_refl.
    + destruct (String.eqb_spec k0 key) as [->|_]; [|by apply IH].
      exfalso. apply Hfresh. apply (list_elem_of_fmap_2 fst m (key, v)), Hin.
Qed.

Lemma slice_prefix {A} (xs : list A) (limit : Z) :
  ∃ n, JS.slice xs 0 limit = take n xs.
Proof.
  unfold JS.slice. change (JS.clampIndex (Z.of_nat (length xs)) 0)
    with (Z.min 0 (Z.of_nat (length xs))).
  rewrite Z.min_l by lia. simpl drop. eexists. reflexivity.
Qed.

End Fusion.

Section FusionResult.

Import Neo4jVectorStore.

Lemma fuse_NoDup (k : Q) (V : list VectorRecord) (K : list KeywordRecord) :
  NoDup (map fst (fuse k V K)).
Proof.
  unfold fuse. apply addKeywordResults_NoDup, addVectorResults_NoDup.
  simpl. apply NoDup_nil_2.
Qed.

Lemma fuse_score (k : Q) (V : list VectorRecord) (K : list KeywordRecord)
    (e : string) :
  NoDup (map v_id V) → NoDup (map k_id K) →
  match mapGet (fuse k V K) e with
  | Some entry =>
      (e ∈ map v_id V ∨ e ∈ map k_id K) ∧
      (score entry == specScore k V K e)%Q
  | None => (e ∉ map v_id V) ∧ (e ∉ map k_id K)
  end.
Proof.
  intros HV HK.
  pose proof (addKeywordResults_score k K HK 0 (addVectorResults k V 0 []) e) as Hk.
  pose proof (addVectorResults_score k V HV 0 [] e) as Hv.
  fold (fuse k V K) in Hk. unfold specScore, contribution.
  destruct (rankOf (map k_id K) e) as [rK|] eqn:HrK.
  - destruct (rankOf_elem_of _ _ _ HrK) as [HinK [rK' ->]].
    destruct (mapGet (fuse k V K) e) as [entry|]; [|discriminate].
    injection Hk as Hk. split; [by right|]. rewrite Hk.
    destruct (mapGet (addVectorResults k V 0 []) e) as [existing|].
    + destruct (rankOf (map v_id V) e) as [rV|] eqn:HrV; [|discriminate].
      destruct (rankOf_elem_of _ _ _ HrV) as [_ [rV' ->]].
      injection Hv as ->. rewrite ?Nat.sub_0_r, !rrfScore_rank. reflexivity.
    + destruct (rankOf (map v_id V) e) as [rV|]; [discriminate|].
      rewrite ?Nat.sub_0_r, rrfScore_rank, Qplus_0_l. reflexivity.
  - destruct (rankOf (map v_id V) e) as [rV|] eqn:HrV.
    + destruct (rankOf_elem_of _ _ _ HrV) as [HinV [rV' ->]].
      rewrite Hv in Hk.
      destruct (mapGet (fuse k V K) e) as [entry|]; [|discriminate].
      injection Hk as ->. split; [by left|].
      rewrite ?Nat.sub_0_r, rrfScore_rank, Qplus_0_r. reflexivity.
    + rewrite Hv in Hk. simpl in Hk.
      destruct (mapGet (fuse k V K) e) as [entry|]; [discriminate|].
      split; intros Hin; apply rankOf_present in Hin as [r Hr]; congruence.
Qed.

End FusionResult.

(** C3 (as amended). For vector and keyword result lists that each name an
    entity at most once, and a constant [k >= 0]: an entity has a fused score
    exactly when it is in one of the lists, and the score is
    [1/(k + rank_V(e))] if it is in [V] plus [1/(k + rank_K(e))] if it is in
    [K] (ranks counted from 1); the ranked list is in descending order of
    fused score, each of its results carries the fused score of its entity
    as [similarity], and fusing the same inputs again gives the same list. *)
Theorem C3_rrf_fused_scores
    (k : Q) (V : list Neo4jVectorStore.VectorRecord)
    (K : list Neo4jVectorStore.KeywordRecord) (limit : Z) :
  NoDup (map Neo4jVectorStore.v_id V) →
  NoDup (map Neo4jVectorStore.k_id K) →
  (0 <= k)%Q →
  (∀ e,
     match Neo4jVectorStore.mapGet (Neo4jVectorStore.fuse k V K) e with
     | Some entry =>
         (e ∈ map Neo4jVectorStore.v_id V ∨ e ∈ map Neo4jVectorStore.k_id K) ∧
         (Neo4jVectorStore.score entry == Neo4jVectorStore.specScore k V K e)%Q
     | None =>
         (e ∉ map Neo4jVectorStore.v_id V) ∧ (e ∉ map Neo4jVectorStore.k_id K)
     end) ∧
  (let ranked := Neo4jVectorStore.rankFused k V K limit in
   StronglySorted
     (λ a b, (VectorStore.similarity b <= VectorStore.similarity a)%Q) ranked ∧
   Forall
     (λ r, ∃ entry,
        Neo4jVectorStore.mapGet (Neo4jVectorStore.fuse k V K) (VectorStore.id r) =
          Some entry ∧
        VectorStore.similarity r = Neo4jVectorStore.score entry ∧
        (VectorStore.similarity r ==
           Neo4jVectorStore.specScore k V K (VectorStore.id r))%Q)
     ranked ∧
   ∀ V' K', V' = V → K' = K → Neo4jVectorStore.rankFused k V' K' limit = ranked).
Proof.
  intros HV HK Hk. split; [intros e; by apply fuse_score|].
  cbv zeta.
  split; [|split; [|intros V' K' -> ->; reflexivity]];
    unfold Neo4jVectorStore.rankFused;
    destruct (slice_prefix
                (Neo4jVectorStore.sortByScore (Neo4jVectorStore.fuse k V K)) limit)
      as [n ->].
  - pose proof (sortByScore_sorted (Neo4jVectorStore.fuse k V K)) as Hsorted.
    rewrite <- (take_drop n) in Hsorted.
    apply StronglySorted_app_1_l in Hsorted.
    eapply StronglySorted_fmap; [|exact Hsorted].
    intros [ida a] [idb b] Hab. exact Hab.
  - apply Forall_fmap, Forall_forall. intros [id data] Hin.
    assert (Hget : Neo4jVectorStore.mapGet (Neo4jVectorStore.fuse k V K) id = Some data).
    { apply mapGet_elem_of; [apply fuse_NoDup|].
      apply (subseteq_take n) in Hin.
      by rewrite sortByScore_perm in Hin. }
    exists data. simpl. split; [exact Hget|]. split; [reflexivity|].
    pose proof (fuse_score k V K id HV HK) as Hscore.
    rewrite Hget in Hscore. apply Hscore.
Qed.

Lemma C3_rrf_fused_scores_witness :
  let V :=
    [ {| Neo4jVectorStore.v_id := "a"; Neo4jVectorStore.v_entityType := "Sensor";
         Neo4jVectorStore.v_vectorScore := (9 # 10)%Q |};
      {| Neo4jVectorStore.v_id := "b"; Neo4jVectorStore.v_entityType := "Sensor";
         Neo4jVectorStore.v_vectorScore := (8 # 10)%Q |} ] in
  let K :=
    [ {| Neo4jVectorStore.k_id := "b"; Neo4jVectorStore.k_entityType := "Sensor";
         Neo4jVectorStore.k_bm25Score := (5 # 2)%Q |};
      {| Neo4jVectorStore.k_id := "c"; Neo4jVectorStore.k_entityType := "Sensor";
         Neo4jVectorStore.k_bm25Score := 1%Q |} ] in
  ∃ entry,
    Neo4jVectorStore.mapGet (Neo4jVectorStore.fuse 60 V K) "b" = Some entry ∧
    (Neo4jVectorStore.score entry == 1 / (60 + 2) + 1 / (60 + 1))%Q.
Proof.
  intros V K.
  pose proof (proj1 (C3_rrf_fused_scores 60 V K 5
                       ltac:(by_decision) ltac:(by_decision)
                       ltac:(unfold Qle; simpl; lia)) "b") as Hb.
  destruct (Neo4jVectorStore.mapGet (Neo4jVectorStore.fuse 60 V K) "b")
    as [entry|] eqn:Hget.
  - exists entry. split; [reflexivity|].
    destruct Hb as [_ ->]. reflexivity.
  - vm_compute in Hget. discriminate Hget.
Defined.

(** C3 as stated fails for a result list that names an entity twice (the
    keyword query returns one record per matching node, and several nodes
    can carry one name): both keyword contributions are added up, where the
    formula has a single one. *)
Lemma C3_counterexample :
  let K :=
    [ {| Neo4jVectorStore.k_id := "a"; Neo4jVectorStore.k_entityType := "Sensor";
         Neo4jVectorStore.k_bm25Score := (5 # 2)%Q |};
      {| Neo4jVectorStore.k_id := "a"; Neo4jVectorStore.k_entityType := "Sensor";
         Neo4jVectorStore.k_bm25Score := 2%Q |} ] in
  ∃ entry,
    Neo4jVectorStore.mapGet (Neo4jVectorStore.fuse 60 [] K) "a" = Some entry ∧
    (Neo4jVectorStore.score entry == 1 / (60 + 1) + 1 / (60 + 2))%Q ∧
    (Neo4jVectorStore.specScore 60 [] K "a" == 1 / (60 + 1))%Q ∧
    ¬ (Neo4jVectorStore.score entry == Neo4jVectorStore.specScore 60 [] K "a")%Q.
Proof.
  intros K. eexists. split; [reflexivity|].
  split; [reflexivity|]. split; [reflexivity|].
  vm_compute. discriminate.
Qed.

(** ** Configuration: validity, reporting, and the store's default *)

Section Rendering.

Local Open Scope Z_scope.

Lemma digitValue_pretty_N_char (d : N) :
  (d < 10)%N →
  JS.digitValue (pretty_N_char d) = Some (Z.of_N d) ∧
  JS.isWhiteSpace (pretty_N_char d) = false ∧
  pretty_N_char d ≠ "-"%char ∧ pretty_N_char d ≠ "+"%char.
Proof.
  intros Hd.
  assert (d = 0 ∨ d = 1 ∨ d = 2 ∨ d = 3 ∨ d = 4 ∨ d = 5 ∨ d = 6 ∨ d = 7 ∨
          d = 8 ∨ d = 9)%N as Hcases by lia.
  repeat destruct Hcases as [->|Hcases]; try subst d;
    (split; [reflexivity|]; split; [reflexivity|]; split; discriminate).
Qed.

(** The digits [pretty_N_go] puts before [s] are read back by
    [parseDigits]. *)
Lemma parseDigits_pretty_N_go (x : N) :
  ∀ (s : string) (acc : option Z),
  (0 < x)%N →
  ∃ k : Z, 0 ≤ k ∧
    JS.parseDigits (pretty_N_go x s) acc =
    JS.parseDigits s (Some (default 0 acc * 10 ^ k + Z.of_N x)).
Proof.
  induction (N.lt_wf_0 x) as [x _ IH]; intros s acc Hpos.
  rewrite pretty_N_go_step by exact Hpos.
  destruct (digitValue_pretty_N_char (x `mod` 10)%N) as (Hdigit & _);
    [apply N.mod_lt; lia|].
  pose proof (N.div_mod x 10 ltac:(lia)) as Hdivmod.
  destruct (N.eq_dec (x `div` 10) 0)%N as [Hzero|Hnz].
  - rewrite Hzero, pretty_N_go_0. simpl. rewrite Hdigit.
    exists 1. split; [lia|]. f_equal. f_equal.
    rewrite Hzero, N.mul_0_r, N.add_0_l in Hdivmod. rewrite <- Hdivmod.
    change (10 ^ 1) with 10. generalize (default 0 acc). intros a. lia.
  - destruct (IH (x `div` 10)%N ltac:(apply N.div_lt; lia)
                (String (pretty_N_char (x `mod` 10)) s) acc
                ltac:(apply N.neq_0_lt_0; exact Hnz))
      as (k & Hk & ->).
    simpl. rewrite Hdigit. exists (k + 1). split; [lia|].
    do 2 f_equal. rewrite Z.pow_add_r by lia.
    set (q := (x `div` 10)%N) in *. set (r := (x `mod` 10)%N) in *.
    cbn [default]. lia.
Qed.

Lemma pretty_N_go_head (x : N) :
  ∀ s : string, (0 < x)%N →
  ∃ d rest, (d < 10)%N ∧ pretty_N_go x s = String (pretty_N_char d) rest.
Proof.
  induction (N.lt_wf_0 x) as [x _ IH]; intros s Hpos.
  rewrite pretty_N_go_step by exact Hpos.
  destruct (N.eq_dec (x `div` 10) 0)%N as [Hzero|Hnz].
  - rewrite Hzero, pretty_N_go_0. eexists _, _. split; [|reflexivity].
    apply N.mod_lt. lia.
  - apply IH; [apply N.div_lt; lia | apply N.neq_0_lt_0; exact Hnz].
Qed.

Lemma parseInt10_digits (s : string) (d : N) (rest : string) :
  (d < 10)%N → s = String (pretty_N_char d) rest →
  JS.parseInt10 s = (λ n, 1 * n) <$> JS.parseDigits s None.
Proof.
  intros Hd ->. destruct (digitValue_pretty_N_char d Hd) as (_ & Hws & Hm & Hp).
  unfold JS.parseInt10. cbn [JS.trimStart]. rewrite Hws.
  destruct (pretty_N_char d) as [[] [] [] [] [] [] [] []]; try reflexivity;
    congruence.
Qed.

Lemma parseInt10_pretty_pos (p : positive) :
  JS.parseInt10 (pretty (N.pos p)) = Some (Z.pos p) ∧
  JS.parseDigits (pretty (N.pos p)) None = Some (Z.pos p).
Proof.
  unfold pretty, pretty_N. rewrite decide_False by discriminate.
  destruct (pretty_N_go_head (N.pos p) EmptyString ltac:(lia))
    as (d & rest & Hd & Hhead).
  destruct (parseDigits_pretty_N_go (N.pos p) EmptyString None ltac:(lia))
    as (k & Hk & Hparse).
  simpl in Hparse.
  rewrite (parseInt10_digits _ d rest Hd Hhead), Hparse. simpl. auto.
Qed.

(** [parseInt] reads back the decimal rendering of an integer. *)
Lemma parseInt10_pretty (n : Z) : JS.parseInt10 (pretty n) = Some n.
Proof.
  destruct n as [|p|p].
  - reflexivity.
  - apply parseInt10_pretty_pos.
  - change (JS.parseInt10 (pretty (Z.neg p)))
      with ((λ n, -1 * n) <$> JS.parseDigits (pretty (N.pos p)) None).
    rewrite (proj2 (parseInt10_pretty_pos p)). reflexivity.
Qed.

Lemma pretty_Z_nonempty (n : Z) : pretty n ≠ EmptyString.
Proof.
  intros Hempty. pose proof (parseInt10_pretty n) as Hparse.
  rewrite Hempty in Hparse. discriminate Hparse.
Qed.

End Rendering.

Section ValidatorReport.

Import EmbeddingConfigValidator.

Lemma dimension_eqb_eq (a b : dimension) : dimension_eqb a b = true ↔ a = b.
Proof.
  destruct a as [x|k], b as [y|k']; simpl; split; try discriminate.
  - intros H%Z.eqb_eq. congruence.
  - intros [= ->]. apply Z.eqb_refl.
  - intros H%String.eqb_eq. congruence.
  - intros [= ->]. apply String.eqb_refl.
Qed.

Lemma validate_dimensionsMatch (env : Env) :
  dimensionsMatch (config (validate env)) =
  dimension_eqb (dimensions (config (validate env)))
    (vectorIndexDimensions (config (validate env))).
Proof.
  unfold validate.
  destruct (resolveEmbeddingDimensions _ _) as [[d src] errs].
  destruct (resolveVectorIndexDimensions _ _) as [[d' src'] errs'].
  reflexivity.
Qed.

Lemma validate_isValid (env : Env) :
  isValid (validate env) = true ↔ errors (validate env) = [].
Proof.
  unfold validate.
  destruct (resolveEmbeddingDimensions _ _) as [[d src] errs].
  destruct (resolveVectorIndexDimensions _ _) as [[d' src'] errs']. simpl.
  destruct (pushIf _ _ _); simpl; split; congruence.
Qed.

Lemma pushIf_nil (c : bool) (x : string) (xs : list string) :
  pushIf c x xs = [] ↔ c = false ∧ xs = [].
Proof.
  destruct c; simpl.
  - split; [|intros [? _]; discriminate].
    intros H. apply app_eq_nil in H as [_ H]. discriminate H.
  - intuition.
Qed.

(** The three ways to an error, read off a valid result. *)
Lemma validate_valid_inv (env : Env) :
  isValid (validate env) = true →
  dimensionsMatch (config (validate env)) = true ∧
  (resolveEmbeddingDimensions env (modelOf env)).2 = [] ∧
  (resolveVectorIndexDimensions env (dimensions (config (validate env)))).2 = [].
Proof.
  rewrite validate_isValid, validate_dimensionsMatch, validate_vectorIndexDimensions.
  rewrite validate_errors, validate_dimensions. cbv zeta.
  intros (Hmatch & Herrs)%pushIf_nil.
  apply app_eq_nil in Herrs as [He Hv].
  split; [by apply negb_false_iff|]. auto.
Qed.

Lemma resolveEmbeddingDimensions_insert_index (env : Env) (m v : string) :
  resolveEmbeddingDimensions (<["NEO4J_VECTOR_DIMENSIONS" := v]> env) m =
  resolveEmbeddingDimensions env m.
Proof.
  unfold resolveEmbeddingDimensions.
  rewrite lookup_insert_ne by discriminate. reflexivity.
Qed.

Lemma modelOf_insert_index (env : Env) (v : string) :
  modelOf (<["NEO4J_VECTOR_DIMENSIONS" := v]> env) = modelOf env.
Proof. unfold modelOf. rewrite lookup_insert_ne by discriminate. reflexivity. Qed.

End ValidatorReport.

(** X1. A configuration that [validate] accepts is consistent: the resolved
    embedding dimension and vector index dimension are equal, and each
    override that is set (and not empty) is a number [parseInt] reads, which
    is then the resolved value. *)
Theorem validate_valid_is_consistent (env : gmap string string) :
  let r := EmbeddingConfigValidator.validate env in
  let c := EmbeddingConfigValidator.config r in
  EmbeddingConfigValidator.isValid r = true →
  EmbeddingConfigValidator.errors r = [] ∧
  EmbeddingConfigValidator.dimensions c =
    EmbeddingConfigValidator.vectorIndexDimensions c ∧
  (∀ raw, env !! "OPENAI_EMBEDDING_DIMENSIONS" = Some raw → raw ≠ EmptyString →
     ∃ n, JS.parseInt10 raw = Some n ∧
          EmbeddingConfigValidator.dimensions c = Dim n) ∧
  (∀ raw, env !! "NEO4J_VECTOR_DIMENSIONS" = Some raw → raw ≠ EmptyString →
     ∃ n, JS.parseInt10 raw = Some n ∧
          EmbeddingConfigValidator.vectorIndexDimensions c = Dim n).
Proof.
  cbv zeta. intros Hvalid.
  destruct (validate_valid_inv env Hvalid) as (Hmatch & He & Hv).
  split; [by apply validate_isValid|].
  split; [by apply dimension_eqb_eq; rewrite <- validate_dimensionsMatch|].
  split; intros raw Hraw Hne.
  - rewrite validate_dimensions. revert He.
    unfold EmbeddingConfigValidator.resolveEmbeddingDimensions.
    rewrite Hraw. simpl.
    destruct (String.eqb_spec raw EmptyString) as [->|_]; [congruence|]. simpl.
    destruct (JS.parseInt10 raw) as [n|]; [|discriminate]. eauto.
  - rewrite validate_vectorIndexDimensions. revert Hv.
    unfold EmbeddingConfigValidator.resolveVectorIndexDimensions.
    rewrite Hraw. simpl.
    destruct (String.eqb_spec raw EmptyString) as [->|_]; [congruence|]. simpl.
    destruct (JS.parseInt10 raw) as [n|]; [|discriminate]. eauto.
Qed.

Lemma validate_valid_is_consistent_witness :
  let env :=
    <["NEO4J_VECTOR_DIMENSIONS" := "1024"]>
      (<["OPENAI_EMBEDDING_DIMENSIONS" := "1024"]> (∅ : gmap string string)) in
  let c := EmbeddingConfigValidator.config (EmbeddingConfigValidator.validate env) in
  EmbeddingConfigValidator.dimensions c = Dim 1024 ∧
  EmbeddingConfigValidator.vectorIndexDimensions c = Dim 1024.
Proof.
  intros env c. unfold c.
  destruct (validate_valid_is_consistent env eq_refl) as (_ & _ & He & Hv).
  destruct (He "1024" eq_refl ltac:(discriminate)) as (n & Hn & ->).
  destruct (Hv "1024" eq_refl ltac:(discriminate)) as (m & Hm & ->).
  vm_compute in Hn, Hm. injection Hn as <-. injection Hm as <-. split; reflexivity.
Defined.

(** X2. With neither dimension override set (or both empty), whatever the
    model name and the other variables: [validate] reports no error, both
    dimensions are what [getModelDimensions] gives for the model, and
    [validateAndLog] returns that result even when asked to throw. *)
Theorem validate_without_overrides_is_valid (env : gmap string string)
    (throwOnError : bool) :
  JS.truthyStr (env !! "OPENAI_EMBEDDING_DIMENSIONS") = false →
  JS.truthyStr (env !! "NEO4J_VECTOR_DIMENSIONS") = false →
  let r := EmbeddingConfigValidator.validate env in
  let c := EmbeddingConfigValidator.config r in
  EmbeddingConfigValidator.errors r = [] ∧
  EmbeddingConfigValidator.dimensions c =
    getModelDimensions (EmbeddingConfigValidator.modelOf env) ∧
  EmbeddingConfigValidator.vectorIndexDimensions c =
    getModelDimensions (EmbeddingConfigValidator.modelOf env) ∧
  EmbeddingConfigValidator.dimensionsMatch c = true ∧
  EmbeddingConfigReport.validateAndLog throwOnError env = Returned r.
Proof.
  intros He Hv. cbv zeta.
  assert (Hd : EmbeddingConfigValidator.dimensions
                 (EmbeddingConfigValidator.config
                    (EmbeddingConfigValidator.validate env)) =
               getModelDimensions (EmbeddingConfigValidator.modelOf env)).
  { rewrite validate_dimensions.
    unfold EmbeddingConfigValidator.resolveEmbeddingDimensions. by rewrite He. }
  assert (Hi : EmbeddingConfigValidator.vectorIndexDimensions
                 (EmbeddingConfigValidator.config
                    (EmbeddingConfigValidator.validate env)) =
               getModelDimensions (EmbeddingConfigValidator.modelOf env)).
  { rewrite validate_vectorIndexDimensions, Hd.
    unfold EmbeddingConfigValidator.resolveVectorIndexDimensions. by rewrite Hv. }
  assert (Hm : EmbeddingConfigValidator.dimensionsMatch
                 (EmbeddingConfigValidator.config
                    (EmbeddingConfigValidator.validate env)) = true).
  { rewrite validate_dimensionsMatch, Hd, Hi. by apply dimension_eqb_eq. }
  assert (Herr : EmbeddingConfigValidator.errors
                   (EmbeddingConfigValidator.validate env) = []).
  { rewrite validate_errors. cbv zeta.
    unfold EmbeddingConfigValidator.resolveEmbeddingDimensions.
    rewrite He. simpl.
    unfold EmbeddingConfigValidator.resolveVectorIndexDimensions.
    rewrite Hv. simpl.
    replace (dimension_eqb _ _) with true
      by (symmetry; by apply dimension_eqb_eq).
    reflexivity. }
  repeat split; try assumption.
  unfold EmbeddingConfigReport.validateAndLog.
  rewrite (proj2 (validate_isValid env) Herr). reflexivity.
Qed.

Lemma validate_without_overrides_is_valid_witness :
  let env := <["OPENAI_EMBEDDING_MODEL" := "toString"]> (∅ : gmap string string) in
  EmbeddingConfigValidator.errors (EmbeddingConfigValidator.validate env) = [] ∧
  EmbeddingConfigReport.validateAndLog true env =
    Returned (EmbeddingConfigValidator.validate env).
Proof.
  intros env.
  destruct (validate_without_overrides_is_valid env true eq_refl eq_refl)
    as (Herr & _ & _ & _ & Hlog).
  split; [exact Herr | exact Hlog].
Defined.

(** X3. When the resolved embedding dimension is a number [n], the
    resolved index dimension is another number [m], and both are integers
    JavaScript holds exactly and renders in plain digits (at most [2^53] in
    magnitude): [validate] rejects the configuration with the mismatch
    error, [validateAndLog(true)] throws, and [getRecommendations] tells to
    set [NEO4J_VECTOR_DIMENSIONS] to [n]. Following that advice works: with
    that variable set to the rendering of [n], both dimensions are [n], they
    match, and the only errors left are those of an unreadable
    [OPENAI_EMBEDDING_DIMENSIONS]. *)
Theorem mismatch_is_reported_and_fixable (env : gmap string string) (n m : Z) :
  let r := EmbeddingConfigValidator.validate env in
  let c := EmbeddingConfigValidator.config r in
  EmbeddingConfigValidator.dimensions c = Dim n →
  EmbeddingConfigValidator.vectorIndexDimensions c = Dim m →
  n ≠ m →
  (Z.abs n ≤ 2 ^ 53)%Z →
  (Z.abs m ≤ 2 ^ 53)%Z →
  (EmbeddingConfigValidator.isValid r = false ∧
   EmbeddingConfigValidator.mismatchError (Dim n) (Dim m)
     ∈ EmbeddingConfigValidator.errors r ∧
   EmbeddingConfigReport.validateAndLog true env =
     Raised (newError ("Invalid embedding configuration. " +:+
                       "Please fix the errors above before starting the server.")) ∧
   EmbeddingConfigReport.fixLine (Dim n)
     ∈ EmbeddingConfigReport.getRecommendations env) ∧
  let r' :=
    EmbeddingConfigValidator.validate
      (<["NEO4J_VECTOR_DIMENSIONS" := pretty n]> env) in
  let c' := EmbeddingConfigValidator.config r' in
  EmbeddingConfigValidator.dimensions c' = Dim n ∧
  EmbeddingConfigValidator.vectorIndexDimensions c' = Dim n ∧
  EmbeddingConfigValidator.dimensionsMatch c' = true ∧
  EmbeddingConfigValidator.errors r' =
    (EmbeddingConfigValidator.resolveEmbeddingDimensions env
       (EmbeddingConfigValidator.modelOf env)).2.
Proof.
  cbv zeta. intros Hd Hi Hne _ _.
  assert (Hmatch : EmbeddingConfigValidator.dimensionsMatch
                     (EmbeddingConfigValidator.config
                        (EmbeddingConfigValidator.validate env)) = false).
  { rewrite validate_dimensionsMatch, Hd, Hi.
    destruct (dimension_eqb _ _) eqn:Heq; [|reflexivity].
    apply dimension_eqb_eq in Heq. congruence. }
  assert (Hin : EmbeddingConfigValidator.mismatchError (Dim n) (Dim m)
                ∈ EmbeddingConfigValidator.errors
                    (EmbeddingConfigValidator.validate env)).
  { pose proof (validate_errors env) as Herr. cbv zeta in Herr.
    pose proof (validate_vectorIndexDimensions env) as Hv.
    pose proof (validate_dimensionsMatch env) as Hm.
    pose proof Hd as He. rewrite validate_dimensions in He.
    rewrite Hd in Hv, Hm. rewrite He, <- Hv, <- Hm, Hmatch, Hi in Herr.
    rewrite Herr. apply elem_of_pushIf. right. auto. }
  assert (Hinvalid : EmbeddingConfigValidator.isValid
                       (EmbeddingConfigValidator.validate env) = false).
  { destruct (EmbeddingConfigValidator.isValid _) eqn:Hvalid; [|reflexivity].
    apply validate_isValid in Hvalid. rewrite Hvalid in Hin.
    by apply elem_of_nil in Hin. }
  split.
  { split; [exact Hinvalid|]. split; [exact Hin|]. split.
    - unfold EmbeddingConfigReport.validateAndLog. rewrite Hinvalid. reflexivity.
    - unfold EmbeddingConfigReport.getRecommendations.
      rewrite Hinvalid, Hmatch, Hd. cbn [negb].
      apply elem_of_app. left. apply elem_of_cons. right.
      apply elem_of_cons. left. reflexivity. }
  set (env' := <["NEO4J_VECTOR_DIMENSIONS" := pretty n]> env).
  assert (Hd' : EmbeddingConfigValidator.dimensions
                  (EmbeddingConfigValidator.config
                     (EmbeddingConfigValidator.validate env')) = Dim n).
  { rewrite validate_dimensions. unfold env'.
    rewrite modelOf_insert_index, resolveEmbeddingDimensions_insert_index.
    rewrite <- validate_dimensions. exact Hd. }
  assert (Hres : EmbeddingConfigValidator.resolveVectorIndexDimensions env' (Dim n) =
                 (Dim n, "NEO4J_VECTOR_DIMENSIONS env var", [])).
  { unfold EmbeddingConfigValidator.resolveVectorIndexDimensions, env'.
    rewrite lookup_insert_eq. simpl.
    destruct (String.eqb_spec (pretty n) EmptyString) as [Hempty|_];
      [by apply pretty_Z_nonempty in Hempty|].
    simpl. rewrite parseInt10_pretty. reflexivity. }
  assert (Hi' : EmbeddingConfigValidator.vectorIndexDimensions
                  (EmbeddingConfigValidator.config
                     (EmbeddingConfigValidator.validate env')) = Dim n).
  { rewrite validate_vectorIndexDimensions, Hd', Hres. reflexivity. }
  split; [exact Hd'|]. split; [exact Hi'|]. split.
  - rewrite validate_dimensionsMatch, Hd', Hi'. by apply dimension_eqb_eq.
  - pose proof (validate_errors env') as Herr. cbv zeta in Herr.
    rewrite <- validate_dimensions, Hd', Hres in Herr. simpl in Herr.
    rewrite Z.eqb_refl in Herr. simpl in Herr. rewrite app_nil_r in Herr.
    rewrite Herr. unfold env'.
    rewrite modelOf_insert_index, resolveEmbeddingDimensions_insert_index.
    reflexivity.
Qed.

Lemma mismatch_is_reported_and_fixable_witness :
  let env :=
    <["NEO4J_VECTOR_DIMENSIONS" := "1024"]>
      (<["OPENAI_EMBEDDING_MODEL" := "text-embedding-3-large"]>
         (∅ : gmap string string)) in
  EmbeddingConfigReport.fixLine (Dim 3072)
    ∈ EmbeddingConfigReport.getRecommendations env ∧
  EmbeddingConfigValidator.errors
    (EmbeddingConfigValidator.validate
       (<["NEO4J_VECTOR_DIMENSIONS" := "3072"]> env)) = [].
Proof.
  intros env.
  destruct (mismatch_is_reported_and_fixable env 3072 1024 eq_refl eq_refl
              ltac:(discriminate) ltac:(vm_compute; discriminate)
              ltac:(vm_compute; discriminate))
    as ((_ & _ & _ & Hfix) & _ & _ & _ & Herr).
  split; [exact Hfix | exact Herr].
Defined.

(** X4. The default index dimension of the store
    ([getDefaultVectorDimensions], and the constructor of
    [Neo4jVectorStore] when no dimension is passed) against the validator.
    With [OPENAI_EMBEDDING_DIMENSIONS] unset there are two cases. When the
    default is a number, which is when [NEO4J_VECTOR_DIMENSIONS] is unset or
    is read by [parseInt], it is the index dimension the validator
    resolves. When [NEO4J_VECTOR_DIMENSIONS] is set and [parseInt] does not
    read it, the default is [NaN], while the validator falls back to the
    dimension of the model and rejects the configuration with the error
    about that variable. With [OPENAI_EMBEDDING_DIMENSIONS] set to a number
    [n] and no [NEO4J_VECTOR_DIMENSIONS], the validator accepts the
    configuration with index dimension [n], while the store still takes the
    dimension of the model. *)
Theorem store_default_dimension_and_validator (env : gmap string string) :
  let r := EmbeddingConfigValidator.validate env in
  let c := EmbeddingConfigValidator.config r in
  (∀ options,
     JS.truthyNum (VectorSearch.opt_dimensions options) = false →
     VectorSearch.dimensions (VectorSearch.new env options) =
     Neo4jConfig.getDefaultVectorDimensions env) ∧
  (JS.truthyStr (env !! "OPENAI_EMBEDDING_DIMENSIONS") = false →
   match Neo4jConfig.getDefaultVectorDimensions env with
   | Some d =>
       EmbeddingConfigValidator.vectorIndexDimensions c = d ∧
       (JS.truthyStr (env !! "NEO4J_VECTOR_DIMENSIONS") = false ∨
        ∃ raw n, env !! "NEO4J_VECTOR_DIMENSIONS" = Some raw ∧
                 JS.parseInt10 raw = Some n ∧ d = Dim n)
   | None =>
       ∃ raw,
         env !! "NEO4J_VECTOR_DIMENSIONS" = Some raw ∧ raw ≠ EmptyString ∧
         JS.parseInt10 raw = None ∧
         EmbeddingConfigValidator.vectorIndexDimensions c =
           getModelDimensions (EmbeddingConfigValidator.modelOf env) ∧
         EmbeddingConfigValidator.isValid r = false ∧
         EmbeddingConfigValidator.invalidVectorDimensionsError raw
           ∈ EmbeddingConfigValidator.errors r
   end) ∧
  (∀ raw n,
     env !! "OPENAI_EMBEDDING_DIMENSIONS" = Some raw → raw ≠ EmptyString →
     JS.parseInt10 raw = Some n →
     JS.truthyStr (env !! "NEO4J_VECTOR_DIMENSIONS") = false →
     EmbeddingConfigValidator.isValid r = true ∧
     EmbeddingConfigValidator.vectorIndexDimensions c = Dim n ∧
     Neo4jConfig.getDefaultVectorDimensions env =
       Some (getModelDimensions (EmbeddingConfigValidator.modelOf env))).
Proof.
  cbv zeta. split; [|split].
  - intros options Hnone. unfold VectorSearch.new. simpl. rewrite Hnone.
    reflexivity.
  - intros He.
    assert (Hd : EmbeddingConfigValidator.resolveEmbeddingDimensions env
                   (EmbeddingConfigValidator.modelOf env) =
                 (getModelDimensions (EmbeddingConfigValidator.modelOf env),
                  "inferred from model " +:+ EmbeddingConfigValidator.modelOf env,
                  [])).
    { unfold EmbeddingConfigValidator.resolveEmbeddingDimensions. by rewrite He. }
    pose proof (validate_errors env) as Herr. cbv zeta in Herr.
    rewrite Hd in Herr. cbn [fst snd] in Herr.
    unfold Neo4jConfig.getDefaultVectorDimensions.
    rewrite validate_vectorIndexDimensions, validate_dimensions, Hd. cbn [fst snd].
    revert Herr. unfold EmbeddingConfigValidator.resolveVectorIndexDimensions.
    destruct (env !! "NEO4J_VECTOR_DIMENSIONS") as [raw|] eqn:Hraw; simpl;
      [|intros _; split; [reflexivity | by left]].
    destruct (String.eqb_spec raw EmptyString) as [->|Hne]; simpl;
      [intros _; split; [reflexivity | by left]|].
    destruct (JS.parseInt10 raw) as [k|] eqn:Hparse; simpl.
    + intros _. split; [reflexivity|]. right. by exists raw, k.
    + intros Herr. exists raw.
      split; [reflexivity|]. split; [exact Hne|]. split; [exact Hparse|].
      split; [reflexivity|].
      assert (Hin : EmbeddingConfigValidator.invalidVectorDimensionsError raw
                    ∈ EmbeddingConfigValidator.errors
                        (EmbeddingConfigValidator.validate env)).
      { rewrite Herr. apply elem_of_pushIf. left.
        apply list_elem_of_singleton. reflexivity. }
      split; [|exact Hin].
      destruct (EmbeddingConfigValidator.isValid _) eqn:Hvalid; [|reflexivity].
      apply validate_isValid in Hvalid. rewrite Hvalid in Hin.
      by apply elem_of_nil in Hin.
  - intros raw n Hraw Hne Hparse Hv.
    assert (He : EmbeddingConfigValidator.resolveEmbeddingDimensions env
                   (EmbeddingConfigValidator.modelOf env) =
                 (Dim n, "OPENAI_EMBEDDING_DIMENSIONS env var", [])).
    { unfold EmbeddingConfigValidator.resolveEmbeddingDimensions.
      rewrite Hraw. simpl.
      destruct (String.eqb_spec raw EmptyString) as [->|_]; [congruence|].
      simpl. rewrite Hparse. reflexivity. }
    assert (Hi : EmbeddingConfigValidator.vectorIndexDimensions
                   (EmbeddingConfigValidator.config
                      (EmbeddingConfigValidator.validate env)) = Dim n).
    { rewrite validate_vectorIndexDimensions, validate_dimensions, He.
      unfold EmbeddingConfigValidator.resolveVectorIndexDimensions.
      rewrite Hv. reflexivity. }
    split; [|split; [exact Hi|]].
    + apply validate_isValid. rewrite validate_errors. cbv zeta. rewrite He.
      unfold EmbeddingConfigValidator.resolveVectorIndexDimensions.
      rewrite Hv. simpl. rewrite Z.eqb_refl. reflexivity.
    + unfold Neo4jConfig.getDefaultVectorDimensions. rewrite Hv. reflexivity.
Qed.

Lemma store_default_dimension_and_validator_witness :
  let env := <["OPENAI_EMBEDDING_DIMENSIONS" := "256"]> (∅ : gmap string string) in
  let unreadable := <["NEO4J_VECTOR_DIMENSIONS" := "abc"]> (∅ : gmap string string) in
  (EmbeddingConfigValidator.vectorIndexDimensions
     (EmbeddingConfigValidator.config (EmbeddingConfigValidator.validate env)) =
     Dim 256 ∧
   Neo4jConfig.getDefaultVectorDimensions env = Some (Dim 1536) ∧
   VectorSearch.dimensions
     (VectorSearch.new env
        {| VectorSearch.opt_indexName := None;
           VectorSearch.opt_dimensions := None;
           VectorSearch.opt_similarityFunction := None;
           VectorSearch.opt_entityNodeLabel := None |}) = Some (Dim 1536)) ∧
  (Neo4jConfig.getDefaultVectorDimensions unreadable = None ∧
   EmbeddingConfigValidator.vectorIndexDimensions
     (EmbeddingConfigValidator.config (EmbeddingConfigValidator.validate unreadable)) =
     Dim 1536 ∧
   EmbeddingConfigValidator.isValid (EmbeddingConfigValidator.validate unreadable) =
     false).
Proof.
  intros env unreadable. split.
  - destruct (store_default_dimension_and_validator env) as (Hnew & _ & Hset).
    destruct (Hset "256" 256 eq_refl ltac:(discriminate) eq_refl eq_refl)
      as (_ & Hi & Hdefault).
    split; [exact Hi|]. split; [exact Hdefault|].
    rewrite Hnew by reflexivity. exact Hdefault.
  - destruct (store_default_dimension_and_validator unreadable) as (_ & Hunset & _).
    specialize (Hunset eq_refl).
    change (Neo4jConfig.getDefaultVectorDimensions unreadable) with (@None dimension)
      in Hunset.
    destruct Hunset as (raw & _ & _ & _ & Hi & Hinvalid & _).
    split; [reflexivity|]. split; [exact Hi | exact Hinvalid].
Defined.

(** ** Options, samples and deletion of the reindex manager *)

Section Options.

Import Reindex.
Local Open Scope Z_scope.

(** What [validateOptions] accepts: none of its five tests fires. *)
Lemma validateOptions_valid_inv (options : ReindexOptions) :
  ReindexAdmin.isValid (ReindexAdmin.validateOptions options) = true →
  (JS.truthyNum (batchSize options) &&
   ((default 0 (batchSize options) <? 1) || (default 0 (batchSize options) >? 1000)) =
     false) ∧
  (JS.truthyNum (limit options) && (default 0 (limit options) <? 0) = false) ∧
  (JS.truthyNum (batchDelay options) && (default 0 (batchDelay options) <? 0) = false) ∧
  (JS.truthyStr (customQuery options) &&
   negb (JS.includes (default EmptyString (customQuery options)) "RETURN") = false) ∧
  entityTypes options ≠ Some [].
Proof.
  unfold ReindexAdmin.validateOptions. simpl.
  destruct (JS.truthyNum (batchSize options) && _);
    destruct (JS.truthyNum (limit options) && _);
    destruct (JS.truthyNum (batchDelay options) && _);
    destruct (JS.truthyStr (customQuery options) && _);
    destruct (entityTypes options) as [[|t ts]|]; simpl; try discriminate;
    intros _; repeat split; discriminate.
Qed.

Lemma elem_of_pushIf_admin (c : bool) (x y : string) (xs : list string) :
  y ∈ ReindexAdmin.pushIf c x xs ↔ y ∈ xs ∨ (c = true ∧ y = x).
Proof.
  destruct c; simpl.
  - rewrite elem_of_app, list_elem_of_singleton. intuition.
  - intuition congruence.
Qed.

Lemma validateOptions_batchSize (options : ReindexOptions) :
  ReindexAdmin.isValid (ReindexAdmin.validateOptions options) = true →
  1 ≤ JS.orNum (batchSize options) 10 ≤ 1000.
Proof.
  intros (Hb & _)%validateOptions_valid_inv. revert Hb.
  destruct (batchSize options) as [b|]; simpl; [|lia].
  destruct (Z.eqb_spec b 0); simpl; [lia|].
  destruct (Z.ltb_spec b 1), (Z.gtb_spec b 1000); simpl; (discriminate || lia).
Qed.

Lemma validateOptions_batchDelay (options : ReindexOptions) :
  ReindexAdmin.isValid (ReindexAdmin.validateOptions options) = true →
  0 < JS.orNum (batchDelay options) 1000.
Proof.
  intros (_ & _ & Hd & _)%validateOptions_valid_inv. revert Hd.
  destruct (batchDelay options) as [d|]; simpl; [|lia].
  destruct (Z.eqb_spec d 0); simpl; [lia|].
  destruct (Z.ltb_spec d 0); simpl; (discriminate || lia).
Qed.

End Options.

(** X5. Options that [validateOptions] accepts make a run end. For a run
    that is not a dry run, on any selected entities: the batch size in
    effect is between 1 and 1000 and the delay in effect is positive (an
    absent or zero value counts as the default); the run returns, having
    processed every entity, and it sleeps the delay once per batch but the
    last. *)
Theorem validated_options_run_ends
    (W : Type) (rt : Reindex.Runtime W)
    (svc : EmbeddingService.IEmbeddingService W)
    (options : Reindex.ReindexOptions) (fuel : nat)
    (s0 s1 : Reindex.state W) (entities : list Reindex.EntityBatch) :
  ReindexAdmin.isValid (ReindexAdmin.validateOptions options) = true →
  JS.truthyBool (Reindex.dryRun options) = false →
  Reindex.getEntitiesToReindex rt options s0 = (Returned entities, s1) →
  (length entities ≤ fuel)%nat →
  let b := JS.orNum (Reindex.batchSize options) 10 in
  let d := JS.orNum (Reindex.batchDelay options) 1000 in
  (1 ≤ b ≤ 1000)%Z ∧ (0 < d)%Z ∧
  ∃ r s2 tail,
    Reindex.reindexEmbeddings fuel rt svc options s0 = Some (Returned r, s2) ∧
    Reindex.trace s2 = (Reindex.trace s1 ++ tail)%list ∧
    Reindex.total r = Z.of_nat (length entities) ∧
    Reindex.processed r = Z.of_nat (length entities) ∧
    Reindex.sleeps tail =
      repeat d (Z.to_nat (Reindex.ceilDiv (Z.of_nat (length entities)) b - 1)).
Proof.
  intros Hvalid Hdry Hsel Hfuel. cbv zeta.
  pose proof (validateOptions_batchSize options Hvalid) as Hb.
  pose proof (validateOptions_batchDelay options Hvalid) as Hd.
  split; [exact Hb|]. split; [exact Hd|].
  destruct (reindexEmbeddings_run rt svc options fuel s0 s1 entities
              Hdry (proj1 Hb) Hsel Hfuel)
    as (r & s2 & attempts & tail & Hrun & Hlen & Hr & Htr & _ & Hsl & _).
  exists r, s2, tail. split; [exact Hrun|]. split; [exact Htr|].
  destruct (tally_counts (Reindex.verdictsAt rt svc entities attempts)
              Reindex.zeroCounters) as (Hp & _).
  assert (Hvs : length (Reindex.verdictsAt rt svc entities attempts) = length entities).
  { unfold Reindex.verdictsAt. rewrite length_zip_with. lia. }
  rewrite Hvs in Hp. simpl in Hp.
  rewrite <- Hr. simpl. rewrite Hp.
  split; [reflexivity|]. split; [reflexivity|].
  rewrite Hsl. unfold Reindex.expectedSleeps.
  destruct (Z.gtb_spec (JS.orNum (Reindex.batchDelay options) 1000) 0); [|lia].
  rewrite Z.sub_0_r. reflexivity.
Qed.

Lemma validated_options_run_ends_witness :
  ∃ r s2,
    Reindex.reindexEmbeddings 10 (Fixtures.runtime Fixtures.ten)
      (Fixtures.provider (fun _ => None))
      (Fixtures.options (Some 4%Z) None None) Fixtures.start =
      Some (Returned r, s2) ∧
    Reindex.processed r = 10%Z ∧
    Reindex.sleeps (Reindex.trace s2) = [1000%Z; 1000%Z].
Proof.
  destruct (validated_options_run_ends unit (Fixtures.runtime Fixtures.ten)
              (Fixtures.provider (fun _ => None))
              (Fixtures.options (Some 4%Z) None None) 10 Fixtures.start
              {| Reindex.world := tt;
                 Reindex.trace :=
                   [Reindex.Select
                      (Reindex.selectionQuery (Fixtures.options (Some 4%Z) None None)).1
                      (Reindex.selectionQuery (Fixtures.options (Some 4%Z) None None)).2] |}
              Fixtures.ten eq_refl eq_refl eq_refl ltac:(simpl; lia))
    as (_ & _ & r & s2 & tail & Hrun & Htr & _ & Hproc & Hsl).
  exists r, s2. split; [exact Hrun|]. split; [exact Hproc|].
  rewrite Htr, sleeps_app, Hsl. reflexivity.
Defined.

(** X6. A negative batch size on a run that is not a dry run and selects
    at least one entity: [reindexEmbeddings] never returns, whatever the
    number of iterations allowed, because the loop index only moves
    backwards; [validateOptions] rejects such options, but it is the
    caller that has to ask. *)
Theorem negative_batch_size_never_returns
    (W : Type) (rt : Reindex.Runtime W)
    (svc : EmbeddingService.IEmbeddingService W)
    (options : Reindex.ReindexOptions) (b : Z)
    (s0 s1 : Reindex.state W) (entities : list Reindex.EntityBatch) :
  Reindex.batchSize options = Some b → (b < 0)%Z →
  JS.truthyBool (Reindex.dryRun options) = false →
  Reindex.getEntitiesToReindex rt options s0 = (Returned entities, s1) →
  entities ≠ [] →
  (∀ fuel, Reindex.reindexEmbeddings fuel rt svc options s0 = None) ∧
  ReindexAdmin.isValid (ReindexAdmin.validateOptions options) = false ∧
  "Batch size must be between 1 and 1000"
    ∈ ReindexAdmin.errors (ReindexAdmin.validateOptions options).
Proof.
  intros Hb Hneg Hdry Hsel Hne.
  assert (Hsize : JS.orNum (Reindex.batchSize options) 10 = b).
  { rewrite Hb. simpl. destruct (Z.eqb_spec b 0); [lia|reflexivity]. }
  split; [|split].
  - intros fuel. unfold Reindex.reindexEmbeddings. rewrite Hsel, Hdry, Hsize.
    destruct (Z.eqb_spec (Z.of_nat (length entities)) 0) as [Hzero|_].
    { destruct entities; [congruence | simpl in Hzero; lia]. }
    rewrite batchLoop_negative_batch_diverges; [reflexivity | exact Hneg |].
    destruct entities; [congruence | simpl; lia].
  - destruct (ReindexAdmin.isValid _) eqn:Hvalid; [|reflexivity].
    apply validateOptions_batchSize in Hvalid. lia.
  - unfold ReindexAdmin.validateOptions. cbn [ReindexAdmin.errors].
    rewrite !elem_of_pushIf_admin. do 4 left. right.
    split; [|reflexivity]. rewrite Hb. simpl.
    destruct (Z.eqb_spec b 0); [lia|].
    destruct (Z.ltb_spec b 1); [reflexivity|lia].
Qed.

Lemma negative_batch_size_never_returns_witness :
  (∀ fuel,
     Reindex.reindexEmbeddings fuel (Fixtures.runtime [Fixtures.entity "e1"])
       (Fixtures.provider (fun _ => None))
       (Fixtures.options (Some (-1)%Z) None None) Fixtures.start = None) ∧
  ReindexAdmin.isValid
    (ReindexAdmin.validateOptions (Fixtures.options (Some (-1)%Z) None None)) = false.
Proof.
  destruct (negative_batch_size_never_returns unit
              (Fixtures.runtime [Fixtures.entity "e1"])
              (Fixtures.provider (fun _ => None))
              (Fixtures.options (Some (-1)%Z) None None) (-1) Fixtures.start
              {| Reindex.world := tt;
                 Reindex.trace :=
                   [Reindex.Select
                      (Reindex.selectionQuery
                         (Fixtures.options (Some (-1)%Z) None None)).1
                      (Reindex.selectionQuery
                         (Fixtures.options (Some (-1)%Z) None None)).2] |}
              [Fixtures.entity "e1"] eq_refl ltac:(lia) eq_refl eq_refl
              ltac:(discriminate))
    as (Hrun & Hinvalid & _).
  split; [exact Hrun | exact Hinvalid].
Defined.

(** X7. What [deleteEmbeddingsBatch] looks at. Two option records that
    agree on [entityTypes], [namePattern], [customQuery] and
    [customQueryParams] delete the same, so [dryRun], [onlyMissing],
    [force] and [limit] have no effect on a deletion. Its filter is the
    one of the selection without the test for a missing embedding: the
    conditions of [getEntitiesToReindex] are those of the deletion, followed
    by [e.embedding IS NULL] unless the selection is forced. *)
Theorem deletion_reads_filter_only
    (W : Type) (rt : ReindexAdmin.DeleteRuntime W)
    (options options' : Reindex.ReindexOptions) :
  (Reindex.entityTypes options = Reindex.entityTypes options' →
   Reindex.namePattern options = Reindex.namePattern options' →
   Reindex.customQuery options = Reindex.customQuery options' →
   Reindex.customQueryParams options = Reindex.customQueryParams options' →
   ReindexAdmin.deleteEmbeddingsBatch rt options =
   ReindexAdmin.deleteEmbeddingsBatch rt options') ∧
  Reindex.conditions options =
    (if JS.truthyBool (Reindex.onlyMissing options) ||
        negb (JS.truthyBool (Reindex.force options))
     then (ReindexAdmin.deleteConditions options ++ ["e.embedding IS NULL"])%list
     else ReindexAdmin.deleteConditions options).
Proof.
  split.
  - intros Ht Hn Hq Hp.
    unfold ReindexAdmin.deleteEmbeddingsBatch, ReindexAdmin.removeByFilterQuery,
      ReindexAdmin.deleteConditions.
    rewrite Ht, Hn, Hq, Hp. reflexivity.
  - unfold Reindex.conditions, ReindexAdmin.deleteConditions.
    destruct (JS.truthyBool (Reindex.onlyMissing options));
      destruct (JS.truthyBool (Reindex.force options)); reflexivity.
Qed.

Lemma deletion_reads_filter_only_witness :
  let rt : ReindexAdmin.DeleteRuntime (list string) :=
    {| ReindexAdmin.runNames := fun _ _ w => (Returned [], w ++ ["names"])%list;
       ReindexAdmin.runRemove := fun _ _ w => (Returned 3%Z, w ++ ["remove"])%list |} in
  ReindexAdmin.deleteEmbeddingsBatch rt (Fixtures.options None None (Some true)) [] =
    (Returned 3%Z, ["remove"]).
Proof.
  intros rt.
  rewrite (proj1 (deletion_reads_filter_only (list string) rt
                    (Fixtures.options None None (Some true))
                    (Fixtures.options None None None))
             eq_refl eq_refl eq_refl eq_refl).
  reflexivity.
Defined.

(** X8. [getSampleEntities] is the selection with its limit replaced. With
    a custom query the limit is not used at all, so the sample is the whole
    selection; without one, a sample size of 0 adds no [LIMIT] clause, so
    the sample of an unlimited selection is again the whole selection; and
    an absent sample size is 10. *)
Theorem sample_limit_cases
    (W : Type) (rt : Reindex.Runtime W) (options : Reindex.ReindexOptions) :
  (∀ limit,
     JS.truthyStr (Reindex.customQuery options) = true →
     ReindexAdmin.getSampleEntities rt options limit =
     Reindex.getEntitiesToReindex rt options) ∧
  (JS.truthyNum (Reindex.limit options) = false →
   ReindexAdmin.getSampleEntities rt options (Some 0%Z) =
   Reindex.getEntitiesToReindex rt options) ∧
  ReindexAdmin.getSampleEntities rt options None =
    ReindexAdmin.getSampleEntities rt options (Some 10%Z).
Proof.
  assert (Hsel : ∀ o o' : Reindex.ReindexOptions,
            Reindex.selectionQuery o = Reindex.selectionQuery o' →
            Reindex.getEntitiesToReindex rt o = Reindex.getEntitiesToReindex rt o').
  { intros o o' Heq. unfold Reindex.getEntitiesToReindex. rewrite Heq. reflexivity. }
  split; [|split].
  - intros limit Hcustom. apply Hsel.
    unfold Reindex.selectionQuery. simpl. rewrite Hcustom. reflexivity.
  - intros Hlimit. apply Hsel.
    unfold Reindex.selectionQuery, Reindex.whereClause, Reindex.conditions,
      Reindex.filterParams. simpl. rewrite Hlimit. reflexivity.
  - reflexivity.
Qed.

Lemma sample_limit_cases_witness :
  ReindexAdmin.getSampleEntities (Fixtures.runtime Fixtures.ten)
    (Fixtures.options None None None) (Some 0%Z) Fixtures.start =
  Reindex.getEntitiesToReindex (Fixtures.runtime Fixtures.ten)
    (Fixtures.options None None None) Fixtures.start.
Proof.
  rewrite (proj1 (proj2 (sample_limit_cases unit (Fixtures.runtime Fixtures.ten)
                           (Fixtures.options None None None))) eq_refl).
  reflexivity.
Defined.

(** ** Invariants of a reindex run *)

Section ReindexInvariants.

Import Reindex.
Local Open Scope Z_scope.

Context {W : Type} (rt : Runtime W) (svc : EmbeddingService.IEmbeddingService W).
Context (options : ReindexOptions).

Lemma progresses_app (t1 t2 : list event) :
  ReindexReports.progresses (t1 ++ t2) =
  (ReindexReports.progresses t1 ++ ReindexReports.progresses t2)%list.
Proof. apply omap_app. Qed.

Lemma slice_subseteq {A} (xs : list A) (i j : Z) : JS.slice xs i j ⊆ xs.
Proof.
  unfold JS.slice. etrans; [apply subseteq_take | apply subseteq_drop].
Qed.

(** A property of the counters and the state that every entity of the
    selection and every wait preserve holds at the end of the loop. *)
Lemma batchLoop_invariant (I : Counters * state W → Prop)
    (entities : list EntityBatch) (bSize bDelay startTime tot : Z) :
  (∀ cur cs e, e ∈ entities → I cs →
     I (processEntity rt svc options (Z.of_nat (length entities)) startTime cur tot
          cs e)) →
  (∀ c s ms, I (c, s) → I (c, wait rt ms s)) →
  ∀ (fuel : nat) (i : Z) (cs cs' : Counters * state W),
  I cs →
  batchLoop fuel rt svc options entities bSize bDelay startTime tot i cs = Some cs' →
  I cs'.
Proof.
  intros Hentity Hwait.
  assert (Hbatch : ∀ cur batch cs, batch ⊆ entities → I cs →
            I (processBatch rt svc options (Z.of_nat (length entities)) startTime
                 cur tot batch cs)).
  { intros cur batch. induction batch as [|e batch IH]; intros cs Hsub Hcs.
    - exact Hcs.
    - change (processBatch rt svc options (Z.of_nat (length entities)) startTime
                cur tot (e :: batch) cs)
        with (processBatch rt svc options (Z.of_nat (length entities)) startTime
                cur tot batch
                (processEntity rt svc options (Z.of_nat (length entities)) startTime
                   cur tot cs e)).
      apply IH.
      + intros x Hx. apply Hsub. by apply elem_of_cons; right.
      + apply Hentity; [|exact Hcs]. apply Hsub. by apply elem_of_cons; left. }
  induction fuel as [|fuel IH]; intros i cs cs' Hcs; simpl;
    destruct (i <? Z.of_nat (length entities)); try discriminate;
    try (intros [= <-]; exact Hcs).
  pose proof (Hbatch (i / bSize + 1) (JS.slice entities i (i + bSize)) cs
                (slice_subseteq _ _ _) Hcs) as Hafter.
  destruct (processBatch _ _ _ _ _ _ _ _ _) as [c s].
  apply IH. destruct (_ && _); [by apply Hwait | exact Hafter].
Qed.

(** The same for a whole run that returns. *)
Lemma reindexEmbeddings_invariant (I : Counters * state W → Prop)
    (fuel : nat) (s0 s1 s2 : state W) (entities : list EntityBatch)
    (r : ReindexResult) :
  (∀ startTime tot cur cs e, e ∈ entities → I cs →
     I (processEntity rt svc options (Z.of_nat (length entities)) startTime cur tot
          cs e)) →
  (∀ c s ms, I (c, s) → I (c, wait rt ms s)) →
  getEntitiesToReindex rt options s0 = (Returned entities, s1) →
  JS.truthyBool (dryRun options) = false →
  I (zeroCounters, s1) →
  reindexEmbeddings fuel rt svc options s0 = Some (Returned r, s2) →
  ∃ c, I (c, s2) ∧
       processed r = c_processed c ∧ succeeded r = c_succeeded c ∧
       failed r = c_failed c ∧ skipped r = c_skipped c.
Proof.
  intros Hentity Hwait Hsel Hdry Hstart. unfold reindexEmbeddings.
  rewrite Hsel, Hdry.
  destruct (Z.of_nat (length entities) =? 0).
  - intros [= <- <-]. exists zeroCounters. auto.
  - destruct (batchLoop _ _ _ _ _ _ _ _ _ _ _) as [[c s]|] eqn:Hloop;
      [|discriminate].
    intros [= <- <-]. exists c. split; [|auto].
    eapply batchLoop_invariant; [apply Hentity | exact Hwait | exact Hstart | exact Hloop].
Qed.

Lemma reindexEntity_no_report (entity : EntityBatch) (s : state W) :
  ∃ tail,
    trace (reindexEntity rt svc entity s).2 = (trace s ++ tail)%list ∧
    ReindexReports.progresses tail = [].
Proof.
  pose proof (reindexEntity_cases rt svc entity s) as Hcases. cbv zeta in Hcases.
  destruct (EmbeddingService.generateEmbedding svc _ (world s)) as [[emb|e] w];
    rewrite Hcases; eexists; (split; [reflexivity|]); reflexivity.
Qed.

Lemma account_adds_up (entity : EntityBatch) (r : outcome unit) (c : Counters) :
  c_processed (account entity r c) = c_processed c + 1 ∧
  c_succeeded (account entity r c) + c_failed (account entity r c) =
    c_succeeded c + c_failed c + 1 ∧
  c_skipped (account entity r c) = c_skipped c.
Proof. destruct r; simpl; repeat split; lia. Qed.

Lemma seqZ_snoc (m n : Z) : 0 ≤ n → seqZ m (n + 1) = (seqZ m n ++ [m + n])%list.
Proof.
  intros Hn. rewrite seqZ_app by lia. reflexivity.
Qed.

End ReindexInvariants.

(** X9. What a run writes. For a run that is not a dry run, with a batch
    size of at least one: the run returns, and every write it issued carries
    the model name and the dimension the provider reports in [getModelInfo]
    and the name of a selected entity; every entity counted as succeeded was
    written, and no entity was written without being processed. *)
Theorem stores_carry_model_info
    (W : Type) (rt : Reindex.Runtime W)
    (svc : EmbeddingService.IEmbeddingService W)
    (options : Reindex.ReindexOptions) (fuel : nat)
    (s0 s1 : Reindex.state W) (entities : list Reindex.EntityBatch) :
  JS.truthyBool (Reindex.dryRun options) = false →
  (1 ≤ JS.orNum (Reindex.batchSize options) 10)%Z →
  Reindex.getEntitiesToReindex rt options s0 = (Returned entities, s1) →
  (length entities ≤ fuel)%nat →
  ∃ r s2 tail,
    Reindex.reindexEmbeddings fuel rt svc options s0 = Some (Returned r, s2) ∧
    Reindex.trace s2 = (Reindex.trace s1 ++ tail)%list ∧
    Forall
      (λ p,
         Reindex.sp_model p =
           EmbeddingService.name (EmbeddingService.getModelInfo svc) ∧
         Reindex.sp_dimensions p =
           EmbeddingService.dimensions (EmbeddingService.getModelInfo svc) ∧
         Reindex.sp_name p ∈ map Reindex.name entities)
      (Reindex.stores tail) ∧
    (Reindex.succeeded r ≤ Z.of_nat (length (Reindex.stores tail)))%Z ∧
    (Z.of_nat (length (Reindex.stores tail)) ≤ Reindex.processed r)%Z.
Proof.
  intros Hdry Hb Hsel Hfuel.
  destruct (reindexEmbeddings_run rt svc options fuel s0 s1 entities
              Hdry Hb Hsel Hfuel)
    as (r & s2 & _ & _ & Hrun & _).
  set (P := λ p : Reindex.StoreParams,
         Reindex.sp_model p =
           EmbeddingService.name (EmbeddingService.getModelInfo svc) ∧
         Reindex.sp_dimensions p =
           EmbeddingService.dimensions (EmbeddingService.getModelInfo svc) ∧
         Reindex.sp_name p ∈ map Reindex.name entities).
  set (I := λ cs : Reindex.Counters * Reindex.state W,
         ∃ tail,
           Reindex.trace cs.2 = (Reindex.trace s1 ++ tail)%list ∧
           Forall P (Reindex.stores tail) ∧
           (Reindex.c_succeeded cs.1 ≤ Z.of_nat (length (Reindex.stores tail)))%Z ∧
           (Z.of_nat (length (Reindex.stores tail)) ≤ Reindex.c_processed cs.1)%Z).
  destruct (reindexEmbeddings_invariant rt svc options I fuel s0 s1 s2 entities r)
    as (c & (tail & Htr & Hall & Hlo & Hhi) & Hp & Hs & _); try assumption.
  - intros startTime tot cur [c s] e He (tail & Htr & Hall & Hlo & Hhi).
    simpl in Htr, Hlo, Hhi. unfold Reindex.processEntity.
    pose proof (reindexEntity_cases rt svc e s) as Hcases. cbv zeta in Hcases.
    destruct (EmbeddingService.generateEmbedding svc _ (Reindex.world s))
      as [[emb|err] w]; rewrite Hcases; clear Hcases.
    + set (params := {| Reindex.sp_name := Reindex.name e |}).
      assert (HP : P params).
      { split; [reflexivity|]. split; [reflexivity|].
        apply (list_elem_of_fmap_2 Reindex.name entities e), He. }
      destruct (Reindex.runStore rt params w) as [[u|err] w'];
        destruct (Reindex.onProgress options); cbn [fst snd];
        [ eexists (tail ++ [Reindex.Generate (Reindex.generateEmbeddingText e);
                           Reindex.Store params] ++ [_])%list
        | eexists (tail ++ [Reindex.Generate (Reindex.generateEmbeddingText e);
                           Reindex.Store params])%list
        | eexists (tail ++ [Reindex.Generate (Reindex.generateEmbeddingText e);
                           Reindex.Store params] ++ [_])%list
        | eexists (tail ++ [Reindex.Generate (Reindex.generateEmbeddingText e);
                           Reindex.Store params])%list ];
        cbn [Reindex.trace Reindex.world]; rewrite Htr, <- ?app_assoc;
        (split; [reflexivity|]); rewrite ?stores_app;
        cbn [Reindex.stores omap app]; rewrite ?app_nil_r;
        (split; [apply Forall_app; split; [exact Hall | by constructor]|]);
        rewrite length_app; unfold Reindex.stores in *; simpl; lia.
    + destruct (Reindex.onProgress options); cbn [fst snd];
        [ eexists (tail ++ [Reindex.Generate (Reindex.generateEmbeddingText e)]
                    ++ [_])%list
        | eexists (tail ++ [Reindex.Generate (Reindex.generateEmbeddingText e)])%list ];
        cbn [Reindex.trace Reindex.world]; rewrite Htr, <- ?app_assoc;
        (split; [reflexivity|]); rewrite ?stores_app;
        cbn [Reindex.stores omap app]; rewrite ?app_nil_r;
        (split; [exact Hall|]); simpl; lia.
  - intros c s ms (tail & Htr & Hall & Hlo & Hhi).
    exists (tail ++ [Reindex.Sleep ms])%list. simpl in *.
    rewrite Htr, stores_app, <- app_assoc. simpl. rewrite app_nil_r. auto.
  - exists []. simpl. rewrite app_nil_r. repeat split; try constructor; lia.
  - exists r, s2, tail. simpl in Htr, Hlo, Hhi. rewrite Hp, Hs. auto.
Qed.

Lemma stores_carry_model_info_witness :
  ∃ r s2,
    Reindex.reindexEmbeddings 10 (Fixtures.runtime Fixtures.ten)
      (Fixtures.provider (Fixtures.failingOn "e4" (newError "boom")))
      (Fixtures.options None None None) Fixtures.start = Some (Returned r, s2) ∧
    Forall (λ p, Reindex.sp_model p = "mock" ∧ Reindex.sp_dimensions p = Dim 2)
      (Reindex.stores (Reindex.trace s2)).
Proof.
  destruct (stores_carry_model_info unit (Fixtures.runtime Fixtures.ten)
              (Fixtures.provider (Fixtures.failingOn "e4" (newError "boom")))
              (Fixtures.options None None None) 10 Fixtures.start
              {| Reindex.world := tt;
                 Reindex.trace :=
                   [Reindex.Select
                      (Reindex.selectionQuery (Fixtures.options None None None)).1
                      (Reindex.selectionQuery (Fixtures.options None None None)).2] |}
              Fixtures.ten eq_refl ltac:(vm_compute; discriminate) eq_refl
              ltac:(simpl; lia))
    as (r & s2 & tail & Hrun & Htr & Hall & _).
  exists r, s2. split; [exact Hrun|].
  rewrite Htr, stores_app. cbn [Reindex.trace Reindex.stores omap app].
  eapply Forall_impl; [exact Hall|]. intros p (Hm & Hd & _). auto.
Defined.

(** X10. The progress reports of a run. For a run that is not a dry run,
    with a batch size of at least one: the run returns; when a progress
    callback is installed it is called once per selected entity, with
    [processed] going 1, 2, ..., n, and never otherwise; every report is
    about all [n] selected entities, with [succeeded + failed = processed]
    and nothing skipped; and the result adds up in the same way. *)
Theorem progress_reports_add_up
    (W : Type) (rt : Reindex.Runtime W)
    (svc : EmbeddingService.IEmbeddingService W)
    (options : Reindex.ReindexOptions) (fuel : nat)
    (s0 s1 : Reindex.state W) (entities : list Reindex.EntityBatch) :
  JS.truthyBool (Reindex.dryRun options) = false →
  (1 ≤ JS.orNum (Reindex.batchSize options) 10)%Z →
  Reindex.getEntitiesToReindex rt options s0 = (Returned entities, s1) →
  (length entities ≤ fuel)%nat →
  let n := Z.of_nat (length entities) in
  ∃ r s2 tail,
    Reindex.reindexEmbeddings fuel rt svc options s0 = Some (Returned r, s2) ∧
    Reindex.trace s2 = (Reindex.trace s1 ++ tail)%list ∧
    map Reindex.p_processed (ReindexReports.progresses tail) =
      seqZ 1 (if Reindex.onProgress options then n else 0) ∧
    Forall (ReindexReports.addsUp n) (ReindexReports.progresses tail) ∧
    (Reindex.succeeded r + Reindex.failed r)%Z = Reindex.processed r ∧
    Reindex.processed r = n ∧
    Reindex.skipped r = 0%Z.
Proof.
  intros Hdry Hb Hsel Hfuel n.
  destruct (reindexEmbeddings_run rt svc options fuel s0 s1 entities
              Hdry Hb Hsel Hfuel)
    as (r & s2 & attempts & _ & Hrun & Hlen & Hr & _).
  assert (Hprocessed : Reindex.processed r = n).
  { destruct (tally_counts (Reindex.verdictsAt rt svc entities attempts)
                Reindex.zeroCounters) as (Hp & _).
    assert (Hvs : length (Reindex.verdictsAt rt svc entities attempts) =
                  length entities).
    { unfold Reindex.verdictsAt. rewrite length_zip_with. lia. }
    rewrite Hvs in Hp. rewrite <- Hr. simpl. rewrite Hp. reflexivity. }
  set (I := λ cs : Reindex.Counters * Reindex.state W,
         ∃ tail,
           Reindex.trace cs.2 = (Reindex.trace s1 ++ tail)%list ∧
           (0 ≤ Reindex.c_processed cs.1)%Z ∧
           (Reindex.c_succeeded cs.1 + Reindex.c_failed cs.1)%Z =
             Reindex.c_processed cs.1 ∧
           Reindex.c_skipped cs.1 = 0%Z ∧
           Forall (ReindexReports.addsUp n) (ReindexReports.progresses tail) ∧
           map Reindex.p_processed (ReindexReports.progresses tail) =
             seqZ 1 (if Reindex.onProgress options
                     then Reindex.c_processed cs.1 else 0)).
  destruct (reindexEmbeddings_invariant rt svc options I fuel s0 s1 s2 entities r)
    as (c & (tail & Htr & Hpos & Hsum & Hskip & Hall & Hseq) & Hp & Hs & Hf & Hk);
    try assumption.
  - intros startTime tot cur [c s] e He (tail & Htr & Hpos & Hsum & Hskip & Hall & Hseq).
    simpl in Htr, Hpos, Hsum, Hskip, Hseq. unfold Reindex.processEntity.
    destruct (reindexEntity_no_report rt svc e s) as (t1 & Ht1 & Hnone).
    destruct (Reindex.reindexEntity rt svc e s) as [res s'].
    simpl in Ht1.
    destruct (account_adds_up e res c) as (Hp' & Hs' & Hk').
    destruct (Reindex.onProgress options).
    + exists (tail ++ t1 ++
              [Reindex.Progress
                 (Reindex.progressOf rt n startTime cur tot
                    (Reindex.account e res c) (Reindex.world s'))])%list.
      cbn [fst snd Reindex.trace]. rewrite Ht1, Htr, <- !app_assoc.
      split; [reflexivity|].
      rewrite !progresses_app, Hnone.
      cbn [ReindexReports.progresses omap app]. rewrite Hp', Hs', Hk'.
      split; [lia|]. split; [lia|]. split; [exact Hskip|]. split.
      * apply Forall_app. split; [exact Hall|]. constructor; [|constructor].
        split; [reflexivity|]. simpl. split; [lia|congruence].
      * rewrite map_app, Hseq. simpl. rewrite Hp'.
        rewrite seqZ_snoc by lia. do 2 f_equal. lia.
    + exists (tail ++ t1)%list. cbn [fst snd]. rewrite Ht1, Htr, <- app_assoc.
      split; [reflexivity|]. rewrite progresses_app, Hnone, app_nil_r, Hp', Hs', Hk'.
      split; [lia|]. split; [lia|]. auto.
  - intros c s ms (tail & Htr & Hrest).
    exists (tail ++ [Reindex.Sleep ms])%list. simpl in *.
    rewrite Htr, progresses_app, <- app_assoc. simpl. rewrite app_nil_r. auto.
  - exists []. simpl. rewrite app_nil_r.
    split; [reflexivity|]. split; [lia|]. split; [reflexivity|].
    split; [reflexivity|]. split; [constructor|].
    destruct (Reindex.onProgress options); reflexivity.
  - exists r, s2, tail. simpl in Htr, Hpos, Hsum, Hskip, Hseq.
    split; [exact Hrun|]. split; [exact Htr|].
    rewrite Hp in Hprocessed. rewrite Hprocessed in Hseq.
    split; [exact Hseq|]. split; [exact Hall|].
    rewrite Hs, Hf, Hp, Hk. auto.
Qed.

Lemma progress_reports_add_up_witness :
  let options :=
    {| Reindex.batchSize := Some 2%Z; Reindex.entityTypes := None;
       Reindex.namePattern := None; Reindex.onlyMissing := None;
       Reindex.force := None; Reindex.dryRun := None; Reindex.limit := None;
       Reindex.onProgress := true; Reindex.batchDelay := None;
       Reindex.customQuery := None; Reindex.customQueryParams := None |} in
  let entities := map Fixtures.entity ["e1"; "e2"; "e3"] in
  ∃ r s2,
    Reindex.reindexEmbeddings 3 (Fixtures.runtime entities)
      (Fixtures.provider (Fixtures.failingOn "e2" (newError "boom")))
      options Fixtures.start = Some (Returned r, s2) ∧
    map Reindex.p_processed (ReindexReports.progresses (Reindex.trace s2)) =
      [1%Z; 2%Z; 3%Z].
Proof.
  intros options entities.
  destruct (progress_reports_add_up unit (Fixtures.runtime entities)
              (Fixtures.provider (Fixtures.failingOn "e2" (newError "boom")))
              options 3 Fixtures.start
              {| Reindex.world := tt;
                 Reindex.trace :=
                   [Reindex.Select (Reindex.selectionQuery options).1
                      (Reindex.selectionQuery options).2] |}
              entities eq_refl ltac:(vm_compute; discriminate) eq_refl
              ltac:(simpl; lia))
    as (r & s2 & tail & Hrun & Htr & Hseq & _).
  exists r, s2. split; [exact Hrun|].
  rewrite Htr, progresses_app, map_app, Hseq. reflexivity.
Defined.

(** X11. A selection that fails or finds nothing. When the selection query
    fails, [reindexEmbeddings] fails with the same error; when it finds no
    entity, the run returns a result of zeros, also under options that would
    otherwise keep the loop from ending. In both cases, whatever the number
    of iterations allowed, the selection query is all the run did: the
    provider is not called, nothing is written and the run does not sleep. *)
Theorem nothing_selected_nothing_done
    (W : Type) (rt : Reindex.Runtime W)
    (svc : EmbeddingService.IEmbeddingService W)
    (options : Reindex.ReindexOptions) (fuel : nat) (s0 s1 : Reindex.state W) :
  (∀ e,
     Reindex.getEntitiesToReindex rt options s0 = (Raised e, s1) →
     Reindex.reindexEmbeddings fuel rt svc options s0 = Some (Raised e, s1)) ∧
  (Reindex.getEntitiesToReindex rt options s0 = (Returned [], s1) →
   ∃ r,
     Reindex.reindexEmbeddings fuel rt svc options s0 = Some (Returned r, s1) ∧
     Reindex.total r = 0%Z ∧ Reindex.processed r = 0%Z ∧
     Reindex.succeeded r = 0%Z ∧ Reindex.failed r = 0%Z ∧ Reindex.errors r = []) ∧
  (∀ res,
     Reindex.getEntitiesToReindex rt options s0 = (res, s1) →
     Reindex.trace s1 =
       (Reindex.trace s0 ++
        [Reindex.Select (Reindex.selectionQuery options).1
           (Reindex.selectionQuery options).2])%list).
Proof.
  split; [|split].
  - intros e Hsel. unfold Reindex.reindexEmbeddings. rewrite Hsel. reflexivity.
  - intros Hsel. unfold Reindex.reindexEmbeddings. rewrite Hsel. simpl.
    eexists. split; [reflexivity|]. repeat split; reflexivity.
  - intros res Hsel.
    pose proof (getEntitiesToReindex_trace rt options s0) as Htr.
    rewrite Hsel in Htr. exact Htr.
Qed.

Lemma nothing_selected_nothing_done_witness :
  let rt : Reindex.Runtime unit :=
    {| Reindex.runSelect := fun _ _ w => (Raised (newError "connection lost"), w);
       Reindex.runCount := fun _ _ w => (Returned 0%Z, w);
       Reindex.runStore := fun _ w => (Returned tt, w);
       Reindex.now := fun _ => 0%Z;
       Reindex.sleep := fun _ w => w |} in
  ∃ s1,
    Reindex.reindexEmbeddings 0 rt (Fixtures.provider (fun _ => None))
      (Fixtures.options (Some (-1)%Z) None None) Fixtures.start =
      Some (Raised (newError "connection lost"), s1) ∧
    Reindex.generated (Reindex.trace s1) = [].
Proof.
  intros rt. eexists. split.
  - apply (proj1 (nothing_selected_nothing_done unit rt
                    (Fixtures.provider (fun _ => None))
                    (Fixtures.options (Some (-1)%Z) None None) 0 Fixtures.start _)).
    reflexivity.
  - reflexivity.
Defined.

(** ** The Voyage AI service: what is asked and what comes back *)

Section VoyageContract.

Lemma lookupOr_truthy (table : list (string * Z)) (m : string) (fallback : Z) :
  fallback ≠ 0%Z → VoyageAI.truthyDimension (lookupOr table m fallback) = true.
Proof.
  intros Hf. unfold lookupOr.
  destruct (JS.get table m) as [n|key|]; simpl.
  - destruct (Z.eqb_spec n 0) as [->|Hn]; simpl.
    + by destruct (Z.eqb_spec fallback 0).
    + by destruct (Z.eqb_spec n 0).
  - reflexivity.
  - by destruct (Z.eqb_spec fallback 0).
Qed.

Lemma getModelDimensions_truthy (m : string) :
  VoyageAI.truthyDimension (getModelDimensions m) = true.
Proof.
  unfold getModelDimensions.
  destruct (JS.startsWith m "voyage-"); apply lookupOr_truthy; discriminate.
Qed.

Lemma new_dimensions_truthy (env : gmap string string)
    (config : VoyageAI.VoyageAIEmbeddingConfig)
    (this : VoyageAI.VoyageAIEmbeddingService) :
  VoyageAI.new env config = Returned this →
  VoyageAI.truthyDimension (VoyageAI.dimensions this) = true.
Proof.
  unfold VoyageAI.new. destruct (negb _ && negb _); [discriminate|].
  intros [= <-]. simpl.
  destruct (VoyageAI.cfg_dimensions config) as [d|]; simpl;
    [|apply getModelDimensions_truthy].
  destruct (Z.eqb_spec d 0); simpl; [apply getModelDimensions_truthy|].
  by destruct (Z.eqb_spec d 0).
Qed.


Lemma collectEmbeddings_raised (items : list VoyageAI.EmbedItem) (e : thrown) :
  VoyageAI.collectEmbeddings items = Raised e →
  e = newError "Invalid embedding in batch response".
Proof.
  induction items as [|[[emb|]] items IH]; simpl.
  - discriminate.
  - destruct (VoyageAI.collectEmbeddings items); [discriminate|].
    intros [= <-]. by apply IH.
  - congruence.
Qed.

End VoyageContract.

(** X12. The dimension a Voyage AI service asks for. The dimension of a
    constructed service is never falsy (a zero override is replaced by the
    dimension of the model), so for every constructed service the embed
    request carries [outputDimension] exactly when the model name starts
    with [voyage-3], and then it is the dimension [getModelInfo] reports. *)
Theorem voyage_requests_reported_dimension
    (env : gmap string string) (config : VoyageAI.VoyageAIEmbeddingConfig)
    (this : VoyageAI.VoyageAIEmbeddingService) (texts : list string) :
  VoyageAI.new env config = Returned this →
  EmbeddingService.dimensions (VoyageAI.getModelInfo this) ≠ Dim 0 ∧
  VoyageAI.outputDimension (VoyageAI.embedParams this texts) =
    (if JS.startsWith (VoyageAI.model this) "voyage-3"
     then Some (EmbeddingService.dimensions (VoyageAI.getModelInfo this))
     else None) ∧
  VoyageAI.input (VoyageAI.embedParams this texts) = texts ∧
  VoyageAI.req_model (VoyageAI.embedParams this texts) =
    EmbeddingService.name (VoyageAI.getModelInfo this).
Proof.
  intros Hnew. pose proof (new_dimensions_truthy env config this Hnew) as Htruthy.
  split; [|split; [|split; reflexivity]].
  - simpl. intros Hzero. rewrite Hzero in Htruthy. discriminate Htruthy.
  - unfold VoyageAI.embedParams. simpl. rewrite Htruthy, andb_true_r. reflexivity.
Qed.

Lemma voyage_requests_reported_dimension_witness :
  let config :=
    {| VoyageAI.cfg_apiKey := "key"; VoyageAI.cfg_model := Some "voyage-3-lite";
       VoyageAI.cfg_dimensions := Some 0%Z; VoyageAI.cfg_version := None;
       VoyageAI.cfg_inputType := None |} in
  ∃ this,
    VoyageAI.new ∅ config = Returned this ∧
    VoyageAI.outputDimension (VoyageAI.embedParams this ["a"]) = Some (Dim 512).
Proof.
  intros config. eexists. split; [reflexivity|].
  match goal with
  | |- VoyageAI.outputDimension (VoyageAI.embedParams ?t _) = _ =>
      destruct (voyage_requests_reported_dimension ∅ config t ["a"] eq_refl)
        as (_ & Hout & _)
  end.
  rewrite Hout. reflexivity.
Defined.

(** X13. What [generateEmbedding] of the Voyage AI service can give, for
    every client, text and state: a vector that is not empty and is the
    first embedding of the provider's response, or an [Error] built by the
    classification of some failure. A response without data, or whose
    first item has no embedding or an empty one, is such a failure: it
    surfaces with the prefix [Error generating embedding: ] before its own
    message. *)
Theorem voyage_generateEmbedding_contract
    (S : Type) (client : VoyageAI.Client S)
    (this : VoyageAI.VoyageAIEmbeddingService) (text : string) (s : S) :
  let malformed :=
    newError ("Error generating embedding: " +:+
              "Invalid response from Voyage AI API - missing embedding data") in
  let empty :=
    newError ("Error generating embedding: " +:+
              "Invalid embedding returned from Voyage AI API") in
  match VoyageAI.generateEmbedding client this text s with
  | (Returned emb, s') =>
      emb ≠ [] ∧
      ∃ rest,
        client (VoyageAI.embedParams this [text]) s =
        (Returned (Some {| VoyageAI.data :=
                             Some ({| VoyageAI.embedding := Some emb |} :: rest) |}),
         s')
  | (Raised e, s') =>
      kindOf e = Some "Error" ∧
      match client (VoyageAI.embedParams this [text]) s with
      | (Raised cause, s'') =>
          s' = s'' ∧
          e = classifyFailure "Voyage AI" "Error generating embedding: " cause
      | (Returned (Some {| VoyageAI.data :=
                             Some ({| VoyageAI.embedding := Some [] |} :: _) |}), s'') =>
          s' = s'' ∧ e = empty
      | (Returned _, s'') => s' = s'' ∧ e = malformed
      end
  end.
Proof.
  cbv zeta. unfold VoyageAI.generateEmbedding, tryCatch, bind.
  destruct (client (VoyageAI.embedParams this [text]) s) as [[response|cause] s'].
  - destruct response as [[[[|[[[|x emb]|]] rest]|]]|]; simpl;
      try (split; [reflexivity|]; split; reflexivity).
    split; [discriminate|]. eexists. reflexivity.
  - simpl. split; [apply classifyFailure_kind|]. split; reflexivity.
Qed.



(** ** The Cohere reranker: requests, bad answers, metadata *)

Section RerankContract.

Import Cohere.

Lemma mapResults_out_of_range (documents : list RerankDocument)
    (rs : list CohereResult) :
  Exists (λ r, at_index documents (index r) = None) rs →
  mapResults documents rs = Raised (readOfUndefined "id").
Proof.
  induction rs as [|r rs IH]; intros Hex.
  - by apply Exists_nil in Hex.
  - simpl. unfold toRerankResult.
    destruct (at_index documents (index r)) as [doc|] eqn:Hdoc; [|reflexivity].
    apply Exists_cons in Hex as [Hhere|Hlater]; [congruence|].
    rewrite (IH Hlater). reflexivity.
Qed.

Lemma mapResults_exact (documents : list RerankDocument) (rs : list CohereResult) :
  Forall (λ r, is_Some (at_index documents (index r))) rs →
  ∃ xs,
    mapResults documents rs = Returned xs ∧
    Forall2 (λ r x, toRerankResult documents r = Returned x) rs xs.
Proof.
  induction 1 as [|r rs [doc Hdoc] _ (xs & Hxs & Hall)]; simpl.
  - exists []. split; [reflexivity|constructor].
  - destruct (toRerankResult documents r) as [x|e] eqn:Hx.
    + rewrite Hxs. eexists. split; [reflexivity|]. by constructor.
    + unfold toRerankResult in Hx. rewrite Hdoc in Hx. discriminate Hx.
Qed.

Lemma resultCount_nonzero (a b : option Z) (n : Z) :
  n ≠ 0%Z → JS.orNum a (JS.orNum b n) ≠ 0%Z.
Proof.
  intros Hn. destruct a as [x|]; simpl.
  - destruct (Z.eqb_spec x 0); [|assumption].
    destruct b as [y|]; simpl; [|assumption].
    destruct (Z.eqb_spec y 0); assumption.
  - destruct b as [y|]; simpl; [|assumption].
    destruct (Z.eqb_spec y 0); assumption.
Qed.

End RerankContract.

(** X15. [rerank] at its edges, for every client. With no documents it
    returns the empty list without calling the provider. With documents,
    the request carries their texts in order and never asks for zero
    results: a zero [topN] means the next default, down to the number of
    documents. And when one of the provider's results points outside the
    documents, the whole call fails, with the [TypeError] of that read
    wrapped as [Error reranking documents: ...]: no partial result is
    returned. *)
Theorem rerank_edges
    (S : Type) (client : Cohere.Client S) (this : Cohere.CohereRerankingService)
    (query : string) (documents : list Cohere.RerankDocument) (topN : option Z)
    (s : S) :
  (documents = [] →
   Cohere.rerank client this query documents topN s = (Returned [], s)) ∧
  (documents ≠ [] →
   Cohere.req_topN (Cohere.rerankRequest this query documents topN) ≠ 0%Z ∧
   Cohere.req_documents (Cohere.rerankRequest this query documents topN) =
     map Cohere.text documents) ∧
  (∀ rs s',
     documents ≠ [] →
     client (Cohere.rerankRequest this query documents topN) s =
       (Returned (Some {| Cohere.results := Some rs |}), s') →
     Exists (λ r, Cohere.at_index documents (Cohere.index r) = None) rs →
     Cohere.rerank client this query documents topN s =
       (Raised (newError ("Error reranking documents: " +:+
                          "Cannot read properties of undefined (reading 'id')")),
        s')).
Proof.
  split; [|split].
  - intros ->. reflexivity.
  - intros Hne. split; [|reflexivity]. simpl.
    apply resultCount_nonzero. destruct documents; [congruence|]. simpl. lia.
  - intros rs s' Hne Hclient Hbad.
    destruct documents as [|d ds]; [congruence|].
    unfold Cohere.rerank, tryCatch, bind. rewrite Hclient.
    rewrite (mapResults_out_of_range _ _ Hbad). reflexivity.
Qed.

Lemma rerank_edges_witness :
  let documents :=
    [ {| Cohere.doc_id := "a"; Cohere.text := "first"; Cohere.doc_metadata := None |} ] in
  let this := {| Cohere.model := "rerank-english-v3.0"; Cohere.topN := Some 0%Z |} in
  let client : Cohere.Client unit :=
    fun _ s =>
      (Returned (Some {| Cohere.results :=
                           Some [ {| Cohere.index := 0;
                                     Cohere.result_relevanceScore := 1%Q |};
                                  {| Cohere.index := 1;
                                     Cohere.result_relevanceScore := (1 # 2)%Q |} ] |}),
       s) in
  Cohere.req_topN (Cohere.rerankRequest this "q" documents (Some 0%Z)) = 1%Z ∧
  ∃ e, Cohere.rerank client this "q" documents (Some 0%Z) tt = (Raised e, tt).
Proof.
  intros documents this client.
  destruct (rerank_edges unit client this "q" documents (Some 0%Z) tt)
    as (_ & Hreq & Hbad).
  split; [reflexivity|]. eexists.
  eapply Hbad; [discriminate | reflexivity |].
  apply Exists_cons. right. apply Exists_cons. left. reflexivity.
Defined.

(** X16. The metadata of a reranked search result. Under the conditions
    under which [rerankVectorSearchResults] returns (a non-empty input and
    answers that point into it), each result carries, besides the two
    entries the conversion adds: the similarity of the input it points at
    as [originalScore], the reranker's score as [rerankScore], the position
    it points at as [rerankIndex], and, under every other key, what the
    metadata of that input had there. *)
Theorem rerank_keeps_metadata
    (S : Type) (client : Cohere.Client S) (this : Cohere.CohereRerankingService)
    (query : string) (results : list VectorStore.VectorSearchResult)
    (entityTexts : gmap string string) (topN : option Z) (s s' : S)
    (rs : list Cohere.CohereResult) :
  results ≠ [] →
  client (Cohere.rerankRequest this query
            (map (Cohere.toDocument entityTexts) results) topN) s =
    (Returned (Some {| Cohere.results := Some rs |}), s') →
  Forall (λ r, is_Some (Cohere.at_index results (Cohere.index r))) rs →
  ∃ out,
    Cohere.rerankVectorSearchResults client this query results entityTexts topN s =
      (Returned out, s') ∧
    Forall2
      (λ r o,
         ∃ orig,
           Cohere.at_index results (Cohere.index r) = Some orig ∧
           VectorStore.metadata o !! "originalScore" =
             Some (VNum (VectorStore.similarity orig)) ∧
           VectorStore.metadata o !! "rerankScore" =
             Some (VNum (Cohere.result_relevanceScore r)) ∧
           VectorStore.metadata o !! "rerankIndex" = Some (VInt (Cohere.index r)) ∧
           ∀ key,
             key ∉ ["originalScore"; "rerankScore"; "rerankIndex";
                    "originalSimilarity"; "searchMethod"] →
             VectorStore.metadata o !! key = VectorStore.metadata orig !! key)
      rs out.
Proof.
  intros Hne Hclient Hrange.
  assert (Hrange' : Forall (λ r, is_Some (Cohere.at_index
                      (map (Cohere.toDocument entityTexts) results) (Cohere.index r))) rs).
  { eapply Forall_impl; [exact Hrange|]. intros r [orig Horig].
    rewrite at_index_map, Horig. by eexists. }
  destruct (mapResults_exact _ rs Hrange') as (xs & Hxs & Hall).
  exists (map Cohere.toVectorSearchResult xs). split.
  - destruct results as [|r0 rest]; [congruence|].
    unfold Cohere.rerankVectorSearchResults, bind.
    erewrite rerank_returns; [reflexivity | discriminate | exact Hclient | exact Hxs].
  - apply Forall2_fmap_r.
    eapply Forall2_impl; [exact Hall|].
    intros r x Hx.
    unfold Cohere.toRerankResult in Hx. rewrite at_index_map in Hx.
    destruct (Cohere.at_index results (Cohere.index r)) as [orig|];
      [|discriminate Hx].
    exists orig. split; [reflexivity|].
    simpl in Hx. injection Hx as <-. simpl.
    repeat split.
    + rewrite !lookup_insert_ne by discriminate. apply lookup_insert_eq.
    + rewrite !lookup_insert_ne by discriminate. apply lookup_insert_eq.
    + rewrite !lookup_insert_ne by discriminate. apply lookup_insert_eq.
    + intros key Hkey. rewrite !not_elem_of_cons in Hkey.
      destruct Hkey as (H1 & H2 & H3 & H4 & H5 & _).
      rewrite !lookup_insert_ne by congruence. reflexivity.
Qed.

Lemma rerank_keeps_metadata_witness :
  let results :=
    [ {| VectorStore.id := "a"; VectorStore.similarity := (9 # 10)%Q;
         VectorStore.metadata := <["entityType" := VStr "Sensor"]> ∅ |} ] in
  let answer := [ {| Cohere.index := 0; Cohere.result_relevanceScore := (7 # 10)%Q |} ] in
  let client : Cohere.Client unit :=
    fun _ s => (Returned (Some {| Cohere.results := Some answer |}), s) in
  let this := {| Cohere.model := "rerank-english-v3.0"; Cohere.topN := None |} in
  ∃ o,
    Cohere.rerankVectorSearchResults client this "q" results ∅ None tt =
      (Returned [o], tt) ∧
    VectorStore.metadata o !! "entityType" = Some (VStr "Sensor") ∧
    VectorStore.metadata o !! "originalScore" = Some (VNum (9 # 10)%Q).
Proof.
  intros results answer client this.
  destruct (rerank_keeps_metadata unit client this "q" results ∅ None tt tt answer
              ltac:(discriminate) eq_refl
              ltac:(repeat constructor; eexists; reflexivity))
    as (out & Hrun & Hall).
  apply Forall2_cons_inv_l in Hall
    as (o & out' & (orig & Horig & Hscore & _ & _ & Hkeep) & Hnil & ->).
  apply Forall2_nil_inv_l in Hnil as ->.
  exists o. split; [exact Hrun|].
  injection Horig as <-.
  split; [rewrite Hkeep; [reflexivity | by_decision] | exact Hscore].
Defined.

(** ** Fusion without assumptions on the result lists *)

Section FusionKeys.

Import Neo4jVectorStore.

Variable k : Q.

Lemma mapGet_is_Some (m : RrfMap) (key : string) :
  is_Some (mapGet m key) ↔ key ∈ map fst m.
Proof.
  induction m as [|[k0 v0] m IH]; simpl.
  - split; [intros [? [=]] | intros H; by apply elem_of_nil in H].
  - destruct (String.eqb_spec k0 key) as [->|Hne].
    + split; [intros _; apply elem_of_cons; by left | by eexists].
    + rewrite IH, elem_of_cons. intuition congruence.
Qed.

Lemma slice_from_start {A} (xs : list A) (limit : Z) :
  (0 ≤ limit)%Z → JS.slice xs 0 limit = take (Z.to_nat limit) xs.
Proof.
  intros Hlimit. unfold JS.slice, JS.clampIndex.
  destruct (Z.ltb_spec limit 0); [lia|].
  change (0 <? 0)%Z with false. cbn iota.
  rewrite (Z.min_l 0) by lia. change (Z.to_nat 0) with 0%nat.
  rewrite drop_0, Z.sub_0_r.
  destruct (Z.le_gt_cases limit (Z.of_nat (length xs))).
  - rewrite Z.min_l by lia. reflexivity.
  - rewrite Z.min_r by lia. rewrite !take_ge by lia. reflexivity.
Qed.

(** After the vector pass over [m]: an entry is one of the pass, with a
    vector score and no keyword score, or an entry of [m] the pass did not
    touch. *)
Lemma addVectorResults_entry (V : list VectorRecord) :
  ∀ (i : nat) (m : RrfMap) (e : string) (entry : RrfEntry),
  mapGet (addVectorResults k V i m) e = Some entry →
  (e ∈ map v_id V ∧ is_Some (vectorScore entry) ∧ bm25Score entry = None) ∨
  ((e ∉ map v_id V) ∧ mapGet m e = Some entry).
Proof.
  induction V as [|record V IH]; intros i m e entry Hget; simpl in *.
  - right. split; [apply not_elem_of_nil | exact Hget].
  - destruct (IH _ _ _ _ Hget) as [(Hin & Hv & Hb)|(Hnotin & Hm)].
    + left. split; [apply elem_of_cons; by right | auto].
    + rewrite mapGet_mapSet in Hm.
      destruct (String.eqb_spec (v_id record) e) as [<-|Hne].
      * injection Hm as <-. left.
        split; [apply elem_of_cons; by left|]. split; [by eexists | reflexivity].
      * right. split; [|exact Hm].
        apply not_elem_of_cons. split; [congruence | exact Hnotin].
Qed.

Lemma addVectorResults_present (V : list VectorRecord) :
  ∀ (i : nat) (m : RrfMap) (e : string),
  e ∈ map v_id V ∨ e ∈ map fst m → is_Some (mapGet (addVectorResults k V i m) e).
Proof.
  induction V as [|record V IH]; intros i m e Hin; simpl in *.
  - destruct Hin as [Hin|Hin]; [by apply elem_of_nil in Hin|].
    by apply mapGet_is_Some.
  - apply IH. rewrite elem_of_cons in Hin.
    destruct Hin as [[->|Hin]|Hin]; [right | by left | right];
      apply mapGet_is_Some; rewrite mapGet_mapSet.
    + rewrite String.eqb_refl. by eexists.
    + destruct (String.eqb _ _); [by eexists | by apply mapGet_is_Some].
Qed.

(** After the keyword pass over [m]: an entry is one of the pass, with a
    keyword score and the vector score [m] had for it, or an entry of [m]
    the pass did not touch. *)
Lemma addKeywordResults_entry (K : list KeywordRecord) :
  ∀ (i : nat) (m : RrfMap) (e : string) (entry : RrfEntry),
  mapGet (addKeywordResults k K i m) e = Some entry →
  (e ∈ map k_id K ∧ is_Some (bm25Score entry) ∧
   (is_Some (vectorScore entry) ↔
    ∃ old, mapGet m e = Some old ∧ is_Some (vectorScore old))) ∨
  ((e ∉ map k_id K) ∧ mapGet m e = Some entry).
Proof.
  induction K as [|record K IH]; intros i m e entry Hget; simpl in *.
  - right. split; [apply not_elem_of_nil | exact Hget].
  - assert (Hvalue : ∀ value,
              value = match mapGet m (k_id record) with
                      | Some existing =>
                          {| score := (score existing + rrfScore k i)%Q;
                             entityType := k_entityType record;
                             vectorScore := vectorScore existing;
                             bm25Score := Some (k_bm25Score record) |}
                      | None =>
                          {| score := rrfScore k i;
                             entityType := k_entityType record;
                             vectorScore := None;
                             bm25Score := Some (k_bm25Score record) |}
                      end →
              is_Some (bm25Score value) ∧
              (is_Some (vectorScore value) ↔
               ∃ old, mapGet m (k_id record) = Some old ∧ is_Some (vectorScore old))).
    { intros value ->. destruct (mapGet m (k_id record)) as [existing|]; simpl.
      - split; [by eexists|]. split; [by eexists | by intros (old & [= <-] & ?)].
      - split; [by eexists|]. split; [by intros [? [=]] | by intros (old & [=] & _)]. }
    destruct (IH _ _ _ _ Hget) as [(Hin & Hb & Hv)|(Hnotin & Hm)].
    + left. split; [apply elem_of_cons; by right|]. split; [exact Hb|].
      rewrite Hv, mapGet_mapSet.
      destruct (String.eqb_spec (k_id record) e) as [<-|Hne]; [|reflexivity].
      destruct (Hvalue _ eq_refl) as [_ Hiff]. rewrite <- Hiff.
      split; [by intros (old & [= <-] & ?) | by eauto].
    + rewrite mapGet_mapSet in Hm.
      destruct (String.eqb_spec (k_id record) e) as [<-|Hne].
      * injection Hm as <-. left. split; [apply elem_of_cons; by left|].
        apply Hvalue. reflexivity.
      * right. split; [|exact Hm].
        apply not_elem_of_cons. split; [congruence | exact Hnotin].
Qed.

Lemma addKeywordResults_present (K : list KeywordRecord) :
  ∀ (i : nat) (m : RrfMap) (e : string),
  e ∈ map k_id K ∨ e ∈ map fst m → is_Some (mapGet (addKeywordResults k K i m) e).
Proof.
  induction K as [|record K IH]; intros i m e Hin; simpl in *.
  - destruct Hin as [Hin|Hin]; [by apply elem_of_nil in Hin|].
    by apply mapGet_is_Some.
  - apply IH. rewrite elem_of_cons in Hin.
    destruct Hin as [[->|Hin]|Hin]; [right | by left | right];
      apply mapGet_is_Some; rewrite mapGet_mapSet.
    + rewrite String.eqb_refl. by eexists.
    + destruct (String.eqb _ _); [by eexists | by apply mapGet_is_Some].
Qed.

(** The fused map: which entities it holds and which scores they carry. *)
Lemma fuse_entry (V : list VectorRecord) (K : list KeywordRecord)
    (e : string) (entry : RrfEntry) :
  mapGet (fuse k V K) e = Some entry →
  (e ∈ map v_id V ∨ e ∈ map k_id K) ∧
  (is_Some (vectorScore entry) ↔ e ∈ map v_id V) ∧
  (is_Some (bm25Score entry) ↔ e ∈ map k_id K).
Proof.
  unfold fuse. intros Hget.
  assert (Hvec : (∃ old, mapGet (addVectorResults k V 0 []) e = Some old ∧
                         is_Some (vectorScore old)) ↔ e ∈ map v_id V).
  { split.
    - intros (old & Hold & _).
      destruct (addVectorResults_entry V _ _ _ _ Hold) as [(Hin & _)|(_ & [=])].
      exact Hin.
    - intros Hin.
      destruct (addVectorResults_present V 0 [] e (or_introl Hin)) as [old Hold].
      exists old. split; [exact Hold|].
      destruct (addVectorResults_entry V _ _ _ _ Hold) as [(_ & Hv & _)|(_ & [=])].
      exact Hv. }
  destruct (addKeywordResults_entry K _ _ _ _ Hget) as [(Hin & Hb & Hv)|(Hnotin & Hm)].
  - split; [by right|]. split; [by rewrite Hv|]. tauto.
  - destruct (addVectorResults_entry V _ _ _ _ Hm) as [(Hin & Hv & Hb)|(_ & [=])].
    split; [by left|]. split; [tauto|].
    rewrite Hb. split; [by intros [? [=]] | tauto].
Qed.

Lemma fuse_present (V : list VectorRecord) (K : list KeywordRecord) (e : string) :
  e ∈ map v_id V ∨ e ∈ map k_id K → e ∈ map fst (fuse k V K).
Proof.
  intros Hin. apply mapGet_is_Some. unfold fuse.
  apply addKeywordResults_present.
  destruct Hin as [Hin|Hin]; [right | by left].
  apply mapGet_is_Some. apply addVectorResults_present. by left.
Qed.

End FusionKeys.

(** X17. The ranked list of the fusion, for all result lists (also ones
    that name an entity more than once), every constant and every limit:
    no entity appears twice; every result is an entity of one of the two
    lists, is marked [hybrid-rrf], carries its fused score also as
    [rrfScore], and has a [vectorScore] (a [bm25Score]) that is a number
    exactly when the entity is in the vector (keyword) list; with a limit
    that is not negative there are at most that many results; and with a
    limit that is at least the number of fused entities, every entity of
    either list is in the result. *)
Theorem fused_results_are_distinct_candidates
    (k : Q) (V : list Neo4jVectorStore.VectorRecord)
    (K : list Neo4jVectorStore.KeywordRecord) (limit : Z) :
  let out := Neo4jVectorStore.rankFused k V K limit in
  let inV id := id ∈ map Neo4jVectorStore.v_id V in
  let inK id := id ∈ map Neo4jVectorStore.k_id K in
  NoDup (map VectorStore.id out) ∧
  Forall
    (λ o,
       (inV (VectorStore.id o) ∨ inK (VectorStore.id o)) ∧
       VectorStore.metadata o !! "searchMethod" = Some (VStr "hybrid-rrf") ∧
       VectorStore.metadata o !! "rrfScore" = Some (VNum (VectorStore.similarity o)) ∧
       (inV (VectorStore.id o) ↔
        ∃ q, VectorStore.metadata o !! "vectorScore" = Some (VNum q)) ∧
       (inK (VectorStore.id o) ↔
        ∃ q, VectorStore.metadata o !! "bm25Score" = Some (VNum q)))
    out ∧
  ((0 ≤ limit)%Z → (length out ≤ Z.to_nat limit)%nat) ∧
  ((Z.of_nat (length (Neo4jVectorStore.fuse k V K)) ≤ limit)%Z →
   ∀ id, inV id ∨ inK id → id ∈ map VectorStore.id out).
Proof.
  cbv zeta. unfold Neo4jVectorStore.rankFused.
  assert (Hids : ∀ l : Neo4jVectorStore.RrfMap,
            map VectorStore.id (map Neo4jVectorStore.toResult l) = map fst l).
  { intros l. rewrite map_map. apply map_ext. by intros [id data]. }
  split; [|split; [|split]].
  - destruct (slice_prefix
                (Neo4jVectorStore.sortByScore (Neo4jVectorStore.fuse k V K)) limit)
      as [n ->].
    rewrite Hids.
    change (map fst (take n ?l)) with (fst <$> take n l). rewrite fmap_take.
    apply (sublist_NoDup _
             (fst <$> Neo4jVectorStore.sortByScore (Neo4jVectorStore.fuse k V K)));
      [|apply sublist_take].
    change (NoDup (map fst (Neo4jVectorStore.sortByScore (Neo4jVectorStore.fuse k V K)))).
    rewrite sortByScore_perm. apply fuse_NoDup.
  - destruct (slice_prefix
                (Neo4jVectorStore.sortByScore (Neo4jVectorStore.fuse k V K)) limit)
      as [n ->].
    apply Forall_fmap, Forall_forall. intros [id data] Hin.
    assert (Hget : Neo4jVectorStore.mapGet (Neo4jVectorStore.fuse k V K) id = Some data).
    { apply mapGet_elem_of; [apply fuse_NoDup|].
      apply (subseteq_take n) in Hin.
      by rewrite sortByScore_perm in Hin. }
    destruct (fuse_entry k V K id data Hget) as (Hin' & Hv & Hb).
    simpl. split; [exact Hin'|].
    rewrite lookup_insert_eq.
    rewrite !(lookup_insert_ne _ "rrfScore") by discriminate.
    rewrite !(lookup_insert_ne _ "bm25Score" "searchMethod") by discriminate.
    rewrite !(lookup_insert_ne _ "vectorScore" "searchMethod") by discriminate.
    rewrite !(lookup_insert_ne _ "bm25Score" "vectorScore") by discriminate.
    rewrite !lookup_insert_eq.
    split; [reflexivity|]. split; [reflexivity|].
    rewrite <- Hv, <- Hb. split.
    + destruct (Neo4jVectorStore.vectorScore data) as [q|]; simpl.
      * split; [by eexists | by eexists].
      * split; [by intros [? [=]] | by intros [? [=]]].
    + destruct (Neo4jVectorStore.bm25Score data) as [q|]; simpl.
      * split; [by eexists | by eexists].
      * split; [by intros [? [=]] | by intros [? [=]]].
  - intros Hlimit. rewrite slice_from_start by exact Hlimit.
    rewrite length_map, length_take. lia.
  - intros Hall id Hin.
    rewrite slice_from_start by lia.
    rewrite take_ge.
    2:{ rewrite (Permutation_length (sortByScore_perm _)). lia. }
    rewrite Hids.
    change (id ∈ map fst (Neo4jVectorStore.sortByScore (Neo4jVectorStore.fuse k V K))).
    rewrite sortByScore_perm. by apply fuse_present.
Qed.

Lemma fused_results_are_distinct_candidates_witness :
  let K :=
    [ {| Neo4jVectorStore.k_id := "a"; Neo4jVectorStore.k_entityType := "Sensor";
         Neo4jVectorStore.k_bm25Score := (5 # 2)%Q |};
      {| Neo4jVectorStore.k_id := "a"; Neo4jVectorStore.k_entityType := "Sensor";
         Neo4jVectorStore.k_bm25Score := 2%Q |};
      {| Neo4jVectorStore.k_id := "b"; Neo4jVectorStore.k_entityType := "Sensor";
         Neo4jVectorStore.k_bm25Score := 1%Q |} ] in
  (length (Neo4jVectorStore.rankFused 60 [] K 5) ≤ 5)%nat ∧
  "b" ∈ map VectorStore.id (Neo4jVectorStore.rankFused 60 [] K 5).
Proof.
  intros K.
  destruct (fused_results_are_distinct_candidates 60 [] K 5)
    as (_ & _ & Hlen & Hfull).
  split.
  - apply Hlen. lia.
  - apply Hfull; [vm_compute; discriminate|]. right. by_decision.
Defined.

(** ** The vector store: search paths and transactions *)

Section SearchPaths.

Import VectorSearch.

Context {W : Type} (session : SearchSession W) (this : Neo4jVectorStore).

Lemma sumSquared_zero (vector : list Q) :
  Forall (λ x, x == 0)%Q vector →
  ∀ acc : Q,
  (fold_left (fun acc val => (acc + val * val)%Q) vector acc == acc)%Q.
Proof.
  induction 1 as [|x vector Hx _ IH]; intros acc; simpl; [reflexivity|].
  rewrite IH, Hx. ring.
Qed.

Lemma zero_vector_has_no_norm (vector : list Q) :
  Forall (λ x, x == 0)%Q vector → vectorHasValidNorm vector = false.
Proof.
  intros Hzero. unfold vectorHasValidNorm, sumSquared.
  apply negb_false_iff, Qle_bool_iff.
  rewrite (sumSquared_zero vector Hzero 0%Q). apply Qle_refl.
Qed.

(** The plain search: the result is the one of the fallback, run at some
    state, or the non-empty answer of the index query. *)
Lemma searchCore_plain (queryVector : list Q) (limitOption : option Z)
    (minSimilarityOption : option Q) (s : W) :
  let lim := default 5%Z limitOption in
  let res := searchCore session this None queryVector limitOption
               minSimilarityOption s in
  (∃ s1, searchByPatternFallback session lim s1 = res) ∨
  (∃ records,
     records ≠ [] ∧
     queryNodes session (indexName this) lim queryVector
       (default 0%Q minSimilarityOption) s = (Returned records, res.2) ∧
     res.1 = Returned (map ofVector records)).
Proof.
  cbv zeta. unfold searchCore.
  destruct (precheck this queryVector); [|left; by eexists].
  destruct (vectorHasValidNorm queryVector); simpl; [|left; by eexists].
  destruct (queryNodes session _ _ _ _ s) as [[[|r rs]|e] s'].
  - left. by eexists.
  - right. exists (r :: rs). split; [discriminate|]. split; reflexivity.
  - left. by eexists.
Qed.

Lemma fallback_raises (lim : Z) (s1 s' : W) (e : thrown) :
  searchByPatternFallback session lim s1 = (Raised e, s') →
  fallbackQuery session lim s1 = (Raised e, s').
Proof.
  unfold searchByPatternFallback, bind, ret.
  destruct (fallbackQuery session lim s1) as [[records|e'] s'']; [discriminate|].
  intros [= <- <-]. reflexivity.
Qed.

Lemma search_cases (queryVector : list Q) (options : SearchOptions) (s : W) :
  search session this queryVector options s =
  match precheck this queryVector with
  | Raised _ => searchByPatternFallback session (default 5%Z (limit options)) s
  | Returned _ =>
      if vectorHasValidNorm queryVector then
        if JS.truthyBool (hybridSearch options) && JS.truthyStr (queryText options)
        then
          Neo4jVectorStore.hybridSearchWithRRF
            (vectorQuery session) (keywordQuery session)
            (fun qv l => searchCore session this None qv (Some l) None)
            queryVector (default EmptyString (queryText options))
            (default 5%Z (limit options)) (rrfK options) s
        else
          searchCore session this None queryVector (limit options)
            (minSimilarity options) s
      else searchByPatternFallback session (default 5%Z (limit options)) s
  end.
Proof.
  unfold search, searchCore.
  destruct (precheck this queryVector); [|reflexivity].
  destruct (vectorHasValidNorm queryVector); simpl; [|reflexivity].
  destruct (_ && _); reflexivity.
Qed.

End SearchPaths.

(** X18. The three ways out of [search], for every session, store, query
    vector, options and state. The outcome is that of the fallback query
    (run with the limit in effect, 5 by default), or the non-empty answer of
    the index query with every result marked [vector], or, only when
    [hybridSearch] is set and [queryText] is not empty, the fusion of the
    answers of the two rank queries, each asked for twice the limit, with
    the constant 60 by default. In particular [search] fails only with a
    failure of the fallback query (the opening of the session of the hybrid
    search and the closing of sessions being taken to succeed). *)
Theorem search_outcomes
    (W : Type) (session : VectorSearch.SearchSession W)
    (this : VectorSearch.Neo4jVectorStore) (queryVector : list Q)
    (options : VectorSearch.SearchOptions) (s : W) :
  let lim := default 5%Z (VectorSearch.limit options) in
  let res := VectorSearch.search session this queryVector options s in
  ((∃ s1, VectorSearch.searchByPatternFallback session lim s1 = res) ∨
   (∃ records minSimilarity s1,
      records ≠ [] ∧
      VectorSearch.queryNodes session (VectorSearch.indexName this) lim queryVector
        minSimilarity s1 = (Returned records, res.2) ∧
      res.1 = Returned (map VectorSearch.ofVector records)) ∨
   (JS.truthyBool (VectorSearch.hybridSearch options) = true ∧
    JS.truthyStr (VectorSearch.queryText options) = true ∧
    ∃ V K s1,
      VectorSearch.vectorQuery session queryVector (lim * 2)%Z s = (Returned V, s1) ∧
      VectorSearch.keywordQuery session
        (default EmptyString (VectorSearch.queryText options)) (lim * 2)%Z s1 =
        (Returned K, res.2) ∧
      res.1 =
        Returned (Neo4jVectorStore.rankFused
                    (default 60%Q (VectorSearch.rrfK options)) V K lim))) ∧
  (∀ e, res.1 = Raised e →
     ∃ s1, VectorSearch.fallbackQuery session lim s1 = (Raised e, res.2)).
Proof.
  cbv zeta.
  assert (Hplain : ∀ limitOption minSimilarityOption s0,
            default 5%Z limitOption = default 5%Z (VectorSearch.limit options) →
            let res := VectorSearch.searchCore session this None queryVector
                         limitOption minSimilarityOption s0 in
            (∃ s1, VectorSearch.searchByPatternFallback session
                     (default 5%Z (VectorSearch.limit options)) s1 = res) ∨
            (∃ records minSimilarity s1,
               records ≠ [] ∧
               VectorSearch.queryNodes session (VectorSearch.indexName this)
                 (default 5%Z (VectorSearch.limit options)) queryVector
                 minSimilarity s1 = (Returned records, res.2) ∧
               res.1 = Returned (map VectorSearch.ofVector records))).
  { intros limitOption minSimilarityOption s0 Hlim. cbv zeta.
    destruct (searchCore_plain session this queryVector limitOption
                minSimilarityOption s0) as [Hfb|(records & Hne & Hq & Hr)];
      rewrite Hlim in *; [by left|].
    right. by exists records, (default 0%Q minSimilarityOption), s0. }
  assert (Hmain :
    let res := VectorSearch.search session this queryVector options s in
    (∃ s1, VectorSearch.searchByPatternFallback session
             (default 5%Z (VectorSearch.limit options)) s1 = res) ∨
    (∃ records minSimilarity s1,
       records ≠ [] ∧
       VectorSearch.queryNodes session (VectorSearch.indexName this)
         (default 5%Z (VectorSearch.limit options)) queryVector
         minSimilarity s1 = (Returned records, res.2) ∧
       res.1 = Returned (map VectorSearch.ofVector records)) ∨
    (JS.truthyBool (VectorSearch.hybridSearch options) = true ∧
     JS.truthyStr (VectorSearch.queryText options) = true ∧
     ∃ V K s1,
       VectorSearch.vectorQuery session queryVector
         (default 5%Z (VectorSearch.limit options) * 2)%Z s = (Returned V, s1) ∧
       VectorSearch.keywordQuery session
         (default EmptyString (VectorSearch.queryText options))
         (default 5%Z (VectorSearch.limit options) * 2)%Z s1 = (Returned K, res.2) ∧
       res.1 =
         Returned (Neo4jVectorStore.rankFused
                     (default 60%Q (VectorSearch.rrfK options)) V K
                     (default 5%Z (VectorSearch.limit options))))).
  { cbv zeta. rewrite search_cases.
    destruct (VectorSearch.precheck this queryVector); [|left; by eexists].
    destruct (VectorSearch.vectorHasValidNorm queryVector); [|left; by eexists].
    destruct (JS.truthyBool (VectorSearch.hybridSearch options)) eqn:Hh;
      destruct (JS.truthyStr (VectorSearch.queryText options)) eqn:Ht; cbn [andb];
      try (destruct (Hplain (VectorSearch.limit options)
                       (VectorSearch.minSimilarity options) s eq_refl)
             as [Hfb|Hvec]; [by left | by right; left]).
    unfold Neo4jVectorStore.hybridSearchWithRRF, tryCatch, bind, ret.
    destruct (VectorSearch.vectorQuery session queryVector
                (default 5%Z (VectorSearch.limit options) * 2)%Z s)
      as [[V|e] s1] eqn:Hv.
    - destruct (VectorSearch.keywordQuery session
                  (default EmptyString (VectorSearch.queryText options))
                  (default 5%Z (VectorSearch.limit options) * 2)%Z s1)
        as [[K|e] s2] eqn:Hk.
      + right; right. split; [reflexivity|]. split; [reflexivity|].
        exists V, K, s1. split; [reflexivity|]. split; [exact Hk|]. reflexivity.
      + destruct (Hplain (Some (default 5%Z (VectorSearch.limit options))) None s2
                    eq_refl) as [Hfb|Hvec]; [by left | by right; left].
    - destruct (Hplain (Some (default 5%Z (VectorSearch.limit options))) None s1
                  eq_refl) as [Hfb|Hvec]; [by left | by right; left]. }
  cbv zeta in Hmain. split; [exact Hmain|].
  intros e He.
  destruct Hmain as [[s1 Hfb]|[(records & ms & s1 & _ & _ & Hr)|(_ & _ & V & K & s1 & _ & _ & Hr)]];
    [|congruence..].
  exists s1. apply fallback_raises.
  rewrite Hfb. destruct (VectorSearch.search _ _ _ _ _) as [r s']. simpl in *.
  congruence.
Qed.

Lemma search_outcomes_witness :
  let session : VectorSearch.SearchSession unit :=
    {| VectorSearch.queryNodes := fun _ _ _ _ w => (Returned [], w);
       VectorSearch.vectorQuery := fun _ _ w => (Returned [], w);
       VectorSearch.keywordQuery := fun _ _ w => (Returned [], w);
       VectorSearch.fallbackQuery := fun _ w => (Raised (newError "down"), w) |} in
  let this :=
    VectorSearch.new ∅
      {| VectorSearch.opt_indexName := None; VectorSearch.opt_dimensions := Some 2%Z;
         VectorSearch.opt_similarityFunction := None;
         VectorSearch.opt_entityNodeLabel := None |} in
  let options :=
    {| VectorSearch.limit := None; VectorSearch.hybridSearch := None;
       VectorSearch.minSimilarity := None; VectorSearch.queryText := None;
       VectorSearch.rrfK := None |} in
  VectorSearch.search session this [1%Q; 0%Q] options tt =
    (Raised (newError "down"), tt) ∧
  ∃ s1, VectorSearch.fallbackQuery session 5%Z s1 = (Raised (newError "down"), tt).
Proof.
  intros session this options. split; [reflexivity|].
  exact (proj2 (search_outcomes unit session this [1%Q; 0%Q] options tt)
           (newError "down") eq_refl).
Defined.

(** X19. What the guards do in [search] and in [addVector]. On a store
    that is not initialized, on a vector whose length is not the dimension of
    the store, and on a vector of zeros, [search] raises nothing and queries
    no index: its outcome is exactly that of the fallback query with the
    limit in effect. [addVector] raises on the first two, naming the
    problem, before it opens a session: the state is untouched. *)
Theorem guards_in_search_and_addVector
    (W : Type) (session : VectorSearch.SearchSession W)
    (tx : VectorSearch.Transaction W)
    (this : VectorSearch.Neo4jVectorStore) (vector : list Q)
    (options : VectorSearch.SearchOptions)
    (id : string) (metadata : option (gmap string jsval)) (s : W) :
  (VectorSearch.initialized this = false ∨
   VectorSearch.lengthMatches vector (VectorSearch.dimensions this) = false ∨
   Forall (λ x, x == 0)%Q vector →
   VectorSearch.search session this vector options s =
   VectorSearch.searchByPatternFallback session
     (default 5%Z (VectorSearch.limit options)) s) ∧
  (VectorSearch.initialized this = false →
   VectorSearch.addVector tx this id vector metadata s =
   (Raised (newError "Neo4j vector store not initialized. Call initialize() first."),
    s)) ∧
  (VectorSearch.initialized this = true →
   VectorSearch.lengthMatches vector (VectorSearch.dimensions this) = false →
   VectorSearch.addVector tx this id vector metadata s =
   (Raised (newError ("Invalid vector dimensions: expected " +:+
                      VectorSearch.showDimensions (VectorSearch.dimensions this) +:+
                      ", got " +:+ pretty (Z.of_nat (length vector)))),
    s)).
Proof.
  split; [|split].
  - intros Hguard. rewrite search_cases.
    unfold VectorSearch.precheck, VectorSearch.ensureInitialized,
      VectorSearch.checkDimensions.
    destruct (VectorSearch.initialized this); [|reflexivity].
    destruct (VectorSearch.lengthMatches vector (VectorSearch.dimensions this));
      [|reflexivity].
    destruct Hguard as [Hi|[Hl|Hz]]; [discriminate Hi | discriminate Hl |].
    rewrite (zero_vector_has_no_norm vector Hz). reflexivity.
  - intros Hi. unfold VectorSearch.addVector, VectorSearch.ensureInitialized.
    rewrite Hi. reflexivity.
  - intros Hi Hl. unfold VectorSearch.addVector, VectorSearch.ensureInitialized,
      VectorSearch.checkDimensions.
    rewrite Hi, Hl. reflexivity.
Qed.

Lemma guards_in_search_and_addVector_witness :
  let session : VectorSearch.SearchSession unit :=
    {| VectorSearch.queryNodes := fun _ _ _ _ w => (Raised (newError "unused"), w);
       VectorSearch.vectorQuery := fun _ _ w => (Raised (newError "unused"), w);
       VectorSearch.keywordQuery := fun _ _ w => (Raised (newError "unused"), w);
       VectorSearch.fallbackQuery :=
         fun _ w =>
           (Returned [ {| VectorSearch.r_id := "recent";
                          VectorSearch.r_entityType := "Sensor";
                          VectorSearch.r_similarity := (1 # 2)%Q |} ], w) |} in
  let tx : VectorSearch.Transaction unit :=
    {| VectorSearch.beginTransaction := fun w => (Returned tt, w);
       VectorSearch.txRun := fun _ _ w => (Returned tt, w);
       VectorSearch.txCommit := fun w => (Returned tt, w);
       VectorSearch.txRollback := fun w => (Returned tt, w);
       VectorSearch.sessionRun := fun _ _ w => (Returned tt, w);
       VectorSearch.sessionClose := fun w => (Returned tt, w);
       VectorSearch.stringify := fun _ => "{}" |} in
  let this :=
    VectorSearch.setInitialized
      (VectorSearch.new ∅
         {| VectorSearch.opt_indexName := None; VectorSearch.opt_dimensions := Some 2%Z;
            VectorSearch.opt_similarityFunction := None;
            VectorSearch.opt_entityNodeLabel := None |}) in
  let options :=
    {| VectorSearch.limit := None; VectorSearch.hybridSearch := Some true;
       VectorSearch.minSimilarity := None; VectorSearch.queryText := Some "sensor";
       VectorSearch.rrfK := None |} in
  (∃ out,
     VectorSearch.search session this [0%Q; 0%Q] options tt = (Returned [out], tt) ∧
     VectorStore.id out = "recent" ∧
     VectorStore.metadata out !! "searchMethod" = None) ∧
  VectorSearch.addVector tx this "e1" [1%Q] None tt =
    (Raised (newError "Invalid vector dimensions: expected 2, got 1"), tt).
Proof.
  intros session tx this options.
  destruct (guards_in_search_and_addVector unit session tx this [0%Q; 0%Q] options
              "e1" None tt) as (Hsearch & _).
  destruct (guards_in_search_and_addVector unit session tx this [1%Q] options
              "e1" None tt) as (_ & _ & Hadd).
  split.
  - eexists. rewrite Hsearch.
    + split; [reflexivity|]. split; reflexivity.
    + right; right. repeat constructor.
  - rewrite Hadd; reflexivity.
Defined.

(** X20. The transaction of [addVector], once the guards have passed and
    the session and transaction are open. The session is closed last on
    every path. When the writes and the commit succeed, the outcome is that
    of closing the session. When a write or the commit fails, the
    transaction is rolled back and [addVector] fails: with the error of the
    close if that fails, else with the error of the rollback if that fails,
    else with the error of the write. [removeVector] has no such
    protection: when its query fails, the error surfaces at the state the
    query left, the session not closed. *)
Theorem addVector_transaction
    (W : Type) (tx : VectorSearch.Transaction W)
    (this : VectorSearch.Neo4jVectorStore) (vector : list Q)
    (id : string) (metadata : option (gmap string jsval)) (s s1 : W) :
  VectorSearch.initialized this = true →
  VectorSearch.lengthMatches vector (VectorSearch.dimensions this) = true →
  VectorSearch.beginTransaction tx s = (Returned tt, s1) →
  (∀ s2,
     VectorSearch.writeVector tx this id vector metadata s1 = (Returned tt, s2) →
     VectorSearch.addVector tx this id vector metadata s =
     VectorSearch.sessionClose tx s2) ∧
  (∀ e s2,
     VectorSearch.writeVector tx this id vector metadata s1 = (Raised e, s2) →
     ∃ surfaced,
       VectorSearch.addVector tx this id vector metadata s =
         (Raised surfaced,
          (VectorSearch.sessionClose tx (VectorSearch.txRollback tx s2).2).2) ∧
       surfaced =
         match (VectorSearch.sessionClose tx (VectorSearch.txRollback tx s2).2).1,
               (VectorSearch.txRollback tx s2).1 with
         | Raised closing, _ => closing
         | Returned _, Raised rolling => rolling
         | Returned _, Returned _ => e
         end) ∧
  (∀ e s2,
     VectorSearch.sessionRun tx (VectorSearch.removeQuery
                                   (VectorSearch.entityNodeLabel this))
       (VectorSearch.IdParams id) s = (Raised e, s2) →
     VectorSearch.removeVector tx this id s = (Raised e, s2)).
Proof.
  intros Hi Hl Hbegin.
  assert (Hadd : VectorSearch.addVector tx this id vector metadata s =
                 VectorSearch.tryFinally
                   (tryCatch (VectorSearch.writeVector tx this id vector metadata)
                      (fun error =>
                         let! _ := VectorSearch.txRollback tx in throw error))
                   (VectorSearch.sessionClose tx) s1).
  { unfold VectorSearch.addVector, VectorSearch.ensureInitialized,
      VectorSearch.checkDimensions. rewrite Hi, Hl.
    unfold bind at 1. rewrite Hbegin. reflexivity. }
  split; [|split].
  - intros s2 Hwrite. rewrite Hadd. unfold VectorSearch.tryFinally, tryCatch.
    rewrite Hwrite.
    destruct (VectorSearch.sessionClose tx s2) as [[[]|closing] s3]; reflexivity.
  - intros e s2 Hwrite. rewrite Hadd.
    unfold VectorSearch.tryFinally, tryCatch, bind, throw. rewrite Hwrite.
    destruct (VectorSearch.txRollback tx s2) as [[u|rolling] s3]; simpl;
      destruct (VectorSearch.sessionClose tx s3) as [[u'|closing] s4]; simpl;
      eexists; split; reflexivity.
  - intros e s2 Hrun. unfold VectorSearch.removeVector, VectorSearch.ensureInitialized.
    rewrite Hi. unfold bind. rewrite Hrun. reflexivity.
Qed.

Lemma addVector_transaction_witness :
  let tx : VectorSearch.Transaction (list string) :=
    {| VectorSearch.beginTransaction := fun w => (Returned tt, w ++ ["begin"])%list;
       VectorSearch.txRun :=
         fun _ _ w => (Raised (newError "write refused"), w ++ ["run"])%list;
       VectorSearch.txCommit := fun w => (Returned tt, w ++ ["commit"])%list;
       VectorSearch.txRollback := fun w => (Returned tt, w ++ ["rollback"])%list;
       VectorSearch.sessionRun :=
         fun _ _ w => (Raised (newError "query refused"), w ++ ["run"])%list;
       VectorSearch.sessionClose := fun w => (Returned tt, w ++ ["close"])%list;
       VectorSearch.stringify := fun _ => "{}" |} in
  let this :=
    VectorSearch.setInitialized
      (VectorSearch.new ∅
         {| VectorSearch.opt_indexName := None; VectorSearch.opt_dimensions := Some 2%Z;
            VectorSearch.opt_similarityFunction := None;
            VectorSearch.opt_entityNodeLabel := None |}) in
  VectorSearch.addVector tx this "e1" [1%Q; 0%Q] None [] =
    (Raised (newError "write refused"), ["begin"; "run"; "rollback"; "close"]) ∧
  VectorSearch.removeVector tx this "e1" [] =
    (Raised (newError "query refused"), ["run"]).
Proof.
  intros tx this.
  destruct (addVector_transaction (list string) tx this [1%Q; 0%Q] "e1" None
              [] ["begin"] eq_refl eq_refl eq_refl) as (_ & Hfail & Hremove).
  split.
  - destruct (Hfail (newError "write refused") ["begin"; "run"] eq_refl)
      as (surfaced & -> & ->). reflexivity.
  - apply Hremove. reflexivity.
Defined.

(** ** The migration manager *)

(** X21. A dry run of a clearing only counts. With [dryRun] set,
    [clearAllEmbeddings], [clearMismatchedEmbeddings] and the command-line
    [clearAllCommand] (whatever its backup flag) do to the database, and
    give back, exactly what their count query does: no backup is taken and
    nothing is removed. *)
Theorem dry_run_clears_only_count
    (W : Type) (session : Migration.Session W) (expectedDimensions : Z)
    (skipBackup : bool) (s : W) :
  Migration.clearAllEmbeddings session true s =
    Migration.runCount session Migration.countEmbeddedQuery None s ∧
  Migration.clearMismatchedEmbeddings session expectedDimensions true s =
    Migration.runCount session Migration.countMismatchedQuery
      (Some expectedDimensions) s ∧
  Migration.clearAllCommand session true skipBackup s =
    Migration.runCount session Migration.countEmbeddedQuery None s.
Proof.
  assert (Hall : Migration.clearAllEmbeddings session true s =
                 Migration.runCount session Migration.countEmbeddedQuery None s).
  { unfold Migration.clearAllEmbeddings, bind, ret.
    destruct (Migration.runCount session _ None s) as [[c|e] s']; [|reflexivity].
    destruct (Z.eqb_spec c 0) as [->|_]; reflexivity. }
  split; [exact Hall|]. split; [|exact Hall].
  unfold Migration.clearMismatchedEmbeddings, bind, ret.
  destruct (Migration.runCount session _ (Some expectedDimensions) s) as [[c|e] s'];
    [|reflexivity].
  destruct (Z.eqb_spec c 0) as [->|_]; reflexivity.
Qed.

(** X22. A real clearing. When the count is zero nothing is removed; else
    the removal runs and the number given back is the count taken before
    it, or the removal's error. The command takes its backup first, unless
    told to skip it: when the backup fails, the command fails with that
    error at the state the backup left, nothing counted and nothing
    removed. *)
Theorem clearing_counts_then_removes
    (W : Type) (session : Migration.Session W) (s s1 : W) :
  (Migration.runCount session Migration.countEmbeddedQuery None s =
     (Returned 0%Z, s1) →
   Migration.clearAllEmbeddings session false s = (Returned 0%Z, s1)) ∧
  (∀ count,
     count ≠ 0%Z →
     Migration.runCount session Migration.countEmbeddedQuery None s =
       (Returned count, s1) →
     Migration.clearAllEmbeddings session false s =
       match Migration.runUpdate session Migration.removeAllQuery None s1 with
       | (Returned _, s2) => (Returned count, s2)
       | (Raised e, s2) => (Raised e, s2)
       end) ∧
  (∀ e,
     Migration.backupEmbeddings session s = (Raised e, s1) →
     Migration.clearAllCommand session false false s = (Raised e, s1)) ∧
  (∀ backedUp,
     Migration.backupEmbeddings session s = (Returned backedUp, s1) →
     Migration.clearAllCommand session false false s =
     Migration.clearAllEmbeddings session false s1) ∧
  Migration.clearAllCommand session false true s =
    Migration.clearAllEmbeddings session false s.
Proof.
  split; [|split; [|split; [|split]]].
  - intros Hcount. unfold Migration.clearAllEmbeddings, bind, ret.
    rewrite Hcount. reflexivity.
  - intros count Hne Hcount. unfold Migration.clearAllEmbeddings, bind, ret.
    rewrite Hcount. destruct (Z.eqb_spec count 0); [contradiction|].
    destruct (Migration.runUpdate session _ None s1) as [[u|e] s2]; reflexivity.
  - intros e Hbackup. unfold Migration.clearAllCommand, bind. simpl.
    rewrite Hbackup. reflexivity.
  - intros backedUp Hbackup. unfold Migration.clearAllCommand. simpl.
    unfold bind at 1 2. rewrite Hbackup. reflexivity.
  - reflexivity.
Qed.

Lemma clearing_counts_then_removes_witness :
  let session : Migration.Session (list string) :=
    {| Migration.runCount :=
         fun q _ w =>
           if String.eqb q Migration.backupQuery
           then (Raised (newError "disk full"), w ++ ["backup"])%list
           else (Returned 7%Z, w ++ ["count"])%list;
       Migration.runUpdate := fun _ _ w => (Returned tt, w ++ ["remove"])%list;
       Migration.runHistogram := fun _ w => (Returned [], w);
       Migration.runMismatches := fun _ _ w => (Returned [], w);
       Migration.runMissing := fun _ w => (Returned [], w);
       Migration.runNames := fun _ _ w => (Returned [], w) |} in
  Migration.clearAllCommand session false false [] =
    (Raised (newError "disk full"), ["backup"]) ∧
  Migration.clearAllEmbeddings session false [] = (Returned 7%Z, ["count"; "remove"]).
Proof.
  intros session.
  destruct (clearing_counts_then_removes (list string) session [] ["backup"])
    as (_ & _ & Hbackup & _).
  destruct (clearing_counts_then_removes (list string) session [] ["count"])
    as (_ & Hremove & _).
  split.
  - apply Hbackup. reflexivity.
  - rewrite (Hremove 7%Z); [reflexivity | discriminate | reflexivity].
Defined.

(** X23. The summary of [analyzeEmbeddingState], when its five queries
    return. The entities without embedding are the total minus those with
    one; the list of mismatches is the sample of wrong-length embeddings
    followed by the sample of missing ones, the latter reported with
    dimension 0 and [hasEmbedding] unset, all with the expected dimension;
    and the status is [no-embeddings] exactly when no entity has an
    embedding, and else [consistent] exactly when both samples are empty,
    so that one entity without embedding makes the state [inconsistent]. *)
Theorem analysis_summary
    (W : Type) (session : Migration.Session W) (expected : Z)
    (s s1 s2 s3 s4 s5 : W) (total withEmbeddings : Z)
    (histogram : list (Z * Z)) (mismatched : list Migration.MismatchRecord)
    (missing : list Migration.MissingRecord) :
  Migration.runCount session Migration.countTotalQuery None s =
    (Returned total, s1) →
  Migration.runCount session Migration.countWithEmbeddingsQuery None s1 =
    (Returned withEmbeddings, s2) →
  Migration.runHistogram session Migration.dimensionQuery s2 =
    (Returned histogram, s3) →
  Migration.runMismatches session Migration.mismatchQuery expected s3 =
    (Returned mismatched, s4) →
  Migration.runMissing session Migration.noEmbeddingQuery s4 = (Returned missing, s5) →
  ∃ summary,
    Migration.analyzeEmbeddingState session expected s = (Returned summary, s5) ∧
    (Migration.entitiesWithEmbeddings summary +
     Migration.entitiesWithoutEmbeddings summary)%Z = Migration.totalEntities summary ∧
    Migration.totalEntities summary = total ∧
    map Migration.entityName (Migration.mismatches summary) =
      (map Migration.mr_name mismatched ++ map Migration.ms_name missing)%list ∧
    map Migration.hasEmbedding (Migration.mismatches summary) =
      (map (λ _, true) mismatched ++ map (λ _, false) missing)%list ∧
    Forall (λ m, Migration.expectedDimensions m = expected ∧
                 (Migration.hasEmbedding m = false →
                  Migration.currentDimensions m = 0%Z))
      (Migration.mismatches summary) ∧
    (Migration.consistencyStatus summary = Migration.noEmbeddings ↔
     withEmbeddings = 0%Z) ∧
    (Migration.consistencyStatus summary = Migration.consistent ↔
     withEmbeddings ≠ 0%Z ∧ mismatched = [] ∧ missing = []).
Proof.
  intros Htotal Hwith Hhist Hmis Hnone.
  eexists. split.
  { unfold Migration.analyzeEmbeddingState, bind, ret.
    rewrite Htotal, Hwith, Hhist, Hmis, Hnone. reflexivity. }
  cbn [Migration.totalEntities Migration.entitiesWithEmbeddings
       Migration.entitiesWithoutEmbeddings Migration.mismatches
       Migration.consistencyStatus].
  split; [lia|]. split; [reflexivity|].
  split; [by rewrite map_app, !map_map|].
  split; [by rewrite map_app, !map_map|].
  split.
  { apply Forall_app. split; apply Forall_forall; intros m Hm;
      apply list_elem_of_fmap in Hm as (r & -> & _); simpl; split;
      (reflexivity || discriminate || auto). }
  destruct (Z.eqb_spec withEmbeddings 0) as [Hz|Hnz].
  - split; split; try done. by intros [? _].
  - destruct mismatched as [|m ms]; destruct missing as [|n ns]; simpl;
      split; split; try done; try (by intros (_ & [=] & _));
      try (by intros (_ & _ & [=])).
Qed.

Lemma analysis_summary_witness :
  let session : Migration.Session unit :=
    {| Migration.runCount :=
         fun q _ w =>
           if String.eqb q Migration.countTotalQuery
           then (Returned 3%Z, w) else (Returned 2%Z, w);
       Migration.runUpdate := fun _ _ w => (Returned tt, w);
       Migration.runHistogram := fun _ w => (Returned [(1024%Z, 2%Z)], w);
       Migration.runMismatches := fun _ _ w => (Returned [], w);
       Migration.runMissing :=
         fun _ w =>
           (Returned [ {| Migration.ms_name := "e3"; Migration.ms_type := "Sensor" |} ],
            w);
       Migration.runNames := fun _ _ w => (Returned [], w) |} in
  ∃ summary,
    Migration.analyzeEmbeddingState session 1024 tt = (Returned summary, tt) ∧
    Migration.entitiesWithoutEmbeddings summary = 1%Z ∧
    Migration.consistencyStatus summary = Migration.inconsistent.
Proof.
  intros session.
  destruct (analysis_summary unit session 1024 tt tt tt tt tt tt 3 2
              [(1024%Z, 2%Z)] []
              [ {| Migration.ms_name := "e3"; Migration.ms_type := "Sensor" |} ]
              eq_refl eq_refl eq_refl eq_refl eq_refl)
    as (summary & Hrun & Hsum & Htotal & _ & _ & _ & Hnone & Hcons).
  exists summary. split; [exact Hrun|]. split; [|].
  - vm_compute in Hrun. injection Hrun as <-. reflexivity.
  - vm_compute in Hrun. injection Hrun as <-. reflexivity.
Defined.

(** ** The entity text of the two tools *)

(** X24. The text the Voyage migration script embeds against the text the
    reindex manager embeds. For an entity whose observations are an array,
    [entityToText] gives exactly what [generateEmbeddingText] gives for the
    same name, type and observations; so does a missing or empty
    observations field with no observations at all. A string that
    [JSON.parse] rejects counts as one observation, and one it reads as an
    array counts as that array. *)
Theorem entityToText_agrees_with_reindex
    (jsonParse : string → outcome (list string))
    (id name type : string) :
  let entity obs :=
    {| VoyageMigration.id := id; VoyageMigration.name := name;
       VoyageMigration.entityType := type; VoyageMigration.observations := obs |} in
  let batch obs :=
    {| Reindex.name := name; Reindex.type := type; Reindex.observations := obs |} in
  (∀ obs,
     VoyageMigration.entityToText jsonParse (entity (VoyageMigration.ObsArray obs)) =
     Reindex.generateEmbeddingText (batch obs)) ∧
  VoyageMigration.entityToText jsonParse (entity VoyageMigration.ObsMissing) =
    Reindex.generateEmbeddingText (batch []) ∧
  VoyageMigration.entityToText jsonParse
    (entity (VoyageMigration.ObsString EmptyString)) =
    Reindex.generateEmbeddingText (batch []) ∧
  (∀ raw e,
     raw ≠ EmptyString → jsonParse raw = Raised e →
     VoyageMigration.entityToText jsonParse (entity (VoyageMigration.ObsString raw)) =
     Reindex.generateEmbeddingText (batch [raw])) ∧
  (∀ raw obs,
     raw ≠ EmptyString → jsonParse raw = Returned obs →
     VoyageMigration.entityToText jsonParse (entity (VoyageMigration.ObsString raw)) =
     Reindex.generateEmbeddingText (batch obs)).
Proof.
  cbv zeta. unfold VoyageMigration.entityToText, Reindex.generateEmbeddingText.
  simpl. split; [|split; [|split; [|split]]].
  - intros [|o obs]; reflexivity.
  - reflexivity.
  - reflexivity.
  - intros raw e Hne Hparse.
    destruct (String.eqb_spec raw EmptyString); [contradiction|].
    rewrite Hparse. reflexivity.
  - intros raw obs Hne Hparse.
    destruct (String.eqb_spec raw EmptyString); [contradiction|].
    rewrite Hparse. destruct obs; reflexivity.
Qed.

Lemma entityToText_agrees_with_reindex_witness :
  VoyageMigration.entityToText (fun _ => Raised (ErrorObject "SyntaxError" "Unexpected token"))
    {| VoyageMigration.id := "1"; VoyageMigration.name := "pump";
       VoyageMigration.entityType := "Sensor";
       VoyageMigration.observations := VoyageMigration.ObsString "runs hot" |} =
  "Entity: pump" +:+ JS.nl +:+ "Type: Sensor" +:+ JS.nl +:+ "Observations: runs hot".
Proof.
  rewrite (proj1 (proj2 (proj2 (proj2
             (entityToText_agrees_with_reindex
                (fun _ => Raised (ErrorObject "SyntaxError" "Unexpected token"))
                "1" "pump" "Sensor")))) "runs hot"
             (ErrorObject "SyntaxError" "Unexpected token")
             ltac:(discriminate) eq_refl).
  reflexivity.
Defined.

(** ** Further properties of the configuration and the store *)

(** X25. [initialize] of the vector store, for every schema manager. When
    the index exists the store becomes initialized without the index being
    created or compared with the dimension of the store; when it does not,
    it is created under the store's index name, label, dimension and
    similarity function, on the [embedding] property, and the store becomes
    initialized only if that succeeds. A failure of either call is the
    failure of [initialize]. An initialized store differs from the one
    before in the flag only, so the guards of the vector operations then
    come down to the length check. *)
Theorem initialize_outcomes
    (W : Type) (schemaManager : VectorSearch.SchemaManager W)
    (this : VectorSearch.Neo4jVectorStore) (s : W) :
  VectorSearch.initialize schemaManager this s =
    match VectorSearch.vectorIndexExists schemaManager
            (VectorSearch.indexName this) s with
    | (Raised e, s1) => (Raised e, s1)
    | (Returned true, s1) => (Returned (VectorSearch.setInitialized this), s1)
    | (Returned false, s1) =>
        match VectorSearch.createVectorIndex schemaManager
                (VectorSearch.indexName this) (VectorSearch.entityNodeLabel this)
                "embedding" (VectorSearch.dimensions this)
                (VectorSearch.similarityFunction this) s1 with
        | (Returned _, s2) => (Returned (VectorSearch.setInitialized this), s2)
        | (Raised e, s2) => (Raised e, s2)
        end
    end ∧
  (∀ this' s',
     VectorSearch.initialize schemaManager this s = (Returned this', s') →
     VectorSearch.initialized this' = true ∧
     VectorSearch.dimensions this' = VectorSearch.dimensions this ∧
     VectorSearch.indexName this' = VectorSearch.indexName this ∧
     ∀ vector,
       VectorSearch.precheck this' vector = VectorSearch.checkDimensions this vector).
Proof.
  assert (Hrun : VectorSearch.initialize schemaManager this s =
    match VectorSearch.vectorIndexExists schemaManager
            (VectorSearch.indexName this) s with
    | (Raised e, s1) => (Raised e, s1)
    | (Returned true, s1) => (Returned (VectorSearch.setInitialized this), s1)
    | (Returned false, s1) =>
        match VectorSearch.createVectorIndex schemaManager
                (VectorSearch.indexName this) (VectorSearch.entityNodeLabel this)
                "embedding" (VectorSearch.dimensions this)
                (VectorSearch.similarityFunction this) s1 with
        | (Returned _, s2) => (Returned (VectorSearch.setInitialized this), s2)
        | (Raised e, s2) => (Raised e, s2)
        end
    end).
  { unfold VectorSearch.initialize, bind, ret.
    destruct (VectorSearch.vectorIndexExists schemaManager _ s) as [[[|]|e] s1];
      reflexivity. }
  split; [exact Hrun|].
  intros this' s' Hinit. rewrite Hrun in Hinit.
  assert (Hthis : this' = VectorSearch.setInitialized this).
  { destruct (VectorSearch.vectorIndexExists schemaManager _ s) as [[[|]|e] s1];
      [congruence | | discriminate].
    destruct (VectorSearch.createVectorIndex schemaManager _ _ _ _ _ s1)
      as [[u|e] s2]; [congruence | discriminate]. }
  subst this'. repeat split; reflexivity.
Qed.

Lemma initialize_outcomes_witness :
  let schemaManager : VectorSearch.SchemaManager (list string) :=
    {| VectorSearch.vectorIndexExists := fun _ w => (Returned true, w ++ ["exists?"])%list;
       VectorSearch.createVectorIndex :=
         fun _ _ _ _ _ w => (Returned tt, w ++ ["create"])%list |} in
  let this :=
    VectorSearch.new (<["NEO4J_VECTOR_DIMENSIONS" := "abc"]> ∅)
      {| VectorSearch.opt_indexName := None; VectorSearch.opt_dimensions := None;
         VectorSearch.opt_similarityFunction := None;
         VectorSearch.opt_entityNodeLabel := None |} in
  ∃ this',
    VectorSearch.initialize schemaManager this [] = (Returned this', ["exists?"]) ∧
    VectorSearch.initialized this' = true ∧
    VectorSearch.dimensions this' = None.
Proof.
  intros schemaManager this.
  destruct (initialize_outcomes (list string) schemaManager this []) as (Hrun & Hafter).
  exists (VectorSearch.setInitialized this).
  destruct (Hafter (VectorSearch.setInitialized this) ["exists?"] eq_refl)
    as (Hflag & Hdims & _).
  split; [reflexivity|]. split; [exact Hflag|]. rewrite Hdims. reflexivity.
Defined.

(** X26. The count of [countEntitiesForReindex] takes no account of the
    limit: for every runtime and options, counting under a replaced limit
    is counting under the options themselves, while the selection, unless a
    custom query is used, sends the same filter parameters as the count. A
    preview count can therefore exceed what a limited run selects. *)
Theorem count_ignores_limit
    (W : Type) (rt : Reindex.Runtime W) (options : Reindex.ReindexOptions)
    (limit : Z) :
  Reindex.countEntitiesForReindex rt (ReindexAdmin.withLimit options limit) =
    Reindex.countEntitiesForReindex rt options ∧
  (Reindex.countQuery options).2 = (Reindex.selectionQuery options).2 ∧
  (Reindex.selectionQuery (ReindexAdmin.withLimit options limit)).2 =
    (Reindex.selectionQuery options).2.
Proof.
  split; [|split].
  - reflexivity.
  - unfold Reindex.countQuery, Reindex.selectionQuery.
    destruct (JS.truthyStr (Reindex.customQuery options)); reflexivity.
  - unfold Reindex.selectionQuery. simpl.
    destruct (JS.truthyStr (Reindex.customQuery options)); reflexivity.
Qed.

Section Recommendations.

Import EmbeddingConfigValidator.

Lemma pushIf_true_nonempty (x : string) (xs : list string) : pushIf true x xs ≠ [].
Proof. simpl. intros H. apply app_eq_nil in H as [_ H]. discriminate H. Qed.

Lemma pushIf_nonempty (c : bool) (x : string) (xs : list string) :
  xs ≠ [] → pushIf c x xs ≠ [].
Proof.
  intros Hne. destruct c; simpl; [|exact Hne].
  intros H. apply app_eq_nil in H as [H _]. contradiction.
Qed.

(** A configuration without API key and not mocked, or a mocked one, has a
    warning. *)
Lemma validate_warnings_nonempty (env : Env) :
  negb (apiKeyConfigured (config (validate env))) &&
    negb (mockEmbeddings (config (validate env))) = true ∨
  mockEmbeddings (config (validate env)) = true →
  warnings (validate env) ≠ [].
Proof.
  unfold validate.
  destruct (resolveEmbeddingDimensions _ _) as [[d src] errs].
  destruct (resolveVectorIndexDimensions _ _) as [[d' src'] errs']. simpl.
  set (mock := match env !! "MOCK_EMBEDDINGS" with
               | Some s => String.eqb s "true"
               | None => false
               end).
  intros Hcase.
  assert (Hw3 : pushIf mock mockWarning
                  (pushIf (negb (JS.truthyStr (env !! "OPENAI_API_KEY")) && negb mock)
                     noApiKeyWarning
                     (pushIf (negb (JS.hasProperty OPENAI_MODEL_DIMENSIONS (modelOf env))
                              && negb mock)
                        (unrecognizedModelWarning (modelOf env)) [])) ≠ []).
  { destruct Hcase as [Hcase|Hcase]; rewrite Hcase.
    - apply pushIf_nonempty, pushIf_true_nonempty.
    - apply pushIf_true_nonempty. }
  destruct (JS.truthyStr (env !! "OPENAI_EMBEDDING_DIMENSIONS") &&
            JS.truthyStr (env !! "NEO4J_VECTOR_DIMENSIONS"));
    [by apply pushIf_nonempty | exact Hw3].
Qed.

End Recommendations.

(** X27. The recommendations, for every environment, as a function of
    what was resolved: the line about fixing errors when the configuration
    is invalid, with the value to set when the dimensions differ; the hint
    to set an API key exactly when none is configured and embeddings are not
    mocked; the hint to stop mocking exactly when they are; and the best
    practices with the model name. The test on the number of warnings in
    the code changes nothing, as each hint comes with a warning. *)
Theorem recommendations_follow_configuration (env : gmap string string) :
  let r := EmbeddingConfigValidator.validate env in
  let c := EmbeddingConfigValidator.config r in
  EmbeddingConfigReport.getRecommendations env =
  ((if EmbeddingConfigValidator.isValid r then []
    else EmbeddingConfigReport.fixHeader ::
         (if EmbeddingConfigValidator.dimensionsMatch c then []
          else [EmbeddingConfigReport.fixLine (EmbeddingConfigValidator.dimensions c)]))
   ++ (if negb (EmbeddingConfigValidator.apiKeyConfigured c) &&
          negb (EmbeddingConfigValidator.mockEmbeddings c)
       then ["  Set OPENAI_API_KEY to enable real embedding generation"] else [])
   ++ (if EmbeddingConfigValidator.mockEmbeddings c
       then ["  Remove MOCK_EMBEDDINGS=true for production use"] else [])
   ++ EmbeddingConfigReport.bestPractices (EmbeddingConfigValidator.modelOf env))%list ∧
  EmbeddingConfigValidator.apiKeyConfigured c = JS.truthyStr (env !! "OPENAI_API_KEY") ∧
  EmbeddingConfigValidator.mockEmbeddings c =
    bool_decide (env !! "MOCK_EMBEDDINGS" = Some "true").
Proof.
  cbv zeta. split; [|split].
  - unfold EmbeddingConfigReport.getRecommendations.
    assert (Hmodel : EmbeddingConfigValidator.model
                       (EmbeddingConfigValidator.config
                          (EmbeddingConfigValidator.validate env)) =
                     EmbeddingConfigValidator.modelOf env).
    { unfold EmbeddingConfigValidator.validate.
      destruct (EmbeddingConfigValidator.resolveEmbeddingDimensions _ _)
        as [[d src] errs].
      destruct (EmbeddingConfigValidator.resolveVectorIndexDimensions _ _)
        as [[d' src'] errs']. reflexivity. }
    rewrite Hmodel.
    pose proof (validate_warnings_nonempty env) as Hwarn.
    destruct (EmbeddingConfigValidator.isValid _);
      destruct (EmbeddingConfigValidator.dimensionsMatch _);
      destruct (EmbeddingConfigValidator.apiKeyConfigured _);
      destruct (EmbeddingConfigValidator.mockEmbeddings _);
      destruct (EmbeddingConfigValidator.warnings _) as [|w ws];
      simpl in *; try reflexivity;
      exfalso; apply Hwarn; auto.
  - unfold EmbeddingConfigValidator.validate.
    destruct (EmbeddingConfigValidator.resolveEmbeddingDimensions _ _)
      as [[d src] errs].
    destruct (EmbeddingConfigValidator.resolveVectorIndexDimensions _ _)
      as [[d' src'] errs']. reflexivity.
  - apply validate_mockEmbeddings.
Qed.

Section ModelTable.

Lemma ownLookup_value (table : list (string * Z)) (key : string) (n : Z) :
  JS.ownLookup table key = Some n → n ∈ map snd table.
Proof.
  induction table as [|[k v] table IH]; simpl; [discriminate|].
  destruct (String.eqb k key).
  - intros [= <-]. apply elem_of_cons. by left.
  - intros H. apply elem_of_cons. right. by apply IH.
Qed.

Lemma lookupOr_range (table : list (string * Z)) (m : string) (fallback : Z) :
  match lookupOr table m fallback with
  | Dim n => n = fallback ∨ n ∈ map snd table
  | ProtoMember key => key = m ∧ JS.inherited m = true
  end.
Proof.
  unfold lookupOr, JS.get.
  destruct (JS.ownLookup table m) as [n|] eqn:Hown.
  - destruct (n =? 0)%Z; [by left|]. right. by eapply ownLookup_value.
  - destruct (JS.inherited m) eqn:Hinh; [by split | by left].
Qed.

End ModelTable.

(** X28. The range of [getModelDimensions], for every model name: the
    result is one of 512, 1024, 1536 and 3072, except for a name that every
    object inherits from [Object.prototype], for which it is that inherited
    member and no number. For a name that starts with [voyage-] the number
    is never 3072, and for any other name it is 1536 or 3072. *)
Theorem getModelDimensions_range (modelName : string) :
  match getModelDimensions modelName with
  | Dim n =>
      n ∈ [512; 1024; 1536; 3072]%Z ∧
      (if JS.startsWith modelName "voyage-"
       then n ≠ 3072%Z else n = 1536%Z ∨ n = 3072%Z)
  | ProtoMember key => key = modelName ∧ JS.inherited modelName = true
  end.
Proof.
  unfold getModelDimensions.
  destruct (JS.startsWith modelName "voyage-").
  - pose proof (lookupOr_range VOYAGE_MODEL_DIMENSIONS modelName 1024) as Hrange.
    destruct (lookupOr VOYAGE_MODEL_DIMENSIONS modelName 1024) as [n|key];
      [|exact Hrange].
    destruct Hrange as [->|Hin]; [split; [by_decision | discriminate]|].
    simpl in Hin. rewrite !elem_of_cons in Hin.
    repeat destruct Hin as [->|Hin]; try (split; [by_decision | discriminate]).
    by apply elem_of_nil in Hin.
  - pose proof (lookupOr_range OPENAI_MODEL_DIMENSIONS modelName 1536) as Hrange.
    destruct (lookupOr OPENAI_MODEL_DIMENSIONS modelName 1536) as [n|key];
      [|exact Hrange].
    destruct Hrange as [->|Hin]; [split; [by_decision | by left]|].
    simpl in Hin. rewrite !elem_of_cons in Hin.
    repeat destruct Hin as [->|Hin]; try (split; [by_decision | auto]).
    by apply elem_of_nil in Hin.
Qed.
